(** * AXS staking bot: the signal evaluator, the pipeline and the poll loop

    A shallow embedding of [src/bot.py] and [src/utils/binance.py].

    - Python [float] and numpy [float64] values are IEEE-754 binary64 numbers:
      Rocq's primitive floats, with their infinities, signed zeros and NaN.
      [np.mean] adds in the order of numpy's pairwise summation.  The
      built-in [sum] adds in index order, as CPython does up to 3.11; the
      compensated summation of later interpreters is left out.
    - [decimal.Decimal] values are exact: a rational, an infinity or NaN.
    - The exchange client, the chain client, the notifier, the logger and
      [asyncio.sleep] are the outside world.  Every call to it is recorded in a
      chronological trace, and what the world answers is read from an oracle
      indexed by a clock that advances with every call.
    - Python exceptions are values of [exn], the subclasses of [Exception]; a
      computation returns a value or raises, and keeps the effects it had
      before raising.  Interrupts ([KeyboardInterrupt], cancellation) are
      outside the model.
    - One task runs the loop.  Another task can run only while the loop
      sleeps, and what it can do to the controller is call [stop]; whether it
      does is part of the oracle.
    - The [while] loop of [run] is cut off after a given number of passes. *)

From Stdlib Require Import List String ZArith QArith Bool Lia Floats.
Import ListNotations.

Set Implicit Arguments.

(** ** Exceptions and results *)

(** The subclasses of Python's [Exception] that the program can meet.
    [ExternalError] stands for whatever else a library call lets escape
    (connection errors, timeouts, malformed responses). *)
Inductive exn : Type :=
| BinanceAPIException (msg : string)
| ExternalError (msg : string)
| ZeroDivisionError
| ValueError
| InvalidOperation
| StopIteration
| RuntimeError.

Inductive result (A : Type) : Type :=
| Ok (a : A)
| Raise (e : exn).
Arguments Ok {A} a.
Arguments Raise {A} e.

(** [except BinanceAPIException] *)
Definition is_BinanceAPIException (e : exn) : bool :=
  match e with
  | BinanceAPIException _ => true
  | _ => false
  end.

(** [except Exception] *)
Definition is_Exception (e : exn) : bool := true.

Definition is_StopIteration (e : exn) : bool :=
  match e with
  | StopIteration => true
  | _ => false
  end.

(** What a call to the exchange or chain client comes back with. *)
Inductive client_result (A : Type) : Type :=
| Returned (a : A)
| ApiError (msg : string)
| Failure (msg : string).
Arguments Returned {A} a.
Arguments ApiError {A} msg.
Arguments Failure {A} msg.

Definition result_of_client {A} (r : client_result A) : result A :=
  match r with
  | Returned a => Ok a
  | ApiError msg => Raise (BinanceAPIException msg)
  | Failure msg => Raise (ExternalError msg)
  end.

(** ** Numbers *)

(** [decimal.Decimal]: construction and comparison are exact. *)
Inductive Decimal : Type :=
| DFinite (q : Q)
| DInfinity (negative : bool)
| DNaN.

(** [Decimal('0')] *)
Definition Decimal_zero : Decimal := DFinite 0.

(** [a >= b] on Decimals; an ordering comparison with NaN signals
    [InvalidOperation]. *)
Definition Decimal_ge (a b : Decimal) : result bool :=
  match a, b with
  | DNaN, _ | _, DNaN => Raise InvalidOperation
  | DFinite x, DFinite y => Ok (Qle_bool y x)
  | DInfinity sa, DInfinity sb => Ok (orb (negb sa) sb)
  | DInfinity sa, DFinite _ => Ok (negb sa)
  | DFinite _, DInfinity sb => Ok sb
  end.

(** [0 < d] *)
Definition Decimal_pos (d : Decimal) : Prop :=
  match d with
  | DFinite q => (0 < q)%Q
  | DInfinity negative => negative = false
  | DNaN => False
  end.

Module Py.

(** The literal [0.95] is the binary64 number nearest to 95/100. *)
Definition f0_95 : float := 0x1.e666666666666p-1%float.

(** [float(n)] for a length. *)
Definition float_of_nat (n : nat) : float :=
  PrimFloat.of_uint63 (Uint63.of_Z (Z.of_nat n)).

(** Truth value of a float: false exactly for the two zeros (NaN is true). *)
Definition truthy (x : float) : bool := negb (PrimFloat.eqb x 0%float).

(** [a / b] on Python floats raises on a zero divisor. *)
Definition truediv (a b : float) : result float :=
  if PrimFloat.eqb b 0%float then Raise ZeroDivisionError
  else Ok (a / b)%float.

(** [sum(xs)]: left to right from 0. *)
Definition sum (xs : list float) : float :=
  fold_left PrimFloat.add xs 0%float.

(** [sum(xs) / len(xs)]: a float over an int, which raises when the int is
    zero. *)
Definition mean (xs : list float) : result float :=
  match List.length xs with
  | O => Raise ZeroDivisionError
  | S _ as n => Ok (sum xs / float_of_nat n)%float
  end.

(** numpy's sum of a block of at least 8 numbers, after the first 8 have
    been taken as 8 running sums: every further full group of 8 is added to
    them, [r[j] += a[i + j]]; then the 8 are added in pairs, and the numbers
    that are left (fewer than 8) are added to the result in index order. *)
Fixpoint add_groups (r0 r1 r2 r3 r4 r5 r6 r7 : float) (xs : list float)
    {struct xs} : float :=
  match xs with
  | x0 :: x1 :: x2 :: x3 :: x4 :: x5 :: x6 :: x7 :: rest =>
      add_groups (r0 + x0) (r1 + x1) (r2 + x2) (r3 + x3)
                 (r4 + x4) (r5 + x5) (r6 + x6) (r7 + x7) rest
  | _ =>
      fold_left PrimFloat.add xs
        (((r0 + r1) + (r2 + r3)) + ((r4 + r5) + (r6 + r7)))
  end%float.

(** numpy's sum of a block of at most 128 numbers: fewer than 8 are added
    in index order, starting from -0.0; 8 or more go through the 8 running
    sums. *)
Definition block_sum (xs : list float) : float :=
  match xs with
  | x0 :: x1 :: x2 :: x3 :: x4 :: x5 :: x6 :: x7 :: rest =>
      add_groups x0 x1 x2 x3 x4 x5 x6 x7 rest
  | _ => fold_left PrimFloat.add xs neg_zero
  end.

(** numpy's pairwise summation: more than 128 numbers are split in two, the
    first part being half of them rounded down to a multiple of 8, and the
    sums of the parts are added.  [depth] bounds the nesting of the splits;
    the length of the list is always enough. *)
Fixpoint pairwise_sum (depth : nat) (xs : list float) : float :=
  match depth with
  | S d =>
      if (128 <? List.length xs)%nat then
        let n2 := (List.length xs / 2 - (List.length xs / 2) mod 8)%nat in
        (pairwise_sum d (firstn n2 xs) + pairwise_sum d (skipn n2 xs))%float
      else block_sum xs
  | O => block_sum xs
  end.

(** [np.add.reduce] on a float64 array: the pairwise sum, added to the
    initial 0. *)
Definition np_sum (xs : list float) : float :=
  (0 + pairwise_sum (List.length xs) xs)%float.

(** [np.mean(xs)]: numpy's sum over the count, in float64.  Nothing raises:
    the empty list gives 0/0 = NaN. *)
Definition np_mean (xs : list float) : float :=
  (np_sum xs / float_of_nat (List.length xs))%float.

End Py.

(** ** Data exchanged with the outside world *)

(** One row of the exchange's kline response.  A numeric field arrives as text;
    it is represented by what [float(...)] makes of it: [None] when the
    conversion raises [ValueError]. *)
Record raw_kline : Type := {
  k0 : Z;
  k1 : option float;
  k2 : option float;
  k3 : option float;
  k4 : option float;
  k5 : option float;
  k6 : Z
}.

(** An entry of [formatted_klines]. *)
Record kline : Type := {
  open_time : Z;
  open_price : float;
  high_price : float;
  low_price : float;
  close_price : float;
  volume : float;
  close_time : Z
}.

(** An entry of [info['filters']]; [stepSize] is what [Decimal(...)] makes of
    the text ([None]: [InvalidOperation]). *)
Record symbol_filter : Type := {
  filterType : string;
  stepSize : option Decimal
}.

(** The order the exchange returns, a dictionary with these keys (so a true
    value in [if order]); [executedQty] is what [Decimal(...)] makes of the
    field ([None]: [InvalidOperation]). *)
Record Order : Type := {
  orderId : Z;
  status : string;
  executedQty : option Decimal
}.

(** The withdrawal the exchange returns: a dictionary with the key ['id'], so
    a true value in [if withdrawal:]. *)
Record Withdrawal : Type := {
  id : string
}.

(** Log and notification texts: the template and what is formatted into it.
    The first six are logged by [BinanceClient], the others by
    [AXSStakingBot]. *)
Inductive message : Type :=
| MsgBalanceError (asset : string) (e : exn)
    (* Fehler beim Abrufen des {asset} Kontostands: {e} *)
| MsgKlinesError (e : exn)
    (* Fehler beim Abrufen der Kline-Daten: {e} *)
| MsgCurrentPriceError (e : exn)
    (* Fehler beim Abrufen des aktuellen Preises: {e} *)
| MsgRsiError (e : exn)
    (* Fehler bei der RSI-Berechnung: {e} *)
| MsgOrderError (e : exn)
    (* Fehler beim Platzieren der Kauforder: {e} *)
| MsgWithdrawalError (e : exn)
    (* Fehler beim Withdrawal: {e} *)
| MsgConditionsMet (price rsi : float)
    (* Kaufbedingungen erfuellt - Preis: {current_price}, RSI: {rsi} *)
| MsgAnalysisError (e : exn)
    (* Fehler bei der Preisanalyse: {e} *)
| MsgBought (qty : option Decimal) (usdt : Decimal)
    (* Kauf ausgefuehrt: {order['executedQty']} AXS fuer {usdt_amount} USDT *)
| MsgBuyError (e : exn)
    (* Fehler beim Kauf: {e} *)
| MsgBuyFailed (e : exn)
    (* Kaufversuch fehlgeschlagen: {e} *)
| MsgTransferStarted (amount : Decimal)
    (* Transfer zu Ronin initiiert: {amount} AXS *)
| MsgTransferError (e : exn)
    (* Fehler beim Transfer: {e} *)
| MsgTransferFailed (e : exn)
    (* Transfer fehlgeschlagen: {e} *)
| MsgStaked (amount : Decimal)
    (* Staking erfolgreich: {amount} AXS *)
| MsgStakingError (e : exn)
    (* Fehler beim Staking: {e} *)
| MsgStakingFailed (e : exn)
    (* Staking fehlgeschlagen: {e} *)
| MsgBotStarted
    (* Bot gestartet *)
| MsgLoopError (e : exn)
    (* Fehler im Hauptloop: {e} *)
| MsgErrorOccurred (e : exn)
    (* Fehler aufgetreten: {e} *)
| MsgBotStopped.
    (* Bot gestoppt *)

Inductive level : Type := INFO | ERROR.

(** Calls that leave the process. *)
Inductive api_call : Type :=
| GetAssetBalance (asset : string)
| GetKlines (symbol interval : string) (limit : nat)
| GetSymbolTicker (symbol : string)
| GetSymbolInfo (symbol : string)
| OrderMarketBuy (symbol : string) (quantity : float)
| Withdraw (asset address : string) (amount : float) (network : string)
| RoninStakeAxs (amount : Decimal).

Inductive event : Type :=
| EvLog (lvl : level) (m : message)
| EvNotify (m : message)
| EvSleep (secs : Z)
| EvCall (c : api_call).

(** The configuration file, read through [self.config[...][...]]; a converted
    field holds the outcome of its conversion. *)
Record Config : Type := {
  usdt_amount : result Decimal;
  check_interval : result Z;
  wallet_address : string;
  telegram_enabled : bool
}.

(** What the outside world answers, by the time of the call.  The balance
    query answers with what [Decimal(balance['free'])] makes of the field, the
    ticker with what [float(ticker['price'])] makes of it; [stop_requested t]
    tells whether another task calls [stop] during the sleep that starts at
    time [t]. *)
Record Env : Type := {
  config : Config;
  client_get_asset_balance : nat -> client_result (option Decimal);
  client_get_klines : nat -> client_result (list raw_kline);
  client_get_symbol_ticker : nat -> client_result (option float);
  client_get_symbol_info : nat -> client_result (list symbol_filter);
  client_order_market_buy : nat -> client_result Order;
  client_withdraw : nat -> client_result Withdrawal;
  ronin_stake_axs : nat -> client_result (option string);
  stop_requested : nat -> bool
}.

(** ** State and effects *)

(** The controller's run flag, the clock and the trace of effects so far, oldest
    first. *)
Record State : Type := {
  running : bool;
  clock : nat;
  trace : list event
}.

Definition M (A : Type) : Type := State -> result A * State.

Definition ret {A} (a : A) : M A := fun s => (Ok a, s).

Definition raise {A} (e : exn) : M A := fun s => (Raise e, s).

Definition bind {A B} (m : M A) (k : A -> M B) : M B :=
  fun s =>
    match m s with
    | (Ok a, s') => k a s'
    | (Raise e, s') => (Raise e, s')
    end.

Declare Scope py_scope.
Delimit Scope py_scope with py.
Notation "x <- m ;; k" := (bind m (fun x => k))
  (at level 61, m at next level, right associativity) : py_scope.
Notation "m ;; k" := (bind m (fun _ => k))
  (at level 61, right associativity) : py_scope.
Open Scope py_scope.

Definition lift {A} (r : result A) : M A := fun s => (r, s).

(** [try: body  except <catches> as e: handler e] *)
Definition try_except {A} (body : M A) (catches : exn -> bool)
    (handler : exn -> M A) : M A :=
  fun s =>
    match body s with
    | (Ok a, s') => (Ok a, s')
    | (Raise e, s') => if catches e then handler e s' else (Raise e, s')
    end.

(** The frame of an [async def]: a [StopIteration] that leaves the body
    reaches whoever awaits the coroutine as
    [RuntimeError('coroutine raised StopIteration')].  It is written out
    where the body can raise one, which is in [place_market_buy]. *)
Definition coroutine {A} (body : M A) : M A :=
  try_except body is_StopIteration (fun _ => raise RuntimeError).

Definition emit (ev : event) : M unit :=
  fun s => (Ok tt, {| running := running s; clock := clock s;
                      trace := trace s ++ [ev] |}).

Definition tick : M nat :=
  fun s => (Ok (clock s), {| running := running s; clock := S (clock s);
                             trace := trace s |}).

Definition set_running (b : bool) : M unit :=
  fun s => (Ok tt, {| running := b; clock := clock s; trace := trace s |}).

Definition get_running : M bool := fun s => (Ok (running s), s).

(** A call to a client: recorded, then answered by the oracle. *)
Definition call {A} (c : api_call) (oracle : nat -> client_result A) : M A :=
  emit (EvCall c) ;;
  t <- tick ;;
  lift (result_of_client (oracle t)).

Definition logger_info (m : message) : M unit := emit (EvLog INFO m).
Definition logger_error (m : message) : M unit := emit (EvLog ERROR m).

(** [float(field)] and [Decimal(field)] on a field that arrived as text. *)
Definition py_float (field : option float) : result float :=
  match field with
  | Some x => Ok x
  | None => Raise ValueError
  end.

Definition py_Decimal (field : option Decimal) : result Decimal :=
  match field with
  | Some d => Ok d
  | None => Raise InvalidOperation
  end.

(** Truth value of a string: false exactly for the empty one. *)
Definition nonempty (s : string) : bool :=
  match s with
  | EmptyString => false
  | String _ _ => true
  end.

(** How an execution of the poll loop, cut off after a number of passes, ends:
    the loop condition was found false, or the passes were used up with the
    condition still true. *)
Inductive loop_end : Type :=
| LoopExited
| LoopStillRunning.

(** ** The program *)

(** *** [BinanceClient] *)

Module BinanceClient.
Section Client.

Variable env : Env.

(** [float(d)] for a Decimal [d]: the nearest binary64 number. *)
Variable float_of_Decimal : Decimal -> float.

(** [float(Decimal(str(q)).quantize(step))]: [None] when [quantize] signals
    [InvalidOperation]. *)
Variable quantize : float -> Decimal -> option float.

Definition get_balance (asset : string) : M Decimal :=
  try_except
    (balance <- call (GetAssetBalance asset) (client_get_asset_balance env) ;;
     match balance with
     | Some free => ret free
     | None => raise InvalidOperation
     end)
    is_BinanceAPIException
    (fun e => logger_error (MsgBalanceError asset e) ;; ret Decimal_zero).

Definition format_kline (k : raw_kline) : result kline :=
  match py_float (k1 k) with
  | Raise e => Raise e
  | Ok o =>
  match py_float (k2 k) with
  | Raise e => Raise e
  | Ok h =>
  match py_float (k3 k) with
  | Raise e => Raise e
  | Ok l =>
  match py_float (k4 k) with
  | Raise e => Raise e
  | Ok c =>
  match py_float (k5 k) with
  | Raise e => Raise e
  | Ok v =>
      Ok {| open_time := k0 k; open_price := o; high_price := h;
            low_price := l; close_price := c; volume := v;
            close_time := k6 k |}
  end end end end end.

(** The loop that fills [formatted_klines]. *)
Fixpoint format_klines (klines : list raw_kline) : result (list kline) :=
  match klines with
  | [] => Ok []
  | k :: rest =>
      match format_kline k with
      | Raise e => Raise e
      | Ok fk =>
          match format_klines rest with
          | Raise e => Raise e
          | Ok fks => Ok (fk :: fks)
          end
      end
  end.

Definition get_klines (symbol interval : string) (limit : nat)
    : M (list kline) :=
  try_except
    (klines <- call (GetKlines symbol interval limit) (client_get_klines env) ;;
     lift (format_klines klines))
    is_BinanceAPIException
    (fun e => logger_error (MsgKlinesError e) ;; ret []).

Definition get_current_price (symbol : string) : M float :=
  try_except
    (ticker <- call (GetSymbolTicker symbol) (client_get_symbol_ticker env) ;;
     lift (py_float ticker))
    is_BinanceAPIException
    (fun e => logger_error (MsgCurrentPriceError e) ;; ret 0%float).

(** [klines[i]['close_price'] - klines[i-1]['close_price']] for [i] from 1. *)
Fixpoint changes_of (closes : list float) : list float :=
  match closes with
  | prev :: (cur :: _) as rest => (cur - prev)%float :: changes_of rest
  | _ => []
  end.

Definition gain_of (change : float) : float :=
  if (0 <? change)%float then change else 0%float.

Definition loss_of (change : float) : float :=
  if (change <? 0)%float then (- change)%float else 0%float.

(** The arithmetic of [calculate_rsi] on a non-empty list of candles. *)
Definition rsi_of_klines (klines : list kline) : float :=
  let changes := changes_of (map close_price klines) in
  let gains := map gain_of changes in
  let losses := map loss_of changes in
  let avg_gain := Py.np_mean gains in
  let avg_loss := Py.np_mean losses in
  if (avg_loss =? 0)%float then 100%float
  else
    let rs := (avg_gain / avg_loss)%float in
    (100 - 100 / (1 + rs))%float.

Definition calculate_rsi (symbol : string) (period : nat) : M float :=
  try_except
    (klines <- get_klines symbol "1h" (period + 1) ;;
     match klines with
     | [] => ret 0%float
     | _ :: _ => ret (rsi_of_klines klines)
     end)
    is_Exception
    (fun e => logger_error (MsgRsiError e) ;; ret 0%float).

(** [next(f for f in info['filters'] if f['filterType'] == 'LOT_SIZE')] *)
Definition next_lot_size (filters : list symbol_filter)
    : result symbol_filter :=
  match find (fun f => String.eqb (filterType f) "LOT_SIZE") filters with
  | Some f => Ok f
  | None => Raise StopIteration
  end.

Definition py_quantize (quantity : float) (step_size : Decimal)
    : result float :=
  match quantize quantity step_size with
  | Some q => Ok q
  | None => Raise InvalidOperation
  end.

Definition place_market_buy (symbol : string) (usdt_amount : Decimal)
    : M (option Order) :=
  coroutine
    (try_except
       (price <- get_current_price symbol ;;
        if negb (Py.truthy price) then ret None
        else
          quantity <- lift (Py.truediv (float_of_Decimal usdt_amount)
                                       price) ;;
          info <- call (GetSymbolInfo symbol) (client_get_symbol_info env) ;;
          lot_size <- lift (next_lot_size info) ;;
          step_size <- lift (py_Decimal (stepSize lot_size)) ;;
          quantity <- lift (py_quantize quantity step_size) ;;
          order <- call (OrderMarketBuy symbol quantity)
                        (client_order_market_buy env) ;;
          ret (Some order))
       is_BinanceAPIException
       (fun e => logger_error (MsgOrderError e) ;; ret None)).

Definition withdraw_to_ronin (amount : Decimal) (address : string)
    : M (option Withdrawal) :=
  try_except
    (withdrawal <- call (Withdraw "AXS" address (float_of_Decimal amount)
                                  "Ronin")
                        (client_withdraw env) ;;
     ret (Some withdrawal))
    is_BinanceAPIException
    (fun e => logger_error (MsgWithdrawalError e) ;; ret None).

End Client.
End BinanceClient.

(** *** [AXSStakingBot] *)

Module AXSStakingBot.
Import BinanceClient.
Section Bot.

Variable env : Env.

(** [float(d)] for a Decimal [d]: the nearest binary64 number. *)
Variable float_of_Decimal : Decimal -> float.

(** [float(Decimal(str(q)).quantize(step))]: [None] when [quantize] signals
    [InvalidOperation]. *)
Variable quantize : float -> Decimal -> option float.

(** Modelled from the spec: [TelegramNotifier.send_message] of
    [src/utils/telegram.py], which is not among the sources.  The spec gives
    [send(text) -> void], best effort, its errors swallowed: the message goes
    out and nothing is raised. *)
Definition send_message (m : message) : M unit := emit (EvNotify m).

(** [if self.telegram: await self.telegram.send_message(m)] *)
Definition if_telegram_send_message (m : message) : M unit :=
  if telegram_enabled (config env) then send_message m else ret tt.

(** [AXSStakingBot.stop] *)
Definition stop : M unit :=
  set_running false ;;
  logger_info MsgBotStopped ;;
  if_telegram_send_message MsgBotStopped.

(** [await asyncio.sleep(secs)].  While the loop sleeps another task may run;
    the only one that touches the controller is a call to [stop]. *)
Definition asyncio_sleep (secs : Z) : M unit :=
  emit (EvSleep secs) ;;
  t <- tick ;;
  if stop_requested env t then stop else ret tt.

Definition check_price_conditions : M bool :=
  try_except
    (klines <- get_klines env "AXSUSDT" "1h" 24 ;;
     current_price <- get_current_price env "AXSUSDT" ;;
     let prices := map close_price klines in
     avg_price <- lift (Py.mean prices) ;;
     rsi <- calculate_rsi env "AXSUSDT" 14 ;;
     let price_condition := (current_price <? avg_price * Py.f0_95)%float in
     let rsi_condition := (rsi <? 30)%float in
     if price_condition && rsi_condition then
       logger_info (MsgConditionsMet current_price rsi) ;;
       ret true
     else ret false)
    is_Exception
    (fun e => logger_error (MsgAnalysisError e) ;; ret false).

Definition execute_buy (usdt_amount : Decimal) : M (option Order) :=
  try_except
    (order <- place_market_buy env float_of_Decimal quantize "AXSUSDT"
                usdt_amount ;;
     match order with
     | Some o =>
         if String.eqb (status o) "FILLED" then
           let msg := MsgBought (executedQty o) usdt_amount in
           logger_info msg ;;
           if_telegram_send_message msg ;;
           ret (Some o)
         else ret None
     | None => ret None
     end)
    is_Exception
    (fun e =>
       logger_error (MsgBuyError e) ;;
       if_telegram_send_message (MsgBuyFailed e) ;;
       ret None).

Definition transfer_to_ronin (amount : Decimal) : M (option string) :=
  try_except
    (withdrawal <- withdraw_to_ronin env float_of_Decimal amount
                     (wallet_address (config env)) ;;
     match withdrawal with
     | Some w =>
         let msg := MsgTransferStarted amount in
         logger_info msg ;;
         if_telegram_send_message msg ;;
         ret (Some (id w))
     | None => ret None
     end)
    is_Exception
    (fun e =>
       logger_error (MsgTransferError e) ;;
       if_telegram_send_message (MsgTransferFailed e) ;;
       ret None).

(** [tx_hash = await self.ronin.stake_axs(amount)].
    Modelled from the spec: [RoninClient.stake_axs], which the sources do not
    contain ([src/utils/ronin.py] ends before it).  The spec gives
    [stake(amount) -> transactionId | none]; the call is recorded and
    answered by the oracle, and may raise. *)
Definition ronin_stake (amount : Decimal) : M (option string) :=
  call (RoninStakeAxs amount) (ronin_stake_axs env).

Definition stake_axs (amount : Decimal) : M (option string) :=
  try_except
    (tx_hash <- ronin_stake amount ;;
     match tx_hash with
     | Some h =>
         if nonempty h then
           let msg := MsgStaked amount in
           logger_info msg ;;
           if_telegram_send_message msg ;;
           ret (Some h)
         else ret None
     | None => ret None
     end)
    is_Exception
    (fun e =>
       logger_error (MsgStakingError e) ;;
       if_telegram_send_message (MsgStakingFailed e) ;;
       ret None).

(** The pipeline inside [run]: buy, wait, withdraw, wait, stake. *)
Definition pipeline (usdt_amount : Decimal) : M unit :=
  order <- execute_buy usdt_amount ;;
  match order with
  | Some o =>
      asyncio_sleep 10 ;;
      amount <- lift (py_Decimal (executedQty o)) ;;
      tx_hash <- transfer_to_ronin amount ;;
      match tx_hash with
      | Some h =>
          if nonempty h then
            asyncio_sleep 900 ;;
            amount' <- lift (py_Decimal (executedQty o)) ;;
            stake_axs amount' ;;
            ret tt
          else ret tt
      | None => ret tt
      end
  | None => ret tt
  end.

(** The [try] block of one pass through the [while] loop of [run]. *)
Definition poll : M unit :=
  usdt_balance <- get_balance env "USDT" ;;
  amount <- lift (usdt_amount (config env)) ;;
  enough <- lift (Decimal_ge usdt_balance amount) ;;
  (if enough : bool then
     decision <- check_price_conditions ;;
     if decision : bool then pipeline amount else ret tt
   else ret tt) ;;
  interval <- lift (check_interval (config env)) ;;
  asyncio_sleep interval.

(** One pass through the loop: the [try] block and its [except Exception]. *)
Definition iteration : M unit :=
  try_except poll is_Exception
    (fun e =>
       logger_error (MsgLoopError e) ;;
       if_telegram_send_message (MsgErrorOccurred e) ;;
       asyncio_sleep 60).

(** [while self.running: ...], cut off after [fuel] passes. *)
Fixpoint while_running (fuel : nat) : M loop_end :=
  r <- get_running ;;
  if r : bool then
    match fuel with
    | O => ret LoopStillRunning
    | S fuel' => iteration ;; while_running fuel'
    end
  else ret LoopExited.

(** [AXSStakingBot.run] *)
Definition run (fuel : nat) : M loop_end :=
  set_running true ;;
  logger_info MsgBotStarted ;;
  if_telegram_send_message MsgBotStarted ;;
  while_running fuel.

End Bot.
End AXSStakingBot.

(** ** Concrete worlds *)

Module Example.

(** A stand-in for [float(d)], to run the examples: the numerator over the
    denominator.  It is [float(d)] while both are below 2^53, as they are in
    the examples; the theorems hold for every conversion. *)
Definition float_of_Z (z : Z) : float :=
  match z with
  | Z0 => 0%float
  | Zpos _ => PrimFloat.of_uint63 (Uint63.of_Z z)
  | Zneg p => (- PrimFloat.of_uint63 (Uint63.of_Z (Zpos p)))%float
  end.

Definition float_of_Decimal (d : Decimal) : float :=
  match d with
  | DFinite q => (float_of_Z (Qnum q) / float_of_Z (Zpos (Qden q)))%float
  | DInfinity negative => if negative then neg_infinity else infinity
  | DNaN => nan
  end.

(** A stand-in for the rounding to the lot size, to run the examples: it
    leaves the quantity as it is, where the code rounds it to the step.  The
    theorems hold for every rounding. *)
Definition quantize (quantity : float) (step : Decimal) : option float :=
  Some quantity.

(** A candle that opened, moved and closed at [c]. *)
Definition candle (c : float) : raw_kline :=
  {| k0 := 0; k1 := Some c; k2 := Some c; k3 := Some c; k4 := Some c;
     k5 := Some 1%float; k6 := 0 |}.

Definition formatted (c : float) : kline :=
  {| open_time := 0; open_price := c; high_price := c; low_price := c;
     close_price := c; volume := 1%float; close_time := 0 |}.

(** Fifteen hourly closes falling from 100 to 86. *)
Definition falling : list float :=
  [100; 99; 98; 97; 96; 95; 94; 93; 92; 91; 90; 89; 88; 87; 86]%float.

(** Five closes swinging between 0 and 1.7e308 (0x1.e42d130773b76p+1023). *)
Definition swinging : list float :=
  [0; 0x1.e42d130773b76p+1023; 0; 0x1.e42d130773b76p+1023; 0]%float.

Definition cfg : Config :=
  {| usdt_amount := Ok (DFinite 50);
     check_interval := Ok 300%Z;
     wallet_address := "ronin:wallet";
     telegram_enabled := true |}.

Definition filled : Order :=
  {| orderId := 7; status := "FILLED";
     executedQty := Some (DFinite (53 # 100)) |}.

Definition expired : Order :=
  {| orderId := 8; status := "EXPIRED"; executedQty := Some (DFinite 0) |}.

(** Every call succeeds: 24 candles at 100, a price of 94, a filled order. *)
Definition calm : Env :=
  {| config := cfg;
     client_get_asset_balance := fun _ => Returned (Some (DFinite 1000));
     client_get_klines := fun _ => Returned (repeat (candle 100) 24);
     client_get_symbol_ticker := fun _ => Returned (Some 94%float);
     client_get_symbol_info := fun _ =>
       Returned [ {| filterType := "LOT_SIZE";
                     stepSize := Some (DFinite (1 # 100)) |} ];
     client_order_market_buy := fun _ => Returned filled;
     client_withdraw := fun _ => Returned {| id := "w-1" |};
     ronin_stake_axs := fun _ => Returned (Some "0xabc"%string);
     stop_requested := fun _ => false |}.

(** As [calm], but only the first candle query is answered: the one that
    [calculate_rsi] makes afterwards raises an API exception. *)
Definition rsi_fetch_down : Env :=
  {| config := cfg;
     client_get_asset_balance := client_get_asset_balance calm;
     client_get_klines := fun t =>
       if Nat.eqb t 0 then Returned (repeat (candle 100) 24)
       else ApiError "down";
     client_get_symbol_ticker := client_get_symbol_ticker calm;
     client_get_symbol_info := client_get_symbol_info calm;
     client_order_market_buy := client_order_market_buy calm;
     client_withdraw := client_withdraw calm;
     ronin_stake_axs := ronin_stake_axs calm;
     stop_requested := fun _ => false |}.

(** The candle queries are answered (24 candles at 100, then the falling
    closes), the price query raises an API exception. *)
Definition price_fetch_down : Env :=
  {| config := cfg;
     client_get_asset_balance := client_get_asset_balance calm;
     client_get_klines := fun t =>
       if Nat.eqb t 0 then Returned (repeat (candle 100) 24)
       else Returned (map candle falling);
     client_get_symbol_ticker := fun _ => ApiError "down";
     client_get_symbol_info := client_get_symbol_info calm;
     client_order_market_buy := client_order_market_buy calm;
     client_withdraw := client_withdraw calm;
     ronin_stake_axs := ronin_stake_axs calm;
     stop_requested := fun _ => false |}.

(** Every call succeeds, and the market is oversold: 24 candles at 100, then
    the falling closes for the oscillator, and a price of 94. *)
Definition oversold : Env :=
  {| config := cfg;
     client_get_asset_balance := client_get_asset_balance calm;
     client_get_klines := fun t =>
       if Nat.eqb t 0 then Returned (repeat (candle 100) 24)
       else Returned (map candle falling);
     client_get_symbol_ticker := client_get_symbol_ticker calm;
     client_get_symbol_info := client_get_symbol_info calm;
     client_order_market_buy := client_order_market_buy calm;
     client_withdraw := client_withdraw calm;
     ronin_stake_axs := ronin_stake_axs calm;
     stop_requested := fun _ => false |}.

(** As [calm], but the candles swing between 0 and 1.7e308. *)
Definition overflowing : Env :=
  {| config := cfg;
     client_get_asset_balance := client_get_asset_balance calm;
     client_get_klines := fun _ => Returned (map candle swinging);
     client_get_symbol_ticker := client_get_symbol_ticker calm;
     client_get_symbol_info := client_get_symbol_info calm;
     client_order_market_buy := client_order_market_buy calm;
     client_withdraw := client_withdraw calm;
     ronin_stake_axs := ronin_stake_axs calm;
     stop_requested := fun _ => false |}.

(** As [calm], but the order comes back unfilled. *)
Definition order_expired : Env :=
  {| config := cfg;
     client_get_asset_balance := client_get_asset_balance calm;
     client_get_klines := client_get_klines calm;
     client_get_symbol_ticker := client_get_symbol_ticker calm;
     client_get_symbol_info := client_get_symbol_info calm;
     client_order_market_buy := fun _ => Returned expired;
     client_withdraw := client_withdraw calm;
     ronin_stake_axs := ronin_stake_axs calm;
     stop_requested := fun _ => false |}.

(** As [calm], but the balance query raises an API exception. *)
Definition balance_down : Env :=
  {| config := cfg;
     client_get_asset_balance := fun _ => ApiError "down";
     client_get_klines := client_get_klines calm;
     client_get_symbol_ticker := client_get_symbol_ticker calm;
     client_get_symbol_info := client_get_symbol_info calm;
     client_order_market_buy := client_order_market_buy calm;
     client_withdraw := client_withdraw calm;
     ronin_stake_axs := ronin_stake_axs calm;
     stop_requested := fun _ => false |}.

(** A controller that runs and has done nothing yet; one that was stopped. *)
Definition fresh : State := {| running := true; clock := 0; trace := [] |}.

Definition stopped : State :=
  {| running := false; clock := 3;
     trace := [EvLog INFO MsgBotStarted; EvNotify MsgBotStarted;
               EvLog INFO MsgBotStopped; EvNotify MsgBotStopped] |}.

(** Log entries and notifications. *)
Definition is_report (ev : event) : bool :=
  match ev with
  | EvLog _ _ | EvNotify _ => true
  | _ => false
  end.

End Example.

(** ** Binary64 arithmetic *)

Module Binary64.
(** The exponent binary64 gives a number of magnitude [2^e]. *)
Definition fexp64 (e : Z) : Z := Z.max (e - 53) (-1074).

(** The mantissa [m] at exponent [e], scaled by [2^2200] so that every
    exponent the operations meet gives an integer. *)
Definition scaled (m e : Z) : Z := m * 2 ^ (e + 2200).

(** [e] is the exponent binary64 gives the mantissa [m]. *)
Definition canonical (m : positive) (e : Z) : Prop :=
  e = fexp64 (Zpos (digits2_pos m) + e).

(** The float [f] is at least, or at most, the binary64 number [mc * 2^ec]. *)
Definition at_least (mc : positive) (ec : Z) (f : spec_float) : Prop :=
  match f with
  | S754_finite false m e => (scaled (Zpos mc) ec <= scaled (Zpos m) e)%Z
  | S754_infinity false => True
  | _ => False
  end.

Definition at_most (mc : positive) (ec : Z) (f : spec_float) : Prop :=
  match f with
  | S754_zero false => True
  | S754_finite false m e => (scaled (Zpos m) e <= scaled (Zpos mc) ec)%Z
  | _ => False
  end.

(** [+0], a positive number or [+infinity]. *)
Definition nonnegative (f : spec_float) : Prop :=
  match f with
  | S754_zero false | S754_finite false _ _ | S754_infinity false => True
  | _ => False
  end.

(** As [nonnegative], or [-0]. *)
Definition not_negative (f : spec_float) : Prop :=
  match f with
  | S754_zero _ | S754_finite false _ _ | S754_infinity false => True
  | _ => False
  end.

(** One of the two zeros. *)
Definition is_zero (f : spec_float) : Prop :=
  match f with
  | S754_zero _ => True
  | _ => False
  end.

(** The binary64 numbers 1 and 100: mantissa and exponent. *)
Definition one_m : positive := 4503599627370496.
Definition one_e : Z := -52.
Definition hundred_m : positive := 7036874417766400.
Definition hundred_e : Z := -46.

(** [0 <= x <= 100] on floats; false on NaN. *)
Definition in_0_100 (x : float) : bool :=
  ((0 <=? x) && (x <=? 100))%float.

End Binary64.

(** ** Reasoning about effects *)

(** [respects R m]: running [m] takes every state to one related to it by
    [R], whether [m] returns or raises. *)
Definition respects {A} (R : State -> State -> Prop) (m : M A) : Prop :=
  forall s, R s (snd (m s)).

(** [m] returns on every state: it never raises. *)
Definition never_raises {A} (m : M A) : Prop :=
  forall s, exists a, fst (m s) = Ok a.

(** Whatever [m] raises satisfies [Q]. *)
Definition raises_only {A} (Q : exn -> Prop) (m : M A) : Prop :=
  forall s e s', m s = (Raise e, s') -> Q e.

(** The trace only grows, and every new event satisfies [P]. *)
Definition appends (P : event -> Prop) (s s' : State) : Prop :=
  exists evs, trace s' = trace s ++ evs /\ Forall P evs.

(** The run flag is left as it was. *)
Definition same_flag (s s' : State) : Prop := running s' = running s.

(** The events a state has beyond those of an earlier one. *)
Definition events_since (s s' : State) : list event :=
  skipn (List.length (trace s)) (trace s').

(** The state [s] with [evs] added at the end of its trace. *)
Definition add_events (s : State) (evs : list event) : State :=
  {| running := running s; clock := clock s; trace := trace s ++ evs |}.

(** Requests of the withdraw stage and of the stake stage. *)
Definition is_withdraw_call (ev : event) : bool :=
  match ev with
  | EvCall (Withdraw _ _ _ _) => true
  | _ => false
  end.

Definition is_stake_call (ev : event) : bool :=
  match ev with
  | EvCall (RoninStakeAxs _) => true
  | _ => false
  end.

Definition no_later_stage (ev : event) : Prop :=
  is_withdraw_call ev = false /\ is_stake_call ev = false.

Definition no_stake (ev : event) : Prop := is_stake_call ev = false.

(** The amounts an event of the later stages carries are the executed
    quantity of the order [o]. *)
Definition carries_quantity (float_of_Decimal : Decimal -> float) (o : Order)
    (ev : event) : Prop :=
  match ev with
  | EvCall (Withdraw _ _ a _) =>
      exists q, executedQty o = Some q /\ a = float_of_Decimal q
  | EvCall (RoninStakeAxs a) => executedQty o = Some a
  | _ => True
  end.

(** Events that only the signal evaluator or the pipeline produce: their
    calls to the exchange and the chain, and their log and notification
    texts. *)
Definition evaluator_or_pipeline_event (ev : event) : bool :=
  match ev with
  | EvCall (GetAssetBalance _) => false
  | EvCall _ => true
  | EvLog _ m | EvNotify m =>
      match m with
      | MsgBalanceError _ _ | MsgBotStarted | MsgLoopError _
      | MsgErrorOccurred _ | MsgBotStopped => false
      | _ => true
      end
  | EvSleep _ => false
  end.

Definition outside_evaluator_and_pipeline (ev : event) : Prop :=
  evaluator_or_pipeline_event ev = false.

(** What [if self.telegram: await self.telegram.send_message(m)] adds to the
    trace. *)
Definition notification (env : Env) (m : message) : list event :=
  if telegram_enabled (config env) then [EvNotify m] else [].

(** The state after a call made in [s]. *)
Definition after_call (s : State) (c : api_call) : State :=
  {| running := running s; clock := S (clock s);
     trace := trace s ++ [EvCall c] |}.

Definition not_ZeroDivisionError (e : exn) : Prop := e <> ZeroDivisionError.

(** ** Vocabulary of the further properties *)

(** Every numeric field of the row converts. *)
Definition converts (k : raw_kline) : bool :=
  match k1 k, k2 k, k3 k, k4 k, k5 k with
  | Some _, Some _, Some _, Some _, Some _ => true
  | _, _, _, _, _ => false
  end.

(** [fk] is the row [k] with its numeric fields converted, the two times as
    they came. *)
Definition formats (k : raw_kline) (fk : kline) : Prop :=
  open_time fk = k0 k /\
  k1 k = Some (open_price fk) /\
  k2 k = Some (high_price fk) /\
  k3 k = Some (low_price fk) /\
  k4 k = Some (close_price fk) /\
  k5 k = Some (volume fk) /\
  close_time fk = k6 k.

(** The filter that [next(...)] picks: the first whose type is [LOT_SIZE]. *)
Definition is_lot_size (f : symbol_filter) : bool :=
  String.eqb (filterType f) "LOT_SIZE".

Definition is_order_call (ev : event) : bool :=
  match ev with
  | EvCall (OrderMarketBuy _ _) => true
  | _ => false
  end.

(** What an order request of [place_market_buy symbol usdt] made from the
    state [s] asks for: the symbol, and the configured amount over the price
    that was fetched, rounded to the step of the first LOT_SIZE filter. *)
Definition order_as_computed (env : Env) (float_of_Decimal : Decimal -> float)
    (quantize : float -> Decimal -> option float)
    (symbol : string) (usdt : Decimal) (s : State) (ev : event) : Prop :=
  match ev with
  | EvCall (OrderMarketBuy sym q) =>
      sym = symbol /\
      (exists price s1 filters lot step,
         BinanceClient.get_current_price env symbol s = (Ok price, s1) /\
         Py.truthy price = true /\
         client_get_symbol_info env (clock s1) = Returned filters /\
         find is_lot_size filters = Some lot /\
         stepSize lot = Some step /\
         quantize (float_of_Decimal usdt / price)%float step = Some q)
  | _ => True
  end.

Definition any_event (ev : event) : Prop := True.

(** What a pass adds to the trace outside its [try] block's trading part: the
    waits, the report of the loop's [except], and the report of a [stop] that
    came during a wait. *)
Definition is_loop_event (ev : event) : bool :=
  match ev with
  | EvSleep _ => true
  | EvLog _ m | EvNotify m =>
      match m with
      | MsgLoopError _ | MsgErrorOccurred _ | MsgBotStopped => true
      | _ => false
      end
  | EvCall _ => false
  end.

(** The [try] block of a pass up to its last statement, the wait for the
    configured interval. *)
Definition before_interval (env : Env) (float_of_Decimal : Decimal -> float)
    (quantize : float -> Decimal -> option float) : M unit :=
  usdt_balance <- BinanceClient.get_balance env "USDT" ;;
  amount <- lift (usdt_amount (config env)) ;;
  enough <- lift (Decimal_ge usdt_balance amount) ;;
  if enough : bool then
    decision <- AXSStakingBot.check_price_conditions env ;;
    if decision : bool then
      AXSStakingBot.pipeline env float_of_Decimal quantize amount
    else ret tt
  else ret tt.

Definition is_call (ev : event) : bool :=
  match ev with
  | EvCall _ => true
  | _ => false
  end.

(** How many events of [evs] satisfy [f]. *)
Definition count (f : event -> bool) (evs : list event) : nat :=
  List.length (filter f evs).

(** The trace only grows, by at most [n] events that satisfy [f]. *)
Definition adds_at_most (f : event -> bool) (n : nat) (s s' : State) : Prop :=
  exists evs, trace s' = trace s ++ evs /\ (count f evs <= n)%nat.

(** What the signal evaluator may add to the trace: the two candle queries
    and the price query for AXSUSDT, and log entries. *)
Definition evaluator_event (ev : event) : Prop :=
  match ev with
  | EvCall (GetKlines symbol interval limit) =>
      symbol = "AXSUSDT"%string /\ interval = "1h"%string /\
      (limit = 24%nat \/ limit = 15%nat)
  | EvCall (GetSymbolTicker symbol) => symbol = "AXSUSDT"%string
  | EvLog _ _ => True
  | _ => False
  end.

(** The log entry of a positive decision. *)
Definition is_conditions_met (ev : event) : bool :=
  match ev with
  | EvLog INFO (MsgConditionsMet _ _) => true
  | _ => false
  end.

(** ** Further concrete worlds *)

Module Worlds.

(** As [Example.calm], but the exchange holds 10 USDT free, less than the 50
    configured. *)
Definition short_of_funds : Env :=
  {| config := Example.cfg;
     client_get_asset_balance := fun _ => Returned (Some (DFinite 10));
     client_get_klines := client_get_klines Example.calm;
     client_get_symbol_ticker := client_get_symbol_ticker Example.calm;
     client_get_symbol_info := client_get_symbol_info Example.calm;
     client_order_market_buy := client_order_market_buy Example.calm;
     client_withdraw := client_withdraw Example.calm;
     ronin_stake_axs := ronin_stake_axs Example.calm;
     stop_requested := fun _ => false |}.

(** As [short_of_funds], and another task calls [stop] during every wait. *)
Definition stop_called : Env :=
  {| config := Example.cfg;
     client_get_asset_balance := fun _ => Returned (Some (DFinite 10));
     client_get_klines := client_get_klines Example.calm;
     client_get_symbol_ticker := client_get_symbol_ticker Example.calm;
     client_get_symbol_info := client_get_symbol_info Example.calm;
     client_order_market_buy := client_order_market_buy Example.calm;
     client_withdraw := client_withdraw Example.calm;
     ronin_stake_axs := ronin_stake_axs Example.calm;
     stop_requested := fun _ => true |}.

(** A filled order whose executed quantity does not convert. *)
Definition garbled : Order :=
  {| orderId := 9; status := "FILLED"; executedQty := None |}.

(** As [Example.calm], but the order comes back as [garbled]. *)
Definition quantity_garbled : Env :=
  {| config := Example.cfg;
     client_get_asset_balance := client_get_asset_balance Example.calm;
     client_get_klines := client_get_klines Example.calm;
     client_get_symbol_ticker := client_get_symbol_ticker Example.calm;
     client_get_symbol_info := client_get_symbol_info Example.calm;
     client_order_market_buy := fun _ => Returned garbled;
     client_withdraw := client_withdraw Example.calm;
     ronin_stake_axs := ronin_stake_axs Example.calm;
     stop_requested := fun _ => false |}.

(** As [Example.calm], but the order request fails with a timeout, which is
    not an API exception. *)
Definition order_fails : Env :=
  {| config := Example.cfg;
     client_get_asset_balance := client_get_asset_balance Example.calm;
     client_get_klines := client_get_klines Example.calm;
     client_get_symbol_ticker := client_get_symbol_ticker Example.calm;
     client_get_symbol_info := client_get_symbol_info Example.calm;
     client_order_market_buy := fun _ => Failure "timeout";
     client_withdraw := client_withdraw Example.calm;
     ronin_stake_axs := ronin_stake_axs Example.calm;
     stop_requested := fun _ => false |}.

(** As [Example.calm], but every candle query raises an API exception. *)
Definition candles_down : Env :=
  {| config := Example.cfg;
     client_get_asset_balance := client_get_asset_balance Example.calm;
     client_get_klines := fun _ => ApiError "down";
     client_get_symbol_ticker := client_get_symbol_ticker Example.calm;
     client_get_symbol_info := client_get_symbol_info Example.calm;
     client_order_market_buy := client_order_market_buy Example.calm;
     client_withdraw := client_withdraw Example.calm;
     ronin_stake_axs := ronin_stake_axs Example.calm;
     stop_requested := fun _ => false |}.

(** As [Example.calm], but a candle query is answered with one candle. *)
Definition single_candle : Env :=
  {| config := Example.cfg;
     client_get_asset_balance := client_get_asset_balance Example.calm;
     client_get_klines := fun _ => Returned [Example.candle 100];
     client_get_symbol_ticker := client_get_symbol_ticker Example.calm;
     client_get_symbol_info := client_get_symbol_info Example.calm;
     client_order_market_buy := client_order_market_buy Example.calm;
     client_withdraw := client_withdraw Example.calm;
     ronin_stake_axs := ronin_stake_axs Example.calm;
     stop_requested := fun _ => false |}.

(** Every call succeeds and a pass finds the market oversold: after the
    balance query, 24 candles at 100, a price of 94, then the falling closes
    for the oscillator. *)
Definition buy_signal : Env :=
  {| config := Example.cfg;
     client_get_asset_balance := client_get_asset_balance Example.calm;
     client_get_klines := fun t =>
       if Nat.eqb t 1 then Returned (repeat (Example.candle 100) 24)
       else Returned (map Example.candle Example.falling);
     client_get_symbol_ticker := client_get_symbol_ticker Example.calm;
     client_get_symbol_info := client_get_symbol_info Example.calm;
     client_order_market_buy := client_order_market_buy Example.calm;
     client_withdraw := client_withdraw Example.calm;
     ronin_stake_axs := ronin_stake_axs Example.calm;
     stop_requested := fun _ => false |}.

(** Fifteen closes that go from 0 up to the largest binary64 number, back
    to 0, and then six times up to 2^969 and back: the gains are the largest
    number and six times 2^969, and so are the losses.  Added one after the
    other they stay at the largest number; added in numpy's order they
    overflow. *)
Definition tipping : list float :=
  [0; 0x1.fffffffffffffp+1023; 0; 0x1p+969; 0; 0x1p+969; 0; 0x1p+969; 0;
   0x1p+969; 0; 0x1p+969; 0; 0x1p+969; 0]%float.

(** The state of [Example.fresh] after the two queries that the signal
    evaluator makes before it asks for the oscillator. *)
Definition after_snapshot : State :=
  after_call (after_call Example.fresh (GetKlines "AXSUSDT" "1h" 24))
             (GetSymbolTicker "AXSUSDT").

End Worlds.

(** ** Monad equations *)

Lemma bind_Ok {A B} (m : M A) (k : A -> M B) s a s' :
  m s = (Ok a, s') -> bind m k s = k a s'.
Proof. unfold bind. intros ->. reflexivity. Qed.

Lemma bind_Raise {A B} (m : M A) (k : A -> M B) s e s' :
  m s = (Raise e, s') -> bind m k s = (Raise e, s').
Proof. unfold bind. intros ->. reflexivity. Qed.

Lemma try_except_Ok {A} (m : M A) c h s a s' :
  m s = (Ok a, s') -> try_except m c h s = (Ok a, s').
Proof. unfold try_except. intros ->. reflexivity. Qed.

Lemma try_except_caught {A} (m : M A) c h s e s' :
  m s = (Raise e, s') -> c e = true -> try_except m c h s = h e s'.
Proof. unfold try_except. intros -> ->. reflexivity. Qed.

Lemma try_except_passed {A} (m : M A) c h s e s' :
  m s = (Raise e, s') -> c e = false -> try_except m c h s = (Raise e, s').
Proof. unfold try_except. intros -> ->. reflexivity. Qed.

Lemma bind_lift_Ok {A B} (a : A) (k : A -> M B) s :
  bind (lift (Ok a)) k s = k a s.
Proof. reflexivity. Qed.

Lemma bind_lift_Raise {A B} e (k : A -> M B) s :
  bind (lift (Raise e)) k s = (Raise e, s).
Proof. reflexivity. Qed.

Arguments bind_Ok {A B m k s a s'} _.
Arguments bind_Raise {A B m k s e s'} _.
Arguments try_except_Ok {A m c h s a s'} _.
Arguments try_except_caught {A m c h s e s'} _ _.
Arguments try_except_passed {A m c h s e s'} _ _.

Lemma try_except_bind_Ok {A B} (m : M A) (k : A -> M B) c h s a s' :
  m s = (Ok a, s') ->
  try_except (bind m k) c h s = try_except (k a) c h s'.
Proof. unfold try_except, bind. intros ->. reflexivity. Qed.

Arguments try_except_bind_Ok {A B m k c h s a s'} _.

Lemma try_except_bind_lift_Ok {A B} (a : A) (k : A -> M B) c h s :
  try_except (bind (lift (Ok a)) k) c h s = try_except (k a) c h s.
Proof. reflexivity. Qed.

Lemma call_eq {A} (c : api_call) (oracle : nat -> client_result A) s :
  call c oracle s =
  (result_of_client (oracle (clock s)),
   {| running := running s; clock := S (clock s);
      trace := trace s ++ [EvCall c] |}).
Proof. reflexivity. Qed.

Lemma coroutine_ext {A} (m m' : M A) s s' :
  m s = m' s' -> coroutine m s = coroutine m' s'.
Proof. unfold coroutine, try_except. intros ->. reflexivity. Qed.

Lemma coroutine_snd {A} (m : M A) s : snd (coroutine m s) = snd (m s).
Proof.
  unfold coroutine, try_except.
  destruct (m s) as [[a | e] s']; [reflexivity |].
  destruct (is_StopIteration e); reflexivity.
Qed.

(** ** Relations kept by every step *)

Section Respects.

Variable R : State -> State -> Prop.
Hypothesis R_refl : forall s, R s s.
Hypothesis R_trans : forall s1 s2 s3, R s1 s2 -> R s2 s3 -> R s1 s3.

Lemma respects_ret {A} (a : A) : respects R (ret a).
Proof. intro s. apply R_refl. Qed.

Lemma respects_raise {A} e : respects R (@raise A e).
Proof. intro s. apply R_refl. Qed.

Lemma respects_lift {A} (r : result A) : respects R (lift r).
Proof. intro s. apply R_refl. Qed.

Lemma respects_get_running : respects R get_running.
Proof. intro s. apply R_refl. Qed.

Lemma respects_bind {A B} (m : M A) (k : A -> M B) :
  respects R m -> (forall a, respects R (k a)) -> respects R (bind m k).
Proof.
  intros Hm Hk s. unfold bind. specialize (Hm s).
  destruct (m s) as [[a | e] s1]; simpl in *.
  - eapply R_trans; [exact Hm | apply Hk].
  - exact Hm.
Qed.

Lemma respects_try_except {A} (m : M A) c h :
  respects R m -> (forall e, respects R (h e)) ->
  respects R (try_except m c h).
Proof.
  intros Hm Hh s. unfold try_except. specialize (Hm s).
  destruct (m s) as [[a | e] s1]; simpl in *.
  - exact Hm.
  - destruct (c e); simpl.
    + eapply R_trans; [exact Hm | apply Hh].
    + exact Hm.
Qed.

End Respects.

Lemma appends_refl P s : appends P s s.
Proof. exists []. split; [now rewrite app_nil_r | constructor]. Qed.

Lemma appends_trans P s1 s2 s3 :
  appends P s1 s2 -> appends P s2 s3 -> appends P s1 s3.
Proof.
  intros (l1 & E1 & F1) (l2 & E2 & F2). exists (l1 ++ l2). split.
  - now rewrite E2, E1, app_assoc.
  - apply Forall_app. now split.
Qed.

Lemma appends_weaken (P Q : event -> Prop) s s' :
  (forall ev, P ev -> Q ev) -> appends P s s' -> appends Q s s'.
Proof.
  intros HPQ (l & E & F). exists l. split; [exact E |].
  eapply Forall_impl; eauto.
Qed.

Arguments appends_weaken {P Q s s'} _ _.

Lemma appends_events_since P s s' :
  appends P s s' -> Forall P (events_since s s').
Proof.
  intros (l & E & F). unfold events_since. rewrite E.
  rewrite skipn_app, skipn_all, Nat.sub_diag. exact F.
Qed.

Lemma same_flag_refl s : same_flag s s.
Proof. reflexivity. Qed.

Lemma same_flag_trans s1 s2 s3 :
  same_flag s1 s2 -> same_flag s2 s3 -> same_flag s1 s3.
Proof. unfold same_flag. congruence. Qed.

Lemma respects_emit_appends (P : event -> Prop) ev :
  P ev -> respects (appends P) (emit ev).
Proof.
  intros H s. exists [ev]. split; [reflexivity | now constructor].
Qed.

Lemma respects_tick_appends P : respects (appends P) tick.
Proof.
  intro s. exists []. split; [simpl; now rewrite app_nil_r | constructor].
Qed.

Lemma respects_set_running_appends P b : respects (appends P) (set_running b).
Proof.
  intro s. exists []. split; [simpl; now rewrite app_nil_r | constructor].
Qed.

Lemma respects_emit_same_flag ev : respects same_flag (emit ev).
Proof. intro s. reflexivity. Qed.

Lemma respects_tick_same_flag : respects same_flag tick.
Proof. intro s. reflexivity. Qed.

(** ** Computations that cannot raise *)

Lemma never_raises_ret {A} (a : A) : never_raises (ret a).
Proof. intro s. now exists a. Qed.

Lemma never_raises_emit ev : never_raises (emit ev).
Proof. intro s. now exists tt. Qed.

Lemma never_raises_tick : never_raises tick.
Proof. intro s. now exists (clock s). Qed.

Lemma never_raises_set_running b : never_raises (set_running b).
Proof. intro s. now exists tt. Qed.

Lemma never_raises_get_running : never_raises get_running.
Proof. intro s. now exists (running s). Qed.

Lemma never_raises_bind {A B} (m : M A) (k : A -> M B) :
  never_raises m -> (forall a, never_raises (k a)) -> never_raises (bind m k).
Proof.
  intros Hm Hk s. unfold bind. destruct (Hm s) as [a Ha].
  destruct (m s) as [r s1]; simpl in Ha; subst r. apply Hk.
Qed.

Lemma never_raises_try_except {A} (m : M A) h :
  (forall e, never_raises (h e)) -> never_raises (try_except m is_Exception h).
Proof.
  intros Hh s. unfold try_except.
  destruct (m s) as [[a | e] s1]; simpl.
  - now exists a.
  - apply Hh.
Qed.

Lemma never_raises_try_except_body {A} (m : M A) c h :
  never_raises m -> never_raises (try_except m c h).
Proof.
  intros Hm s. unfold try_except. destruct (Hm s) as [a Ha].
  destruct (m s) as [r s1]; simpl in Ha; subst r. now exists a.
Qed.

(** ** What a computation can raise *)

Lemma raises_only_ret {A} Q (a : A) : raises_only Q (ret a).
Proof. intros s e s' H. discriminate. Qed.

Lemma raises_only_raise {A} (Q : exn -> Prop) e :
  Q e -> raises_only Q (@raise A e).
Proof. intros H s e' s' E. inversion E. now subst. Qed.

Lemma raises_only_emit Q ev : raises_only Q (emit ev).
Proof. intros s e s' H. discriminate. Qed.

Lemma raises_only_lift {A} (Q : exn -> Prop) (r : result A) :
  (forall e, r = Raise e -> Q e) -> raises_only Q (lift r).
Proof. intros Hr s e s' H. inversion H. subst. now apply Hr. Qed.

Lemma raises_only_call {A} (Q : exn -> Prop) c
    (oracle : nat -> client_result A) :
  (forall msg, Q (BinanceAPIException msg)) ->
  (forall msg, Q (ExternalError msg)) ->
  raises_only Q (call c oracle).
Proof.
  intros H1 H2 s e s'. rewrite call_eq.
  destruct (oracle (clock s)); simpl; intro H; inversion H; subst; auto.
Qed.

Lemma raises_only_bind {A B} Q (m : M A) (k : A -> M B) :
  raises_only Q m -> (forall a, raises_only Q (k a)) ->
  raises_only Q (bind m k).
Proof.
  intros Hm Hk s e s'. unfold bind.
  destruct (m s) as [[a | e1] s1] eqn:E.
  - apply Hk.
  - intro H. inversion H. subst. eapply Hm. exact E.
Qed.

Lemma raises_only_try_except {A} (Q Q' : exn -> Prop) (m : M A) c h :
  raises_only Q' m ->
  (forall e, Q' e -> c e = false -> Q e) ->
  (forall e, raises_only Q (h e)) ->
  raises_only Q (try_except m c h).
Proof.
  intros Hm Hc Hh s e s'. unfold try_except.
  destruct (m s) as [[a | e1] s1] eqn:E; [discriminate |].
  destruct (c e1) eqn:Ec.
  - apply Hh.
  - intro H. inversion H. subst. apply Hc; [| exact Ec]. eapply Hm. exact E.
Qed.

(** ** Tactics *)

Ltac unfold_program :=
  unfold AXSStakingBot.iteration, AXSStakingBot.poll, AXSStakingBot.pipeline,
    AXSStakingBot.stake_axs, AXSStakingBot.ronin_stake,
    AXSStakingBot.transfer_to_ronin, AXSStakingBot.execute_buy,
    AXSStakingBot.check_price_conditions, BinanceClient.withdraw_to_ronin,
    BinanceClient.place_market_buy, BinanceClient.calculate_rsi,
    BinanceClient.get_current_price, BinanceClient.get_klines,
    BinanceClient.get_balance, AXSStakingBot.asyncio_sleep,
    AXSStakingBot.stop, AXSStakingBot.if_telegram_send_message,
    AXSStakingBot.send_message, coroutine, call, logger_info, logger_error.

(** Splits a goal [respects (appends P) m] along the structure of [m]; what is
    left is [P ev] for each event [m] can emit. *)
Ltac appends_tac :=
  repeat first
    [ apply respects_ret; apply appends_refl
    | apply respects_raise; apply appends_refl
    | apply respects_lift; apply appends_refl
    | apply respects_get_running; apply appends_refl
    | apply respects_tick_appends
    | apply respects_set_running_appends
    | apply respects_emit_appends
    | apply respects_bind; [apply appends_trans | | intro]
    | apply respects_try_except; [apply appends_trans | | intro]
    | match goal with
      | |- respects _ (if ?b then _ else _) => destruct b
      | |- respects _ (match ?x with _ => _ end) => destruct x
      end ].

(** Splits a goal [never_raises m] along the structure of [m]. *)
Ltac never_raises_tac :=
  repeat first
    [ apply never_raises_ret
    | apply never_raises_emit
    | apply never_raises_tick
    | apply never_raises_set_running
    | apply never_raises_get_running
    | apply never_raises_try_except; intro
    | apply never_raises_bind; [| intro]
    | match goal with
      | |- never_raises (if ?b then _ else _) => destruct b
      | |- never_raises (match ?x with _ => _ end) => destruct x
      end ].

(** Splits a goal [respects same_flag m] along the structure of [m], given
    that no stop is requested. *)
Ltac same_flag_tac Hno :=
  repeat first
    [ apply respects_ret; apply same_flag_refl
    | apply respects_raise; apply same_flag_refl
    | apply respects_lift; apply same_flag_refl
    | apply respects_get_running; apply same_flag_refl
    | apply respects_tick_same_flag
    | apply respects_emit_same_flag
    | apply respects_bind; [apply same_flag_trans | | intro]
    | apply respects_try_except; [apply same_flag_trans | | intro]
    | rewrite Hno; cbv iota
    | match goal with
      | |- respects _ (if ?b then _ else _) => destruct b
      | |- respects _ (match ?x with _ => _ end) => destruct x
      end ].

(** ** Facts about the stages *)

Section ProgramFacts.

Variable env : Env.
Variable float_of_Decimal : Decimal -> float.
Variable quantize : float -> Decimal -> option float.

Local Abbreviation get_balance := (BinanceClient.get_balance env).
Local Abbreviation calculate_rsi := (BinanceClient.calculate_rsi env).
Local Abbreviation get_current_price := (BinanceClient.get_current_price env).
Local Abbreviation place_market_buy :=
  (BinanceClient.place_market_buy env float_of_Decimal quantize).
Local Abbreviation stop := (AXSStakingBot.stop env).
Local Abbreviation asyncio_sleep := (AXSStakingBot.asyncio_sleep env).
Local Abbreviation if_telegram_send_message :=
  (AXSStakingBot.if_telegram_send_message env).
Local Abbreviation check_price_conditions :=
  (AXSStakingBot.check_price_conditions env).
Local Abbreviation execute_buy :=
  (AXSStakingBot.execute_buy env float_of_Decimal quantize).
Local Abbreviation transfer_to_ronin :=
  (AXSStakingBot.transfer_to_ronin env float_of_Decimal).
Local Abbreviation stake_axs := (AXSStakingBot.stake_axs env).
Local Abbreviation pipeline :=
  (AXSStakingBot.pipeline env float_of_Decimal quantize).
Local Abbreviation poll := (AXSStakingBot.poll env float_of_Decimal quantize).
Local Abbreviation iteration :=
  (AXSStakingBot.iteration env float_of_Decimal quantize).
Local Abbreviation while_running :=
  (AXSStakingBot.while_running env float_of_Decimal quantize).
Local Abbreviation run := (AXSStakingBot.run env float_of_Decimal quantize).
Local Abbreviation carries_quantity := (carries_quantity float_of_Decimal).
Local Abbreviation notification := (notification env).

Lemma stop_never_raises : never_raises (stop).
Proof. unfold_program. never_raises_tac. Qed.

Lemma asyncio_sleep_never_raises secs : never_raises (asyncio_sleep secs).
Proof. unfold_program. never_raises_tac. Qed.

Lemma calculate_rsi_never_raises symbol period :
  never_raises (calculate_rsi symbol period).
Proof.
  unfold BinanceClient.calculate_rsi. unfold_program. never_raises_tac.
Qed.

Lemma check_price_conditions_never_raises :
  never_raises (check_price_conditions).
Proof.
  unfold AXSStakingBot.check_price_conditions. unfold_program.
  never_raises_tac.
Qed.

Lemma execute_buy_never_raises usdt : never_raises (execute_buy usdt).
Proof. unfold AXSStakingBot.execute_buy. unfold_program. never_raises_tac. Qed.

Lemma transfer_to_ronin_never_raises amount :
  never_raises (transfer_to_ronin amount).
Proof.
  unfold AXSStakingBot.transfer_to_ronin. unfold_program. never_raises_tac.
Qed.

Lemma stake_axs_never_raises amount : never_raises (stake_axs amount).
Proof. unfold AXSStakingBot.stake_axs. unfold_program. never_raises_tac. Qed.

Lemma iteration_never_raises : never_raises iteration.
Proof. unfold AXSStakingBot.iteration. unfold_program. never_raises_tac. Qed.

Lemma existsb_Forall_false {A} (f : A -> bool) l :
  Forall (fun x => f x = false) l -> existsb f l = false.
Proof.
  induction 1 as [| x l Hx _ IH]; simpl; [reflexivity |].
  now rewrite Hx, IH.
Qed.

Lemma execute_buy_appends usdt :
  respects (appends no_later_stage) (execute_buy usdt).
Proof.
  unfold AXSStakingBot.execute_buy. unfold_program. appends_tac;
    split; reflexivity.
Qed.

Lemma asyncio_sleep_appends secs :
  respects (appends no_later_stage) (asyncio_sleep secs).
Proof. unfold_program. appends_tac; split; reflexivity. Qed.

Lemma transfer_to_ronin_appends amount :
  respects (appends no_stake) (transfer_to_ronin amount).
Proof.
  unfold AXSStakingBot.transfer_to_ronin. unfold_program. appends_tac;
    reflexivity.
Qed.

(** What [execute_buy] returns is an order the exchange reported as filled. *)
Lemma execute_buy_filled usdt s o s1 :
  execute_buy usdt s = (Ok (Some o), s1) -> status o = "FILLED"%string.
Proof.
  unfold AXSStakingBot.execute_buy, try_except, bind.
  destruct (place_market_buy "AXSUSDT" usdt s) as [[[o' |] | e] s2].
  - destruct (String.eqb (status o') "FILLED") eqn:E.
    + apply String.eqb_eq in E. unfold_program. unfold bind, emit, ret.
      destruct (telegram_enabled (config env)); simpl;
        intro H; inversion H; subst; exact E.
    + unfold ret. discriminate.
  - unfold ret. discriminate.
  - simpl. unfold_program. unfold bind, emit, ret.
    destruct (telegram_enabled (config env)); simpl; discriminate.
Qed.

(** The ways a run of the pipeline can go, stage by stage. *)
Lemma pipeline_cases usdt s :
  (exists s1, execute_buy usdt s = (Ok None, s1) /\
              pipeline usdt s = (Ok tt, s1)) \/
  (exists o s1 s2,
     execute_buy usdt s = (Ok (Some o), s1) /\
     asyncio_sleep 10 s1 = (Ok tt, s2) /\
     ((executedQty o = None /\
       pipeline usdt s = (Raise InvalidOperation, s2)) \/
      (exists amount r s3,
         executedQty o = Some amount /\
         transfer_to_ronin amount s2 = (Ok r, s3) /\
         (((r = None \/ r = Some EmptyString) /\
           pipeline usdt s = (Ok tt, s3)) \/
          (exists h, r = Some h /\ nonempty h = true /\
             pipeline usdt s =
               (asyncio_sleep 900 ;; stake_axs amount ;; ret tt)
                 s3))))).
Proof.
  unfold AXSStakingBot.pipeline.
  destruct (execute_buy_never_raises usdt s) as [ob Hb].
  destruct (execute_buy usdt s) as [rb s1] eqn:Ebuy. simpl in Hb. subst rb.
  rewrite (bind_Ok Ebuy).
  destruct ob as [o |]; [right | left; exists s1; split; reflexivity].
  destruct (asyncio_sleep_never_raises 10 s1) as [[] Hs].
  destruct (asyncio_sleep 10 s1) as [rs s2] eqn:Esleep. simpl in Hs.
  subst rs. exists o, s1, s2. split; [reflexivity |]. split; [exact Esleep |].
  rewrite (bind_Ok Esleep).
  destruct (executedQty o) as [amount |] eqn:Eqty; cbn [py_Decimal].
  2:{ left. split; reflexivity. }
  right. rewrite bind_lift_Ok.
  destruct (transfer_to_ronin_never_raises amount s2) as [r Ht].
  destruct (transfer_to_ronin amount s2) as [rt s3] eqn:Etr. simpl in Ht.
  subst rt. exists amount, r, s3. split; [reflexivity |].
  split; [exact Etr |].
  rewrite (bind_Ok Etr).
  destruct r as [h |]; [| left; split; [left |]; reflexivity].
  destruct h as [| c h']; cbn [nonempty].
  - left. split; [right |]; reflexivity.
  - right. exists (String c h'). repeat split.
Qed.

Lemma no_later_stage_no_stake ev : no_later_stage ev -> no_stake ev.
Proof. intros [_ H]. exact H. Qed.

Lemma appends_no_call (f : event -> bool) s s' :
  appends (fun ev => f ev = false) s s' ->
  existsb f (events_since s s') = true -> False.
Proof.
  intros H E. apply appends_events_since in H.
  apply existsb_Forall_false in H. congruence.
Qed.

Lemma while_running_step fuel s :
  running s = true ->
  while_running (S fuel) s = while_running fuel (snd (iteration s)).
Proof.
  intro Hr. cbn [AXSStakingBot.while_running]. unfold bind at 1.
  unfold get_running. rewrite Hr.
  destruct (iteration_never_raises s) as [[] Hi].
  destruct (iteration s) as [ri si] eqn:Ei. simpl in Hi. subst ri.
  rewrite (bind_Ok Ei). reflexivity.
Qed.

(** C2. In a run of the pipeline a withdrawal is requested only after the buy
    stage returned an order, and that order is filled; staking is requested
    only after the withdraw stage returned a non-empty identifier.  When the
    buy stage returns nothing the run ends in the state the buy stage left;
    when the withdraw stage returns nothing (or an empty identifier) the run
    ends in the state the withdraw stage left.  Whatever a pass does, the
    loop goes on to its next pass. *)
Theorem pipeline_stage_order usdt s :
  (existsb is_withdraw_call (events_since s (snd (pipeline usdt s))) = true ->
   exists o s1,
     execute_buy usdt s = (Ok (Some o), s1) /\ status o = "FILLED"%string) /\
  (existsb is_stake_call (events_since s (snd (pipeline usdt s))) = true ->
   exists o s1 s2 amount h s3,
     execute_buy usdt s = (Ok (Some o), s1) /\
     asyncio_sleep 10 s1 = (Ok tt, s2) /\
     executedQty o = Some amount /\
     transfer_to_ronin amount s2 = (Ok (Some h), s3) /\
     h <> EmptyString) /\
  (forall s1,
     execute_buy usdt s = (Ok None, s1) -> pipeline usdt s = (Ok tt, s1)) /\
  (forall o s1 s2 amount r s3,
     execute_buy usdt s = (Ok (Some o), s1) ->
     asyncio_sleep 10 s1 = (Ok tt, s2) ->
     executedQty o = Some amount ->
     transfer_to_ronin amount s2 = (Ok r, s3) ->
     r = None \/ r = Some EmptyString ->
     pipeline usdt s = (Ok tt, s3)) /\
  (forall s0 fuel,
     running s0 = true ->
     while_running (S fuel) s0 = while_running fuel (snd (iteration s0))).
Proof.
  pose proof (execute_buy_appends usdt s) as Hbuy.
  destruct (pipeline_cases usdt s)
    as [(s1 & Eb & Ep) |
        (o & s1 & s2 & Eb & Es & [(Eq & Ep) |
          (amount & r & s3 & Eq & Et & [(Hr & Ep) | (h & -> & Hh & Ep)])])].
  - (* the buy stage returned nothing *)
    rewrite Eb in Hbuy. rewrite Ep. cbn [snd] in *.
    repeat split.
    + intro H. exfalso.
      apply (appends_no_call is_withdraw_call (s:=s) (s':=s1)); [| exact H].
      eapply appends_weaken; [| exact Hbuy]. intros ev [H1 _]. exact H1.
    + intro H. exfalso.
      apply (appends_no_call is_stake_call (s:=s) (s':=s1)); [| exact H].
      eapply appends_weaken; [| exact Hbuy]. intros ev [_ H1]. exact H1.
    + intros s1' E. congruence.
    + intros o s1' s2 amount r s3 E. congruence.
    + intros s0 fuel. apply while_running_step.
  - (* the executed quantity does not convert *)
    rewrite Eb in Hbuy. rewrite Ep. cbn [snd] in *.
    pose proof (asyncio_sleep_appends 10 s1) as Hsl. rewrite Es in Hsl.
    cbn [snd] in Hsl.
    repeat split.
    + intros _. exists o, s1. split; [exact Eb |].
      eapply execute_buy_filled; exact Eb.
    + intro H. exfalso.
      apply (appends_no_call is_stake_call (s:=s) (s':=s2)); [| exact H].
      eapply appends_weaken; [| eapply appends_trans; eassumption].
      intros ev [_ H1]. exact H1.
    + intros s1' E. congruence.
    + intros o' s1' s2' amount r s3 E1 E2 E3. congruence.
    + intros s0 fuel. apply while_running_step.
  - (* the withdraw stage returned nothing *)
    rewrite Eb in Hbuy. rewrite Ep. cbn [snd] in *.
    pose proof (asyncio_sleep_appends 10 s1) as Hsl. rewrite Es in Hsl.
    pose proof (transfer_to_ronin_appends amount s2) as Htr.
    rewrite Et in Htr. cbn [snd] in Hsl, Htr.
    repeat split.
    + intros _. exists o, s1. split; [exact Eb |].
      eapply execute_buy_filled; exact Eb.
    + intro H. exfalso.
      apply (appends_no_call is_stake_call (s:=s) (s':=s3)); [| exact H].
      eapply appends_trans; [| exact Htr].
      eapply appends_weaken; [| eapply appends_trans; eassumption].
      intros ev [_ H1]. exact H1.
    + intros s1' E. congruence.
    + intros o' s1' s2' amount' r' s3' E1 E2 E3 E4 _.
      assert (o' = o /\ s1' = s1) as [-> ->] by (split; congruence).
      assert (s2' = s2) as -> by congruence.
      assert (amount' = amount) as -> by congruence.
      congruence.
    + intros s0 fuel. apply while_running_step.
  - (* both stages returned something *)
    repeat split.
    + intros _. exists o, s1. split; [exact Eb |].
      eapply execute_buy_filled; exact Eb.
    + intros _. exists o, s1, s2, amount, h, s3. repeat split; try assumption.
      intros ->. discriminate.
    + intros s1' E. congruence.
    + intros o' s1' s2' amount' r' s3' E1 E2 E3 E4 Hr.
      assert (o' = o /\ s1' = s1) as [-> ->] by (split; congruence).
      assert (s2' = s2) as -> by congruence.
      assert (amount' = amount) as -> by congruence.
      assert (r' = Some h) as -> by congruence.
      destruct Hr as [Hr | Hr]; [discriminate |].
      inversion Hr; subst. discriminate.
    + intros s0 fuel. apply while_running_step.
Qed.

Lemma no_later_stage_carries o ev : no_later_stage ev -> carries_quantity o ev.
Proof.
  intros [Hw Hs]. destruct ev as [| | | []]; simpl in *;
    try exact I; discriminate.
Qed.

Lemma transfer_to_ronin_carries o amount :
  executedQty o = Some amount ->
  respects (appends (carries_quantity o)) (transfer_to_ronin amount).
Proof.
  intro H. unfold AXSStakingBot.transfer_to_ronin. unfold_program.
  appends_tac; simpl; eauto.
Qed.

Lemma stake_axs_carries o amount :
  executedQty o = Some amount ->
  respects (appends (carries_quantity o))
    (asyncio_sleep 900 ;; stake_axs amount ;; ret tt).
Proof.
  intro H. unfold_program. appends_tac; simpl; eauto.
Qed.

(** In a run of the pipeline whose buy stage returned the order [o], every
    withdrawal request carries [float(Decimal(o['executedQty']))] and every
    staking request carries [Decimal(o['executedQty'])]. *)
Lemma pipeline_events_carry_quantity usdt s o s1 :
  execute_buy usdt s = (Ok (Some o), s1) ->
  Forall (carries_quantity o) (events_since s (snd (pipeline usdt s))).
Proof.
  intro Eb. apply appends_events_since.
  pose proof (execute_buy_appends usdt s) as Hbuy. rewrite Eb in Hbuy.
  cbn [snd] in Hbuy.
  apply (appends_weaken (no_later_stage_carries o)) in Hbuy.
  destruct (pipeline_cases usdt s)
    as [(s1' & Eb' & Ep) |
        (o' & s1' & s2 & Eb' & Es & [(Eq & Ep) |
          (amount & r & s3 & Eq & Et & [(Hr & Ep) | (h & -> & Hh & Ep)])])];
    [congruence | | |];
    assert (o' = o /\ s1' = s1) as [-> ->] by (split; congruence);
    pose proof (asyncio_sleep_appends 10 s1) as Hsl; rewrite Es in Hsl;
    cbn [snd] in Hsl;
    apply (appends_weaken (no_later_stage_carries o)) in Hsl;
    rewrite Ep; cbn [snd].
  - eapply appends_trans; eassumption.
  - pose proof (transfer_to_ronin_carries o Eq s2) as Htr.
    rewrite Et in Htr. cbn [snd] in Htr.
    eapply appends_trans; [| exact Htr]. eapply appends_trans; eassumption.
  - pose proof (transfer_to_ronin_carries o Eq s2) as Htr.
    rewrite Et in Htr. cbn [snd] in Htr.
    eapply appends_trans; [| apply (stake_axs_carries o Eq)].
    eapply appends_trans; [| exact Htr]. eapply appends_trans; eassumption.
Qed.

Lemma add_events_nil s : add_events s [] = s.
Proof. destruct s. unfold add_events. simpl. now rewrite app_nil_r. Qed.

Lemma add_events_app s l1 l2 :
  add_events (add_events s l1) l2 = add_events s (l1 ++ l2).
Proof. unfold add_events. simpl. now rewrite app_assoc. Qed.

Lemma emit_eq ev s : emit ev s = (Ok tt, add_events s [ev]).
Proof. reflexivity. Qed.

Lemma if_telegram_send_message_eq m s :
  if_telegram_send_message m s = (Ok tt, add_events s (notification m)).
Proof.
  unfold AXSStakingBot.if_telegram_send_message, notification,
    AXSStakingBot.send_message.
  destruct (telegram_enabled (config env)).
  - reflexivity.
  - unfold ret. now rewrite add_events_nil.
Qed.

(** The [except Exception] branch of a stage or of the loop: log, then
    notify. *)
Lemma log_and_notify_eq {A} (m1 m2 : message) (k : M A) s :
  (logger_error m1 ;; if_telegram_send_message m2 ;; k) s =
  k (add_events s (EvLog ERROR m1 :: notification m2)).
Proof.
  unfold logger_error.
  rewrite (bind_Ok (emit_eq _ s)).
  rewrite (bind_Ok (if_telegram_send_message_eq _ _)).
  now rewrite add_events_app.
Qed.

(** C5.  What the buy stage does when it fails.  It returns nothing
    whenever an exception escapes [place_market_buy], no order comes back or
    the order is not filled, and the pipeline then ends without a withdrawal
    request.  But it reports only the exception, which it logs and, when a
    notifier is configured, notifies with its reason.  With no order, or an
    order that is not filled, it returns in the state [place_market_buy]
    left: it has logged nothing and notified nothing, where the claim asks
    for a log entry and a failure notification. *)
Theorem execute_buy_failure usdt s :
  (forall e s1,
     place_market_buy "AXSUSDT" usdt s = (Raise e, s1) ->
     execute_buy usdt s =
       (Ok None,
        add_events s1
          (EvLog ERROR (MsgBuyError e) :: notification (MsgBuyFailed e)))) /\
  (forall s1,
     place_market_buy "AXSUSDT" usdt s = (Ok None, s1) ->
     execute_buy usdt s = (Ok None, s1)) /\
  (forall o s1,
     place_market_buy "AXSUSDT" usdt s = (Ok (Some o), s1) ->
     status o <> "FILLED"%string ->
     execute_buy usdt s = (Ok None, s1)) /\
  (forall s1,
     execute_buy usdt s = (Ok None, s1) ->
     pipeline usdt s = (Ok tt, s1) /\
     existsb is_withdraw_call (events_since s (snd (pipeline usdt s)))
       = false).
Proof.
  repeat split.
  - intros e s1 H. unfold AXSStakingBot.execute_buy.
    rewrite (try_except_caught (bind_Raise H) eq_refl).
    now rewrite log_and_notify_eq.
  - intros s1 H. unfold AXSStakingBot.execute_buy.
    apply try_except_Ok. now rewrite (bind_Ok H).
  - intros o s1 H Hst. unfold AXSStakingBot.execute_buy.
    apply try_except_Ok. rewrite (bind_Ok H).
    destruct (String.eqb (status o) "FILLED") eqn:E; [| reflexivity].
    apply String.eqb_eq in E. contradiction.
  - unfold AXSStakingBot.pipeline. now rewrite (bind_Ok H).
  - unfold AXSStakingBot.pipeline. rewrite (bind_Ok H). cbn [snd ret].
    apply existsb_Forall_false.
    pose proof (execute_buy_appends usdt s) as Hb. rewrite H in Hb.
    apply appends_events_since in Hb. cbn [snd] in Hb.
    eapply Forall_impl; [| exact Hb]. intros ev [Hw _]. exact Hw.
Qed.

Lemma iteration_same_flag :
  (forall t, stop_requested env t = false) -> respects same_flag iteration.
Proof.
  intro Hno. unfold AXSStakingBot.iteration. unfold_program.
  same_flag_tac Hno.
Qed.

Lemma while_running_never_exits :
  (forall t, stop_requested env t = false) ->
  forall fuel s,
    running s = true ->
    exists s', while_running fuel s = (Ok LoopStillRunning, s') /\
               running s' = true.
Proof.
  intros Hno fuel. induction fuel as [| fuel IH]; intros s Hr.
  - exists s. split; [| exact Hr].
    cbn [AXSStakingBot.while_running]. unfold bind, get_running.
    rewrite Hr. reflexivity.
  - rewrite (while_running_step fuel s Hr). apply IH.
    rewrite (iteration_same_flag Hno s). exact Hr.
Qed.

Lemma while_running_exit fuel :
  forall s s', while_running fuel s = (Ok LoopExited, s') -> running s' = false.
Proof.
  induction fuel as [| fuel IH]; intros s s'.
  - cbn [AXSStakingBot.while_running]. unfold bind, get_running, ret.
    destruct (running s) eqn:Hr; [discriminate |].
    intro H. inversion H. subst. exact Hr.
  - destruct (running s) eqn:Hr.
    + rewrite (while_running_step fuel s Hr). apply IH.
    + cbn [AXSStakingBot.while_running]. unfold bind, get_running, ret.
      rewrite Hr. intro H. inversion H. subst. exact Hr.
Qed.

Lemma asyncio_sleep_trace secs s :
  exists tail s',
    asyncio_sleep secs s = (Ok tt, s') /\
    trace s' = trace s ++ EvSleep secs :: tail.
Proof.
  unfold AXSStakingBot.asyncio_sleep. rewrite (bind_Ok (emit_eq _ s)).
  unfold bind at 1. unfold tick. cbn [clock add_events].
  destruct (stop_requested env (clock s)).
  - unfold AXSStakingBot.stop. unfold set_running, logger_info.
    unfold bind at 1.
    rewrite (bind_Ok (emit_eq _ _)).
    rewrite if_telegram_send_message_eq.
    eexists. eexists. split; [reflexivity |]. cbn [trace add_events].
    rewrite <- !app_assoc. reflexivity.
  - exists []. eexists. split; [reflexivity |]. reflexivity.
Qed.


Lemma stop_eq s :
  stop s =
  (Ok tt,
   {| running := false; clock := clock s;
      trace := trace s ++ EvLog INFO MsgBotStopped
                 :: notification MsgBotStopped |}).
Proof.
  unfold AXSStakingBot.stop, set_running, logger_info. unfold bind at 1.
  rewrite (bind_Ok (emit_eq _ _)). rewrite if_telegram_send_message_eq.
  unfold add_events. cbn [running clock trace].
  now rewrite <- app_assoc.
Qed.

(** C8. A call to [stop] on a stopped controller changes neither the run flag
    nor the clock: it only adds its log entry and, when a notifier is
    configured, its notification at the end of the trace.  Two calls in a row
    add these twice, one after the other, behind everything that was
    reported before; and after any call the flag is false. *)
Theorem stop_idempotent s :
  running s = false ->
  stop s =
    (Ok tt,
     add_events s (EvLog INFO MsgBotStopped :: notification MsgBotStopped)) /\
  (stop ;; stop) s =
    (Ok tt,
     add_events s
       ((EvLog INFO MsgBotStopped :: notification MsgBotStopped) ++
        (EvLog INFO MsgBotStopped :: notification MsgBotStopped))) /\
  running (snd (stop s)) = running s /\
  running (snd ((stop ;; stop) s)) = running (snd (stop s)).
Proof.
  intro Hr.
  assert (E1 : stop s =
    (Ok tt,
     add_events s (EvLog INFO MsgBotStopped :: notification MsgBotStopped))).
  { rewrite stop_eq. unfold add_events. now rewrite Hr. }
  assert (E2 : (stop ;; stop) s =
    (Ok tt,
     add_events s
       ((EvLog INFO MsgBotStopped :: notification MsgBotStopped) ++
        (EvLog INFO MsgBotStopped :: notification MsgBotStopped)))).
  { rewrite (bind_Ok E1). rewrite stop_eq. unfold add_events.
    cbn [running clock trace]. rewrite Hr. now rewrite <- app_assoc. }
  rewrite E2, E1. repeat split.
Qed.

Lemma Decimal_ge_zero_pos amount :
  Decimal_pos amount -> Decimal_ge Decimal_zero amount = Ok false.
Proof.
  destruct amount as [q | [|] |]; simpl; intro H.
  - f_equal. destruct (Qle_bool q 0) eqn:E; [| reflexivity].
    apply Qle_bool_iff in E. exfalso. eapply Qlt_not_le; eassumption.
  - discriminate.
  - reflexivity.
  - contradiction.
Qed.

Lemma get_balance_api_error asset s msg :
  client_get_asset_balance env (clock s) = ApiError msg ->
  get_balance asset s =
  (Ok Decimal_zero,
   add_events
     {| running := running s; clock := S (clock s); trace := trace s |}
     [EvCall (GetAssetBalance asset);
      EvLog ERROR (MsgBalanceError asset (BinanceAPIException msg))]).
Proof.
  intro H. unfold BinanceClient.get_balance.
  assert (E : (balance <- call (GetAssetBalance asset)
                               (client_get_asset_balance env) ;;
               match balance with
               | Some free => ret free
               | None => raise InvalidOperation
               end) s =
              (Raise (BinanceAPIException msg),
               {| running := running s; clock := S (clock s);
                  trace := trace s ++ [EvCall (GetAssetBalance asset)] |})).
  { apply bind_Raise. rewrite call_eq, H. reflexivity. }
  rewrite (try_except_caught E eq_refl).
  unfold logger_error. rewrite (bind_Ok (emit_eq _ _)).
  unfold ret, add_events. cbn [running clock trace].
  now rewrite <- app_assoc.
Qed.

(** C10. When the balance query raises an API exception, [get_balance] returns
    zero; with a configured amount above zero the pass then makes no call to
    the exchange beyond the balance query and none to the chain, and nothing
    of the signal evaluator or of the pipeline shows in its trace. *)
Theorem balance_failure_skips_trading s msg amount :
  client_get_asset_balance env (clock s) = ApiError msg ->
  usdt_amount (config env) = Ok amount ->
  Decimal_pos amount ->
  fst (get_balance "USDT" s) = Ok Decimal_zero /\
  Forall outside_evaluator_and_pipeline
    (events_since s (snd (iteration s))).
Proof.
  intros Hb Ha Hpos.
  pose proof (get_balance_api_error "USDT" s Hb) as Eb.
  split; [now rewrite Eb |].
  apply appends_events_since.
  unfold AXSStakingBot.iteration, AXSStakingBot.poll.
  rewrite (try_except_bind_Ok Eb). rewrite Ha.
  rewrite try_except_bind_lift_Ok. cbv beta.
  rewrite (Decimal_ge_zero_pos _ Hpos).
  rewrite try_except_bind_lift_Ok. cbv beta.
  cbv iota.
  match goal with
  | |- appends _ _ (snd (_ ?s1)) =>
      apply (@appends_trans outside_evaluator_and_pipeline s s1)
  end.
  - exists [EvCall (GetAssetBalance "USDT");
            EvLog ERROR (MsgBalanceError "USDT" (BinanceAPIException msg))].
    split; [reflexivity |]. repeat constructor.
  - match goal with
    | |- appends ?P ?s1 (snd (?m ?s1)) =>
        assert (Hm : respects (appends P) m); [| apply Hm]
    end.
    unfold_program. appends_tac; reflexivity.
Qed.

Lemma get_current_price_raises symbol :
  raises_only not_ZeroDivisionError (get_current_price symbol).
Proof.
  unfold BinanceClient.get_current_price.
  apply raises_only_try_except with (Q' := not_ZeroDivisionError).
  - apply raises_only_bind.
    + apply raises_only_call; intros msg; discriminate.
    + intros [x |]; apply raises_only_lift; simpl; intros e H;
        inversion H; discriminate.
  - auto.
  - intro e. apply raises_only_bind; [apply raises_only_emit |].
    intro. apply raises_only_ret.
Qed.

Lemma get_current_price_api_error symbol s msg :
  client_get_symbol_ticker env (clock s) = ApiError msg ->
  get_current_price symbol s =
  (Ok 0%float,
   add_events
     {| running := running s; clock := S (clock s); trace := trace s |}
     [EvCall (GetSymbolTicker symbol);
      EvLog ERROR (MsgCurrentPriceError (BinanceAPIException msg))]).
Proof.
  intro H. unfold BinanceClient.get_current_price.
  assert (E : (ticker <- call (GetSymbolTicker symbol)
                              (client_get_symbol_ticker env) ;;
               lift (py_float ticker)) s =
              (Raise (BinanceAPIException msg),
               {| running := running s; clock := S (clock s);
                  trace := trace s ++ [EvCall (GetSymbolTicker symbol)] |})).
  { apply bind_Raise. rewrite call_eq, H. reflexivity. }
  rewrite (try_except_caught E eq_refl).
  unfold logger_error. rewrite (bind_Ok (emit_eq _ _)).
  unfold ret, add_events. cbn [running clock trace].
  now rewrite <- app_assoc.
Qed.

(** The division of [place_market_buy] on a price that passed its test. *)
Lemma truediv_truthy a price :
  Py.truthy price = true -> Py.truediv a price = Ok (a / price)%float.
Proof.
  unfold Py.truthy, Py.truediv.
  destruct (PrimFloat.eqb price 0); [discriminate | reflexivity].
Qed.

Lemma place_market_buy_raises symbol usdt :
  raises_only not_ZeroDivisionError (place_market_buy symbol usdt).
Proof.
  unfold BinanceClient.place_market_buy, coroutine.
  apply raises_only_try_except with (Q' := not_ZeroDivisionError); [| auto |].
  2:{ intro e. apply raises_only_raise. discriminate. }
  apply raises_only_try_except with (Q' := not_ZeroDivisionError); [| auto |].
  2:{ intro e. apply raises_only_bind; [apply raises_only_emit |].
      intro. apply raises_only_ret. }
  apply raises_only_bind; [apply get_current_price_raises |].
  intro price. destruct (Py.truthy price) eqn:Ht; cbn [negb].
  2:{ apply raises_only_ret. }
  rewrite (truediv_truthy _ _ Ht).
  apply raises_only_bind; [apply raises_only_lift; discriminate |].
  intro quantity.
  apply raises_only_bind; [apply raises_only_call; discriminate |].
  intro info. unfold BinanceClient.next_lot_size.
  apply raises_only_bind.
  { apply raises_only_lift. intros e.
    destruct (find _ info); intro H; inversion H. discriminate. }
  intro lot_size.
  apply raises_only_bind.
  { apply raises_only_lift. intros e.
    destruct (stepSize lot_size); simpl; intro H; inversion H. discriminate. }
  intro step_size. unfold BinanceClient.py_quantize.
  apply raises_only_bind.
  { apply raises_only_lift. intros e.
    destruct (quantize quantity step_size); intro H; inversion H.
    discriminate. }
  intro q.
  apply raises_only_bind; [apply raises_only_call; discriminate |].
  intro. apply raises_only_ret.
Qed.

(** C9. When the price that [get_current_price] returns is zero, as it is
    after an API exception, [place_market_buy] returns [None] in the state
    the price query left: no quantity is computed and nothing more is
    called.  On a price that passes the test the division returns, and
    [place_market_buy] never raises [ZeroDivisionError]. *)
Theorem place_market_buy_guards_division symbol usdt s :
  (forall price s1,
     get_current_price symbol s = (Ok price, s1) ->
     Py.truthy price = false ->
     place_market_buy symbol usdt s = (Ok None, s1)) /\
  (forall msg,
     client_get_symbol_ticker env (clock s) = ApiError msg ->
     fst (get_current_price symbol s) = Ok 0%float /\
     fst (place_market_buy symbol usdt s) = Ok None) /\
  (forall price,
     Py.truthy price = true ->
     Py.truediv (float_of_Decimal usdt) price
       = Ok (float_of_Decimal usdt / price)%float) /\
  (forall price, Py.truthy price = false ->
     Py.truediv (float_of_Decimal usdt) price = Raise ZeroDivisionError) /\
  fst (place_market_buy symbol usdt s) <> Raise ZeroDivisionError.
Proof.
  assert (H1 : forall price s1,
     get_current_price symbol s = (Ok price, s1) ->
     Py.truthy price = false ->
     place_market_buy symbol usdt s = (Ok None, s1)).
  { intros price s1 Hp Ht. unfold BinanceClient.place_market_buy, coroutine.
    apply try_except_Ok, try_except_Ok. rewrite (bind_Ok Hp).
    now rewrite Ht. }
  repeat split.
  - exact H1.
  - rewrite (get_current_price_api_error symbol s H). reflexivity.
  - rewrite (H1 _ _ (get_current_price_api_error symbol s H) eq_refl).
    reflexivity.
  - intros price. apply truediv_truthy.
  - intros price. unfold Py.truthy, Py.truediv.
    destruct (PrimFloat.eqb price 0); [reflexivity | discriminate].
  - destruct (place_market_buy symbol usdt s) as [[o | e] s1] eqn:E;
      [discriminate |].
    simpl. intro H. inversion H. subst.
    now apply (@place_market_buy_raises symbol usdt s _ s1 E).
Qed.

Lemma get_klines_returned symbol interval limit s raw fks :
  client_get_klines env (clock s) = Returned raw ->
  BinanceClient.format_klines raw = Ok fks ->
  BinanceClient.get_klines env symbol interval limit s =
  (Ok fks, after_call s (GetKlines symbol interval limit)).
Proof.
  intros H1 H2. unfold BinanceClient.get_klines. apply try_except_Ok.
  rewrite (@bind_Ok _ _ _ _ s raw
             (after_call s (GetKlines symbol interval limit))).
  - unfold lift. now rewrite H2.
  - rewrite call_eq, H1. reflexivity.
Qed.

Lemma get_current_price_returned symbol s price :
  client_get_symbol_ticker env (clock s) = Returned (Some price) ->
  get_current_price symbol s =
  (Ok price, after_call s (GetSymbolTicker symbol)).
Proof.
  intros H1. unfold BinanceClient.get_current_price. apply try_except_Ok.
  rewrite (@bind_Ok _ _ _ _ s (Some price)
             (after_call s (GetSymbolTicker symbol))).
  - reflexivity.
  - rewrite call_eq, H1. reflexivity.
Qed.

(** C3. On a snapshot that was fetched (the 24 candles arrived and converted,
    there is at least one, and the ticker gave a price) the decision is the
    conjunction of the two tests: the price is below the mean of the closes
    times 0.95, and the oscillator that [calculate_rsi] returns is below 30.
    So the decision is true exactly when both tests hold. *)
Theorem decision_iff_both s raw fks price :
  client_get_klines env (clock s) = Returned raw ->
  BinanceClient.format_klines raw = Ok fks ->
  fks <> [] ->
  client_get_symbol_ticker env (S (clock s)) = Returned (Some price) ->
  let closes := map close_price fks in
  let avg_price :=
    (Py.sum closes / Py.float_of_nat (List.length closes))%float in
  let s2 := after_call (after_call s (GetKlines "AXSUSDT" "1h" 24))
                       (GetSymbolTicker "AXSUSDT") in
  exists rsi,
    fst (calculate_rsi "AXSUSDT" 14 s2) = Ok rsi /\
    fst (check_price_conditions s)
      = Ok ((price <? avg_price * Py.f0_95)%float && (rsi <? 30)%float) /\
    (fst (check_price_conditions s) = Ok true <->
     (price <? avg_price * Py.f0_95)%float = true /\
     (rsi <? 30)%float = true).
Proof.
  intros Hk Hf Hne Hp closes avg_price s2.
  destruct (calculate_rsi_never_raises "AXSUSDT" 14 s2) as [rsi Hr].
  exists rsi. split; [exact Hr |].
  assert (E : fst (check_price_conditions s)
      = Ok ((price <? avg_price * Py.f0_95)%float && (rsi <? 30)%float)).
  { unfold AXSStakingBot.check_price_conditions.
    rewrite (try_except_bind_Ok (get_klines_returned _ _ _ _ Hk Hf)).
    rewrite (try_except_bind_Ok
               (@get_current_price_returned "AXSUSDT"
                  (after_call s (GetKlines "AXSUSDT" "1h" 24)) price Hp)).
    fold closes. unfold Py.mean.
    destruct closes as [| c0 cl] eqn:Ec.
    { destruct fks; [now contradiction Hne | discriminate]. }
    cbn [List.length]. rewrite try_except_bind_lift_Ok.
    fold s2. destruct (calculate_rsi "AXSUSDT" 14 s2) as [rr s3] eqn:Er.
    simpl in Hr. subst rr.
    rewrite (try_except_bind_Ok Er).
    subst avg_price. cbn [List.length].
    destruct ((price <? _)%float && (rsi <? 30)%float); reflexivity. }
  split; [exact E |]. rewrite E. split.
  - intro H. injection H as H'. apply andb_true_iff in H'. exact H'.
  - intros [H1 H2]. now rewrite H1, H2.
Qed.

End ProgramFacts.

(** ** Binary64 arithmetic: rounding keeps bounds *)

Module Binary64Facts.
Import Binary64.
Local Open Scope Z_scope.

Lemma fexp_fexp64 e : SpecFloat.fexp prec emax e = fexp64 e.
Proof. reflexivity. Qed.

Lemma fexp64_mono a b : a <= b -> fexp64 a <= fexp64 b.
Proof. unfold fexp64. lia. Qed.

Lemma fexp64_ge e : -1074 <= fexp64 e.
Proof. unfold fexp64. lia. Qed.

Lemma digits2_pos_bounds p :
  2 ^ (Zpos (digits2_pos p) - 1) <= Zpos p < 2 ^ Zpos (digits2_pos p).
Proof.
  induction p as [p IH | p IH |]; cbn [digits2_pos].
  - rewrite Pos2Z.inj_succ. replace (Z.succ (Zpos (digits2_pos p)) - 1)
      with (Z.succ (Zpos (digits2_pos p) - 1)) by lia.
    rewrite !Z.pow_succ_r by lia. lia.
  - rewrite Pos2Z.inj_succ. replace (Z.succ (Zpos (digits2_pos p)) - 1)
      with (Z.succ (Zpos (digits2_pos p) - 1)) by lia.
    rewrite !Z.pow_succ_r by lia. lia.
  - simpl. lia.
Qed.

Lemma Zdigits2_bounds m :
  0 < m -> 2 ^ (Zdigits2 m - 1) <= m < 2 ^ Zdigits2 m.
Proof.
  destruct m as [| p | p]; try lia. intros _. apply digits2_pos_bounds.
Qed.

Lemma Zdigits2_nonneg m : 0 <= Zdigits2 m.
Proof. destruct m; simpl; lia. Qed.

Lemma Zdigits2_pos m : 0 < m -> 0 < Zdigits2 m.
Proof. destruct m; simpl; lia. Qed.

(** A number below [2^k] has at most [k] digits. *)
Lemma Zdigits2_le m k : 0 <= m -> 0 <= k -> m < 2 ^ k -> Zdigits2 m <= k.
Proof.
  intros Hm Hk Hlt. destruct (Z.eq_dec m 0) as [-> | Hne]; [simpl; lia |].
  destruct (Zdigits2_bounds (m:=m)) as [Hlo _]; [lia |].
  destruct (Z_le_gt_dec (Zdigits2 m) k) as [H | H]; [exact H | exfalso].
  assert (2 ^ k <= 2 ^ (Zdigits2 m - 1)) by (apply Z.pow_le_mono_r; lia).
  lia.
Qed.

(** A number from [2^k] on has more than [k] digits. *)
Lemma Zdigits2_gt m k : 0 <= k -> 2 ^ k <= m -> k < Zdigits2 m.
Proof.
  intros Hk Hle.
  assert (0 < m) by (pose proof (Z.pow_pos_nonneg 2 k); lia).
  destruct (Zdigits2_bounds (m:=m)) as [_ Hhi]; [lia |].
  destruct (Z_lt_le_dec k (Zdigits2 m)) as [H1 | H1]; [exact H1 | exfalso].
  assert (2 ^ Zdigits2 m <= 2 ^ k)
    by (apply Z.pow_le_mono_r; [lia | exact H1]).
  lia.
Qed.

Lemma Zdigits2_shift m k :
  0 < m -> 0 <= k -> Zdigits2 (m * 2 ^ k) = Zdigits2 m + k.
Proof.
  intros Hm Hk. destruct (Zdigits2_bounds Hm) as [Hlo Hhi].
  pose proof (Zdigits2_pos Hm) as Hd.
  assert (Hp : 0 < 2 ^ k) by (apply Z.pow_pos_nonneg; lia).
  apply Z.le_antisymm.
  - apply Zdigits2_le; [nia | lia |]. rewrite Z.pow_add_r by lia. nia.
  - assert (Zdigits2 m + k - 1 < Zdigits2 (m * 2 ^ k)); [| lia].
    apply Zdigits2_gt; [lia |].
    replace (Zdigits2 m + k - 1) with ((Zdigits2 m - 1) + k) by lia.
    rewrite Z.pow_add_r by lia. nia.
Qed.

(** *** Shifting a mantissa to the right *)

Lemma shr_1_m mrs :
  0 <= shr_m mrs -> shr_m (shr_1 mrs) = shr_m mrs / 2.
Proof.
  destruct mrs as [m r s]. cbn [shr_m shr_1].
  destruct m as [| [p | p |] | p]; intro H; cbn [shr_m]; try lia.
  - reflexivity.
  - rewrite Pos2Z.inj_xI. apply Z.div_unique with 1; lia.
  - rewrite Pos2Z.inj_xO. apply Z.div_unique with 0; lia.
  - reflexivity.
Qed.

Lemma iter_shr_1_m p : forall mrs,
  0 <= shr_m mrs ->
  shr_m (iter_pos shr_1 p mrs) = shr_m mrs / 2 ^ Zpos p.
Proof.
  assert (Hdiv : forall a, 0 <= a -> 0 <= a / 2)
    by (intros; apply Z.div_pos; lia).
  assert (Hpow : forall q, 0 < 2 ^ Zpos q)
    by (intros; apply Z.pow_pos_nonneg; lia).
  induction p as [p IH | p IH |]; intros mrs Hm; cbn [iter_pos].
  - assert (H1 : 0 <= shr_m (shr_1 mrs)) by (rewrite shr_1_m; auto).
    assert (H2 : 0 <= shr_m (iter_pos shr_1 p (shr_1 mrs))).
    { rewrite IH by exact H1. apply Z.div_pos; [exact H1 | apply Hpow]. }
    rewrite IH by exact H2. rewrite IH by exact H1. rewrite shr_1_m by exact Hm.
    rewrite !Z.div_div by (pose proof (Hpow p); lia).
    f_equal. replace (Zpos p~1) with (1 + Zpos p + Zpos p) by lia.
    rewrite !Z.pow_add_r by lia. rewrite Z.pow_1_r. ring.
  - assert (H2 : 0 <= shr_m (iter_pos shr_1 p mrs)).
    { rewrite IH by exact Hm. apply Z.div_pos; [exact Hm | apply Hpow]. }
    rewrite IH by exact H2. rewrite IH by exact Hm.
    rewrite Z.div_div by (pose proof (Hpow p); lia).
    f_equal. replace (Zpos p~0) with (Zpos p + Zpos p) by lia.
    rewrite Z.pow_add_r by lia. ring.
  - apply shr_1_m. exact Hm.
Qed.

Lemma shr_record_of_loc_m m l : shr_m (shr_record_of_loc m l) = m.
Proof. destruct l as [| []]; reflexivity. Qed.

(** [shr_fexp] on a mantissa that is not too coarse already: the mantissa is
    divided down to the exponent binary64 gives it. *)
Lemma shr_fexp_m m e l :
  0 <= m ->
  e <= fexp64 (Zdigits2 m + e) ->
  shr_m (fst (shr_fexp prec emax m e l)) =
    m / 2 ^ (fexp64 (Zdigits2 m + e) - e) /\
  snd (shr_fexp prec emax m e l) = fexp64 (Zdigits2 m + e).
Proof.
  intros Hm He. unfold shr_fexp, shr. rewrite fexp_fexp64.
  destruct (fexp64 (Zdigits2 m + e) - e) as [| p | p] eqn:En; cbn [fst snd].
  - rewrite shr_record_of_loc_m, Z.div_1_r. split; lia.
  - rewrite iter_shr_1_m by (rewrite shr_record_of_loc_m; exact Hm).
    rewrite shr_record_of_loc_m. split; [reflexivity | lia].
  - lia.
Qed.

(** [shr_fexp] on a mantissa that is too coarse leaves it alone. *)
Lemma shr_fexp_coarse m e l :
  fexp64 (Zdigits2 m + e) <= e ->
  shr_fexp prec emax m e l = (shr_record_of_loc m l, e).
Proof.
  intros He. unfold shr_fexp, shr. rewrite fexp_fexp64.
  destruct (fexp64 (Zdigits2 m + e) - e) as [| p | p] eqn:En;
    try reflexivity. lia.
Qed.

Lemma round_nearest_even_bounds m l :
  m <= round_nearest_even m l <= m + 1.
Proof.
  destruct l as [| []]; cbn [round_nearest_even]; try lia.
  destruct (Z.even m); lia.
Qed.

(** *** Rounding *)

Lemma div_pow2_lt m n k :
  0 <= m -> 0 <= n -> 0 <= k -> m < 2 ^ (n + k) -> m / 2 ^ n < 2 ^ k.
Proof.
  intros Hm Hn Hk H. apply Z.div_lt_upper_bound.
  - apply Z.pow_pos_nonneg; lia.
  - rewrite <- Z.pow_add_r by lia. exact H.
Qed.

(** What [binary_round_aux] returns on a non-negative mantissa that is not too
    coarse: the mantissa divided down to its binary64 exponent [E], or one
    more, renormalised when it reaches [2^53], and infinity when the exponent
    leaves the format. *)
Lemma binary_round_aux_cases mx ex lx :
  0 <= mx ->
  ex <= fexp64 (Zdigits2 mx + ex) ->
  let E := fexp64 (Zdigits2 mx + ex) in
  let m1 := mx / 2 ^ (E - ex) in
  exists m2,
    m1 <= m2 <= m1 + 1 /\ m2 <= 2 ^ 53 /\
    binary_round_aux prec emax false mx ex lx =
      if m2 =? 0 then S754_zero false
      else if m2 <? 2 ^ 53 then
        if E <=? 971 then S754_finite false (Z.to_pos m2) E
        else S754_infinity false
      else
        if E + 1 <=? 971 then S754_finite false (Z.to_pos (2 ^ 52)) (E + 1)
        else S754_infinity false.
Proof.
  intros Hmx Hex E m1.
  destruct (shr_fexp_m lx Hmx Hex) as [Hm' He'].
  fold E in Hm', He'. fold m1 in Hm'.
  unfold binary_round_aux.
  destruct (shr_fexp prec emax mx ex lx) as [mrs' e'] eqn:E1.
  cbn [fst snd] in Hm', He'. subst e'.
  set (m2 := round_nearest_even (shr_m mrs') (loc_of_shr_record mrs')).
  pose proof (round_nearest_even_bounds (shr_m mrs')
                (loc_of_shr_record mrs')) as Hb.
  fold m2 in Hb. rewrite Hm' in Hb.
  assert (Hm1 : 0 <= m1).
  { apply Z.div_pos; [exact Hmx | apply Z.pow_pos_nonneg; lia]. }
  assert (Hm1' : m1 < 2 ^ 53).
  { destruct (Z.eq_dec mx 0) as [-> | Hne].
    - unfold m1. rewrite Z.div_0_l; [lia |].
      pose proof (Z.pow_pos_nonneg 2 (E - ex)). lia.
    - destruct (Zdigits2_bounds (m:=mx)) as [_ Hhi]; [lia |].
      assert (Hd : Zdigits2 mx + ex - 53 <= E) by (unfold E, fexp64; lia).
      unfold m1. apply div_pow2_lt; try lia.
      eapply Z.lt_le_trans; [exact Hhi |].
      apply Z.pow_le_mono_r; lia. }
  assert (HE : -1074 <= E) by apply fexp64_ge.
  exists m2. split; [exact Hb |]. split; [lia |].
  destruct (Z.ltb_spec m2 (2 ^ 53)) as [Hlt | Hge].
  - (* no renormalisation *)
    rewrite shr_fexp_coarse.
    2:{ assert (Zdigits2 m2 <= 53) by (apply Zdigits2_le; lia).
        unfold fexp64. lia. }
    cbn [shr_m shr_record_of_loc].
    destruct m2 as [| p | p]; [reflexivity | | lia].
    cbn [Z.eqb]. unfold emax, prec. cbn [Z.sub Z.to_pos].
    change (Z.pos_sub 1024 53) with 971. reflexivity.
  - (* the mantissa reached 2^53 *)
    assert (Hm2 : m2 = 2 ^ 53) by lia.
    assert (Hd2 : Zdigits2 m2 = 54) by (rewrite Hm2; reflexivity).
    assert (Hf : fexp64 (Zdigits2 m2 + E) = E + 1)
      by (rewrite Hd2; unfold fexp64; lia).
    destruct (@shr_fexp_m m2 E loc_Exact) as [Hm3 He3]; [lia | lia |].
    destruct (shr_fexp prec emax m2 E loc_Exact) as [mrs'' e''] eqn:E2.
    cbn [fst snd] in Hm3, He3. rewrite Hf in Hm3, He3. subst e''.
    replace (E + 1 - E) with 1 in Hm3 by lia.
    rewrite Hm3, Hm2. change (2 ^ 53 / 2 ^ 1) with (2 ^ 52).
    change (2 ^ 53 =? 0) with false. cbv iota.
    change (2 ^ 52) with (Zpos (Z.to_pos (2 ^ 52))) at 1.
    cbv iota. reflexivity.
Qed.

(** *** Scaled values *)

Lemma pow2_pos k : 0 <= k -> 0 < 2 ^ k.
Proof. intro. apply Z.pow_pos_nonneg; lia. Qed.

Lemma scaled_shift m e k :
  -2200 <= e -> 0 <= k -> scaled (m * 2 ^ k) e = scaled m (e + k).
Proof.
  intros He Hk. unfold scaled.
  replace (e + k + 2200) with (k + (e + 2200)) by lia.
  rewrite (Z.pow_add_r 2 k (e + 2200)) by lia. ring.
Qed.

Lemma scaled_le m m' e : -2200 <= e -> m <= m' -> scaled m e <= scaled m' e.
Proof.
  intros He H. unfold scaled. pose proof (pow2_pos (k:=e + 2200)). nia.
Qed.

Lemma scaled_lt_inv m m' e :
  -2200 <= e -> scaled m e < scaled m' e -> m < m'.
Proof.
  intros He H. unfold scaled in H. pose proof (pow2_pos (k:=e + 2200)). nia.
Qed.

Lemma scaled_le_inv m m' e :
  -2200 <= e -> scaled m e <= scaled m' e -> m <= m'.
Proof.
  intros He H. unfold scaled in H. pose proof (pow2_pos (k:=e + 2200)). nia.
Qed.

Lemma scaled_pos m e : -2200 <= e -> 0 < m -> 0 < scaled m e.
Proof.
  intros He H. unfold scaled. pose proof (pow2_pos (k:=e + 2200)). nia.
Qed.

Lemma scaled_pow k e :
  -2200 <= e -> 0 <= k -> scaled (2 ^ k) e = 2 ^ (k + e + 2200).
Proof.
  intros He Hk. unfold scaled. rewrite <- Z.pow_add_r by lia.
  f_equal. lia.
Qed.

Lemma canonical_bounds mc ec :
  canonical mc ec -> -1074 <= ec /\ Zpos mc < 2 ^ 53.
Proof.
  unfold canonical, fexp64. intro H.
  pose proof (digits2_pos_bounds mc) as [_ Hhi].
  split; [lia |].
  eapply Z.lt_le_trans; [exact Hhi |]. apply Z.pow_le_mono_r; lia.
Qed.

(** A positive mantissa divided down to a normal exponent keeps 53 digits. *)
Lemma floor_normal mx ex :
  0 < mx ->
  ex <= fexp64 (Zdigits2 mx + ex) ->
  -1074 < fexp64 (Zdigits2 mx + ex) ->
  fexp64 (Zdigits2 mx + ex) - ex = Zdigits2 mx - 53 /\
  2 ^ 52 <= mx / 2 ^ (fexp64 (Zdigits2 mx + ex) - ex).
Proof.
  intros Hmx Hex HE.
  assert (Hn : fexp64 (Zdigits2 mx + ex) - ex = Zdigits2 mx - 53)
    by (unfold fexp64 in *; lia).
  split; [exact Hn |]. rewrite Hn.
  destruct (Zdigits2_bounds Hmx) as [Hlo _].
  apply Z.div_le_lower_bound; [apply pow2_pos; lia |].
  rewrite <- Z.pow_add_r by lia.
  replace (Zdigits2 mx - 53 + 52) with (Zdigits2 mx - 1) by lia. exact Hlo.
Qed.

(** A binary64 number that is at most the value of [mx] at [ex] is at most
    that value rounded down to the binary64 exponent. *)
Lemma floor_ge mc ec mx ex :
  canonical mc ec ->
  0 <= mx -> -2200 <= ex ->
  ex <= fexp64 (Zdigits2 mx + ex) ->
  scaled (Zpos mc) ec <= scaled mx ex ->
  scaled (Zpos mc) ec
    <= scaled (mx / 2 ^ (fexp64 (Zdigits2 mx + ex) - ex))
              (fexp64 (Zdigits2 mx + ex)).
Proof.
  intros Hc Hmx Hex HE Hle.
  set (E := fexp64 (Zdigits2 mx + ex)) in *.
  destruct (canonical_bounds Hc) as [Hec Hmc].
  assert (Hcpos : 0 < scaled (Zpos mc) ec) by (apply scaled_pos; lia).
  assert (Hmx' : 0 < mx).
  { destruct (Z.eq_dec mx 0) as [-> | ]; [| lia].
    unfold scaled in Hle. lia. }
  destruct (Z_le_gt_dec E ec) as [Hge | Hlt].
  - (* the number is a multiple of [2^E] *)
    replace ec with (E + (ec - E)) at 1 by lia.
    rewrite <- scaled_shift by lia.
    apply scaled_le; [lia |].
    apply Z.div_le_lower_bound; [apply pow2_pos; lia |].
    apply scaled_le_inv with (e := ex); [lia |].
    rewrite Z.mul_comm, scaled_shift by lia.
    replace (ex + (E - ex)) with E by lia.
    rewrite scaled_shift by lia.
    replace (E + (ec - E)) with ec by lia. exact Hle.
  - (* the number has a smaller exponent, so it is smaller altogether *)
    destruct (@floor_normal mx ex Hmx' HE) as [Hn H52]; [fold E; lia |].
    fold E in Hn, H52.
    assert (Hd : Zpos (digits2_pos mc) + ec < Zdigits2 mx + ex).
    { unfold canonical in Hc. unfold E, fexp64 in *. lia. }
    pose proof (digits2_pos_bounds mc) as [_ Hhi].
    eapply Z.le_trans; [| apply scaled_le; [lia | exact H52]].
    rewrite scaled_pow by lia.
    apply Z.lt_le_incl. eapply Z.lt_le_trans.
    + unfold scaled. apply Z.mul_lt_mono_pos_r; [apply pow2_pos; lia |].
      exact Hhi.
    + rewrite <- Z.pow_add_r by lia. apply Z.pow_le_mono_r; lia.
Qed.

(** A binary64 number above the value of [mx] at [ex] is at least the next
    multiple of the binary64 unit above that value. *)
Lemma floor_succ_le mc ec mx ex :
  canonical mc ec ->
  0 <= mx -> -2200 <= ex ->
  ex <= fexp64 (Zdigits2 mx + ex) ->
  scaled mx ex < scaled (Zpos mc) ec ->
  scaled (mx / 2 ^ (fexp64 (Zdigits2 mx + ex) - ex) + 1)
         (fexp64 (Zdigits2 mx + ex))
    <= scaled (Zpos mc) ec.
Proof.
  intros Hc Hmx Hex HE Hlt.
  set (E := fexp64 (Zdigits2 mx + ex)) in *.
  destruct (canonical_bounds Hc) as [Hec Hmc].
  destruct (Z_le_gt_dec E ec) as [Hge | Hgt].
  - replace ec with (E + (ec - E)) at 1 by lia.
    rewrite <- scaled_shift by lia.
    apply scaled_le; [lia |].
    assert (mx / 2 ^ (E - ex) < Zpos mc * 2 ^ (ec - E)); [| lia].
    apply Z.div_lt_upper_bound; [apply pow2_pos; lia |].
    apply scaled_lt_inv with (e := ex); [lia |].
    rewrite (Z.mul_comm (2 ^ (E - ex))), scaled_shift by lia.
    replace (ex + (E - ex)) with E by lia.
    rewrite scaled_shift by lia.
    replace (E + (ec - E)) with ec by lia. exact Hlt.
  - exfalso. destruct (Z.eq_dec mx 0) as [-> | Hne].
    + cbn [Zdigits2] in E. unfold E, fexp64 in *. lia.
    + destruct (@floor_normal mx ex) as [Hn H52]; [lia | exact HE | |].
      { fold E. lia. }
      fold E in Hn, H52.
      assert (Hd : Zpos (digits2_pos mc) + ec < Zdigits2 mx + ex).
      { unfold canonical in Hc. unfold E, fexp64 in *. lia. }
      pose proof (digits2_pos_bounds mc) as [_ Hhi].
      destruct (Zdigits2_bounds (m:=mx)) as [Hlo _]; [lia |].
      assert (scaled (Zpos mc) ec < scaled mx ex); [| lia].
      eapply Z.lt_le_trans.
      * unfold scaled. apply Z.mul_lt_mono_pos_r; [apply pow2_pos; lia |].
        exact Hhi.
      * rewrite <- Z.pow_add_r by lia.
        eapply Z.le_trans; [| apply scaled_le; [lia | exact Hlo]].
        rewrite scaled_pow by lia. apply Z.pow_le_mono_r; lia.
Qed.

Lemma binary_round_aux_nonnegative mx ex lx :
  0 <= mx ->
  ex <= fexp64 (Zdigits2 mx + ex) ->
  nonnegative (binary_round_aux prec emax false mx ex lx).
Proof.
  intros Hmx Hex.
  destruct (binary_round_aux_cases lx Hmx Hex) as (m2 & _ & _ & ->).
  destruct (m2 =? 0); [exact I |].
  destruct (m2 <? 2 ^ 53).
  - destruct (_ <=? 971); exact I.
  - destruct (_ <=? 971); exact I.
Qed.

(** Rounding does not go below a binary64 number that the value is not
    below. *)
Lemma binary_round_aux_ge mc ec mx ex lx :
  canonical mc ec ->
  0 <= mx -> -2200 <= ex ->
  ex <= fexp64 (Zdigits2 mx + ex) ->
  scaled (Zpos mc) ec <= scaled mx ex ->
  at_least mc ec (binary_round_aux prec emax false mx ex lx).
Proof.
  intros Hc Hmx Hex HE Hle.
  pose proof (floor_ge Hc Hmx Hex HE Hle) as Hfl.
  destruct (binary_round_aux_cases lx Hmx HE) as (m2 & Hm2 & Hm2' & ->).
  set (E := fexp64 (Zdigits2 mx + ex)) in *.
  pose proof (fexp64_ge (Zdigits2 mx + ex)) as HE'. fold E in HE'.
  destruct (canonical_bounds Hc) as [Hec Hmc].
  assert (Hcpos : 0 < scaled (Zpos mc) ec) by (apply scaled_pos; lia).
  assert (H2 : scaled (Zpos mc) ec <= scaled m2 E).
  { eapply Z.le_trans; [exact Hfl | apply scaled_le; lia]. }
  destruct (Z.eqb_spec m2 0) as [-> | Hne].
  { unfold scaled in H2. lia. }
  assert (0 < m2).
  { destruct (Z_lt_le_dec 0 m2); [assumption |].
    assert (scaled m2 E <= scaled 0 E) by (apply scaled_le; lia).
    unfold scaled in *. lia. }
  destruct (Z.ltb_spec m2 (2 ^ 53)).
  - destruct (E <=? 971); [| exact I]. cbn [at_least].
    rewrite Z2Pos.id by lia. exact H2.
  - destruct (E + 1 <=? 971); [| exact I]. cbn [at_least].
    rewrite Z2Pos.id by lia.
    replace (2 ^ 52) with (2 ^ 52 * 2 ^ 0) by reflexivity.
    assert (Hm : m2 = 2 ^ 53) by lia. rewrite Hm in H2.
    change (2 ^ 53) with (2 ^ 52 * 2 ^ 1) in H2.
    rewrite scaled_shift in H2 by lia.
    rewrite scaled_shift by lia. replace (E + 1 + 0) with (E + 1) by lia.
    exact H2.
Qed.

(** Rounding does not go above a binary64 number that the value is below. *)
Lemma binary_round_aux_le mc ec mx ex lx :
  canonical mc ec -> ec <= 971 ->
  0 <= mx -> -2200 <= ex ->
  ex <= fexp64 (Zdigits2 mx + ex) ->
  scaled mx ex < scaled (Zpos mc) ec ->
  at_most mc ec (binary_round_aux prec emax false mx ex lx).
Proof.
  intros Hc Hec' Hmx Hex HE Hlt.
  pose proof (floor_succ_le Hc Hmx Hex HE Hlt) as Hfl.
  destruct (binary_round_aux_cases lx Hmx HE) as (m2 & Hm2 & Hm2' & ->).
  set (E := fexp64 (Zdigits2 mx + ex)) in *.
  pose proof (fexp64_ge (Zdigits2 mx + ex)) as HE'. fold E in HE'.
  destruct (canonical_bounds Hc) as [Hec Hmc].
  assert (H2 : scaled m2 E <= scaled (Zpos mc) ec).
  { eapply Z.le_trans; [apply scaled_le; [lia |] | exact Hfl]. lia. }
  assert (Hm1 : 0 <= mx / 2 ^ (E - ex)).
  { apply Z.div_pos; [exact Hmx | apply pow2_pos; lia]. }
  assert (Hctop : scaled (Zpos mc) ec < 2 ^ (53 + 971 + 2200)).
  { eapply Z.lt_le_trans.
    - unfold scaled. apply Z.mul_lt_mono_pos_r; [apply pow2_pos; lia |].
      exact Hmc.
    - rewrite <- Z.pow_add_r by lia. apply Z.pow_le_mono_r; lia. }
  destruct (Z.eqb_spec m2 0) as [-> | Hne]; [exact I |].
  destruct (Z.ltb_spec m2 (2 ^ 53)).
  - destruct (Z.leb_spec E 971).
    + cbn [at_most]. rewrite Z2Pos.id by lia. exact H2.
    + exfalso.
      destruct (Z.eq_dec mx 0) as [Hz | Hnz].
      { assert (E = fexp64 (0 + ex)) by (unfold E; now rewrite Hz).
        unfold fexp64 in *. lia. }
      destruct (@floor_normal mx ex) as [Hn H52]; [lia | exact HE | |].
      { fold E. lia. }
      fold E in H52.
      assert (2 ^ (52 + E + 2200) <= scaled m2 E).
      { rewrite <- scaled_pow by lia. apply scaled_le; lia. }
      assert (2 ^ (53 + 971 + 2200) <= 2 ^ (52 + E + 2200))
        by (apply Z.pow_le_mono_r; lia).
      lia.
  - assert (Hm : m2 = 2 ^ 53) by lia. rewrite Hm in H2.
    destruct (Z.leb_spec (E + 1) 971).
    + cbn [at_most]. rewrite Z2Pos.id by lia.
      change (2 ^ 53) with (2 ^ 52 * 2 ^ 1) in H2.
      rewrite scaled_shift in H2 by lia. exact H2.
    + exfalso. rewrite scaled_pow in H2 by lia.
      assert (2 ^ (53 + 971 + 2200) <= 2 ^ (53 + E + 2200))
        by (apply Z.pow_le_mono_r; lia).
      lia.
Qed.

(** *** Aligning and normalising *)

Lemma iter_xO m d : Zpos (Pos.iter xO m d) = Zpos m * 2 ^ Zpos d.
Proof.
  induction d as [| d IH] using Pos.peano_ind.
  - cbn [Pos.iter]. rewrite Z.pow_1_r. lia.
  - rewrite Pos.iter_succ, Pos2Z.inj_succ.
    rewrite Z.pow_succ_r by lia.
    change (Zpos (Pos.iter xO m d)~0) with (2 * Zpos (Pos.iter xO m d)).
    rewrite IH. ring.
Qed.

(** [shl_align m e e'] writes the number at the smaller of the two
    exponents. *)
Lemma shl_align_spec m e e' :
  snd (shl_align m e e') = Z.min e e' /\
  Zpos (fst (shl_align m e e')) = Zpos m * 2 ^ (e - Z.min e e').
Proof.
  unfold shl_align. destruct (e' - e) as [| p | p] eqn:Ed; cbn [fst snd].
  - replace (Z.min e e') with e by lia. rewrite Z.sub_diag. split; lia.
  - replace (Z.min e e') with e by lia. rewrite Z.sub_diag. split; lia.
  - replace (Z.min e e') with e' by lia. split; [reflexivity |].
    rewrite iter_xO. f_equal. f_equal. lia.
Qed.

(** The mantissa and exponent [binary_round] hands to [binary_round_aux]
    carry the same value and are not too coarse. *)
Lemma binary_round_aligned mx ex :
  -2200 <= ex ->
  let mz := fst (shl_align mx ex (fexp64 (Zpos (digits2_pos mx) + ex))) in
  let ez := snd (shl_align mx ex (fexp64 (Zpos (digits2_pos mx) + ex))) in
  -2200 <= ez /\
  ez <= fexp64 (Zdigits2 (Zpos mz) + ez) /\
  scaled (Zpos mz) ez = scaled (Zpos mx) ex.
Proof.
  intros Hex mz ez.
  destruct (shl_align_spec mx ex (fexp64 (Zpos (digits2_pos mx) + ex)))
    as [He Hm].
  fold ez in He. fold mz in Hm. rewrite <- He in Hm.
  pose proof (fexp64_ge (Zpos (digits2_pos mx) + ex)) as Hf.
  split; [lia |].
  assert (Hv : scaled (Zpos mz) ez = scaled (Zpos mx) ex).
  { rewrite Hm. rewrite scaled_shift by lia. f_equal. lia. }
  split; [| exact Hv].
  assert (Hd : Zdigits2 (Zpos mz) + ez = Zpos (digits2_pos mx) + ex).
  { rewrite Hm. rewrite Zdigits2_shift by lia. cbn [Zdigits2]. lia. }
  rewrite Hd. lia.
Qed.

Lemma binary_round_eq mx ex :
  binary_round prec emax false mx ex =
  binary_round_aux prec emax false
    (Zpos (fst (shl_align mx ex (fexp64 (Zpos (digits2_pos mx) + ex)))))
    (snd (shl_align mx ex (fexp64 (Zpos (digits2_pos mx) + ex))))
    loc_Exact.
Proof.
  unfold binary_round. rewrite fexp_fexp64.
  destruct (shl_align mx ex _). reflexivity.
Qed.

Lemma binary_round_nonnegative mx ex :
  -2200 <= ex -> nonnegative (binary_round prec emax false mx ex).
Proof.
  intro Hex. rewrite binary_round_eq.
  destruct (binary_round_aligned mx Hex) as (H1 & H2 & H3).
  apply binary_round_aux_nonnegative; [lia | exact H2].
Qed.

Lemma binary_round_ge mc ec mx ex :
  canonical mc ec -> -2200 <= ex ->
  scaled (Zpos mc) ec <= scaled (Zpos mx) ex ->
  at_least mc ec (binary_round prec emax false mx ex).
Proof.
  intros Hc Hex Hle. rewrite binary_round_eq.
  destruct (binary_round_aligned mx Hex) as (H1 & H2 & H3).
  apply binary_round_aux_ge; try assumption; [lia | now rewrite H3].
Qed.

Lemma binary_round_le mc ec mx ex :
  canonical mc ec -> ec <= 971 -> -2200 <= ex ->
  scaled (Zpos mx) ex < scaled (Zpos mc) ec ->
  at_most mc ec (binary_round prec emax false mx ex).
Proof.
  intros Hc Hec Hex Hlt. rewrite binary_round_eq.
  destruct (binary_round_aligned mx Hex) as (H1 & H2 & H3).
  apply binary_round_aux_le; try assumption; [lia | now rewrite H3].
Qed.

(** *** Comparing *)

Lemma valid_binary_canonical s m e :
  valid_binary (S754_finite s m e) = true -> canonical m e /\ e <= 971.
Proof.
  unfold SpecFloat.valid_binary, bounded, canonical_mantissa.
  rewrite fexp_fexp64. intro H. apply andb_true_iff in H as [H1 H2].
  apply Z.eqb_eq in H1. apply Z.leb_le in H2. unfold canonical.
  split; [now symmetry | exact H2].
Qed.

Arguments valid_binary_canonical {s m e} _.

(** Among positive binary64 numbers the larger exponent wins. *)
Lemma canonical_exponent_lt m1 e1 m2 e2 :
  canonical m1 e1 -> canonical m2 e2 -> e1 < e2 ->
  scaled (Zpos m1) e1 < scaled (Zpos m2) e2.
Proof.
  intros H1 H2 Hlt.
  destruct (canonical_bounds H1) as [He1 Hm1].
  pose proof (digits2_pos_bounds m2) as [Hlo _].
  assert (Hd2 : Zpos (digits2_pos m2) = 53)
    by (unfold canonical, fexp64 in H2; lia).
  rewrite Hd2 in Hlo.
  eapply Z.lt_le_trans.
  - unfold scaled. apply Z.mul_lt_mono_pos_r; [apply pow2_pos; lia |].
    exact Hm1.
  - rewrite <- Z.pow_add_r by lia.
    eapply Z.le_trans; [| apply scaled_le; [lia | exact Hlo]].
    rewrite scaled_pow by lia. apply Z.pow_le_mono_r; lia.
Qed.

Lemma SFcompare_scaled m1 e1 m2 e2 :
  canonical m1 e1 -> canonical m2 e2 ->
  SFcompare (S754_finite false m1 e1) (S754_finite false m2 e2) =
  Some (scaled (Zpos m1) e1 ?= scaled (Zpos m2) e2).
Proof.
  intros H1 H2. cbn [SFcompare]. f_equal.
  destruct (Z.compare_spec e1 e2) as [-> | Hlt | Hgt].
  - rewrite Pos.compare_cont_spec. cbn [Pos.switch_Eq].
    destruct (canonical_bounds H2) as [He2 _].
    assert (Hs : forall c, Pos.switch_Eq Eq c = c) by (intros []; reflexivity).
    rewrite Hs. change ((m1 ?= m2)%positive) with (Zpos m1 ?= Zpos m2).
    unfold scaled. apply Zmult_compare_compat_r.
    pose proof (pow2_pos (k := e2 + 2200)). lia.
  - symmetry. apply Z.compare_lt_iff.
    now apply canonical_exponent_lt.
  - symmetry. apply Z.compare_gt_iff.
    now apply canonical_exponent_lt.
Qed.

(** Two positive binary64 numbers of the same value are the same. *)
Lemma canonical_unique m1 e1 m2 e2 :
  canonical m1 e1 -> canonical m2 e2 ->
  scaled (Zpos m1) e1 = scaled (Zpos m2) e2 -> m1 = m2 /\ e1 = e2.
Proof.
  intros H1 H2 Heq.
  destruct (Z.lt_total e1 e2) as [Hlt | [-> | Hgt]].
  - pose proof (canonical_exponent_lt H1 H2 Hlt). lia.
  - split; [| reflexivity].
    destruct (canonical_bounds H2) as [He2 _].
    unfold scaled in Heq. pose proof (pow2_pos (k := e2 + 2200)).
    assert (Zpos m1 = Zpos m2) by nia. congruence.
  - pose proof (canonical_exponent_lt H2 H1 Hgt). lia.
Qed.

(** *** Addition and subtraction of positive numbers *)

Lemma aligned_scaled m e ez :
  -2200 <= ez -> ez <= e ->
  scaled (Zpos (fst (shl_align m e ez))) ez = scaled (Zpos m) e.
Proof.
  intros H1 H2. destruct (shl_align_spec m e ez) as [_ Hm].
  rewrite Hm. replace (Z.min e ez) with ez by lia.
  rewrite scaled_shift by lia. f_equal. lia.
Qed.

Lemma scaled_add a b e : scaled (a + b) e = scaled a e + scaled b e.
Proof. unfold scaled. ring. Qed.

Lemma scaled_sub a b e : scaled (a - b) e = scaled a e - scaled b e.
Proof. unfold scaled. ring. Qed.

Lemma at_least_refl m e : at_least m e (S754_finite false m e).
Proof. cbn [at_least]. lia. Qed.

Lemma at_most_refl m e : at_most m e (S754_finite false m e).
Proof. cbn [at_most]. lia. Qed.

Lemma SFadd_nonnegative x y :
  valid_binary x = true -> valid_binary y = true ->
  nonnegative x -> nonnegative y -> nonnegative (SFadd prec emax x y).
Proof.
  intros Vx Vy Hx Hy.
  destruct x as [[|] | [|] | | [|] m1 e1]; try contradiction;
    destruct y as [[|] | [|] | | [|] m2 e2]; try contradiction;
    try exact I.
  destruct (valid_binary_canonical Vx) as [C1 _].
  destruct (valid_binary_canonical Vy) as [C2 _].
  destruct (canonical_bounds C1), (canonical_bounds C2).
  cbn [SFadd cond_Zopp Z.add binary_normalize].
  apply binary_round_nonnegative. lia.
Qed.

(** Adding a non-negative number to a positive one does not give less. *)
Lemma SFadd_ge_left m1 e1 y :
  valid_binary (S754_finite false m1 e1) = true ->
  valid_binary y = true -> nonnegative y ->
  at_least m1 e1 (SFadd prec emax (S754_finite false m1 e1) y).
Proof.
  intros Vx Vy Hy.
  destruct (valid_binary_canonical Vx) as [C1 _].
  destruct (canonical_bounds C1).
  destruct y as [[|] | [|] | | [|] m2 e2]; try contradiction.
  - apply at_least_refl.
  - exact I.
  - destruct (valid_binary_canonical Vy) as [C2 _].
    destruct (canonical_bounds C2).
    cbn [SFadd cond_Zopp Z.add binary_normalize].
    apply binary_round_ge; [exact C1 | lia |].
    rewrite Pos2Z.inj_add, scaled_add.
    rewrite !aligned_scaled by lia.
    pose proof (@scaled_pos (Zpos m2) e2). lia.
Qed.

(** Subtracting from a positive number a non-negative one that is not above
    it gives a non-negative number that is not above it. *)
Lemma SFsub_le_left m1 e1 y :
  valid_binary (S754_finite false m1 e1) = true ->
  valid_binary y = true ->
  at_most m1 e1 y ->
  at_most m1 e1 (SFsub prec emax (S754_finite false m1 e1) y).
Proof.
  intros Vx Vy Hy.
  destruct (valid_binary_canonical Vx) as [C1 B1].
  destruct (canonical_bounds C1).
  destruct y as [[|] | [|] | | [|] m2 e2]; try contradiction.
  - apply at_most_refl.
  - destruct (valid_binary_canonical Vy) as [C2 _].
    destruct (canonical_bounds C2).
    cbn [at_most] in Hy. cbn [SFsub cond_Zopp].
    set (ez := Z.min e1 e2).
    set (a1 := fst (shl_align m1 e1 ez)).
    set (a2 := fst (shl_align m2 e2 ez)).
    assert (S1 : scaled (Zpos a1) ez = scaled (Zpos m1) e1)
      by (apply aligned_scaled; lia).
    assert (S2 : scaled (Zpos a2) ez = scaled (Zpos m2) e2)
      by (apply aligned_scaled; lia).
    assert (HD : 0 <= Zpos a1 - Zpos a2).
    { assert (Zpos a2 <= Zpos a1); [| lia].
      apply scaled_le_inv with (e := ez); lia. }
    destruct (Zpos a1 - Zpos a2) as [| d | d] eqn:Ed; [exact I | | lia].
    cbn [binary_normalize].
    apply binary_round_le; [exact C1 | exact B1 | lia |].
    rewrite <- Ed, scaled_sub, S1, S2.
    pose proof (@scaled_pos (Zpos m2) e2). lia.
Qed.

(** *** Division of positive numbers *)

(** The quotient [SFdiv_core_binary] hands to [binary_round_aux]: it is the
    integer quotient of the shifted mantissas, it has digits enough, and its
    exponent stays in range. *)
Lemma SFdiv_core_binary_spec m1 e1 m2 e2 :
  -1074 <= e1 <= 971 -> -1074 <= e2 <= 971 ->
  exists q e' l,
    SFdiv_core_binary prec emax (Zpos m1) e1 (Zpos m2) e2 = (q, e', l) /\
    0 <= q /\
    -2200 <= e' <= e1 - e2 /\
    e' <= fexp64 (Zdigits2 q + e') /\
    q * Zpos m2 <= Zpos m1 * 2 ^ (e1 - e2 - e').
Proof.
  intros B1 B2. unfold SFdiv_core_binary. rewrite fexp_fexp64.
  set (d1 := Zdigits2 (Zpos m1)). set (d2 := Zdigits2 (Zpos m2)).
  set (e' := Z.min (fexp64 (d1 + e1 - (d2 + e2))) (e1 - e2)).
  set (sh := e1 - e2 - e').
  assert (Hsh : 0 <= sh) by (unfold sh, e'; lia).
  set (m' := match sh with
             | 0 => Zpos m1
             | Zpos _ => Z.shiftl (Zpos m1) sh
             | Zneg _ => 0
             end).
  assert (Hm' : m' = Zpos m1 * 2 ^ sh).
  { unfold m'. destruct sh as [| p | p] eqn:Es.
    - rewrite Z.pow_0_r. lia.
    - apply Z.shiftl_mul_pow2. lia.
    - lia. }
  pose proof (Z_div_mod m' (Zpos m2) ltac:(lia)) as Hdm.
  destruct (Z.div_eucl m' (Zpos m2)) as [q r]. destruct Hdm as [Hq Hr].
  exists q, e', (new_location (Zpos m2) r).
  split; [reflexivity |].
  pose proof (pow2_pos Hsh) as Hp.
  assert (Hq0 : 0 <= q) by nia.
  split; [exact Hq0 |].
  pose proof (fexp64_ge (d1 + e1 - (d2 + e2))) as Hf.
  split; [unfold e'; lia |].
  assert (Hqm : q * Zpos m2 <= Zpos m1 * 2 ^ sh) by nia.
  split; [| exact Hqm].
  (* the quotient has at least [d1 + sh - d2] digits *)
  assert (Hd : d1 + sh - d2 <= Zdigits2 q).
  { pose proof (Zdigits2_nonneg q).
    destruct (Z_le_gt_dec (d1 + sh - d2) 0) as [Hle | Hgt]; [lia |].
    assert (d1 + sh - d2 - 1 < Zdigits2 q); [| lia].
    apply Zdigits2_gt; [lia |].
    pose proof (digits2_pos_bounds m1) as [Hlo1 _].
    pose proof (digits2_pos_bounds m2) as [_ Hhi2].
    fold (Zdigits2 (Zpos m1)) in Hlo1. fold d1 in Hlo1.
    fold (Zdigits2 (Zpos m2)) in Hhi2. fold d2 in Hhi2.
    assert (Hd2 : 0 < d2) by (unfold d2; simpl; lia).
    assert (Hd1 : 0 < d1) by (unfold d1; simpl; lia).
    (* 2^(d1+sh-d2-1) * m2 < 2^(d1-1+sh) <= m' < (q+1) * m2 *)
    assert (H1 : 2 ^ (d1 + sh - d2 - 1) * 2 ^ d2 = 2 ^ (d1 - 1) * 2 ^ sh).
    { rewrite <- !Z.pow_add_r by lia. f_equal. lia. }
    pose proof (pow2_pos (k := d1 + sh - d2 - 1) ltac:(lia)) as Hp1.
    assert (H2 : 2 ^ (d1 + sh - d2 - 1) * Zpos m2 < m') by nia.
    assert (H3 : 2 ^ (d1 + sh - d2 - 1) < q + 1) by nia.
    lia. }
  apply Z.le_trans with (fexp64 (d1 + e1 - (d2 + e2))); [unfold e'; lia |].
  apply fexp64_mono. unfold sh in Hd. lia.
Qed.

Lemma SFdiv_nonnegative x m2 e2 :
  valid_binary x = true ->
  valid_binary (S754_finite false m2 e2) = true ->
  nonnegative x ->
  nonnegative (SFdiv prec emax x (S754_finite false m2 e2)).
Proof.
  intros Vx Vy Hx.
  destruct (valid_binary_canonical Vy) as [C2 B2].
  destruct (canonical_bounds C2).
  destruct x as [[|] | [|] | | [|] m1 e1]; try contradiction; try exact I.
  destruct (valid_binary_canonical Vx) as [C1 B1].
  destruct (canonical_bounds C1).
  cbn [SFdiv xorb].
  destruct (@SFdiv_core_binary_spec m1 e1 m2 e2)
    as (q & e' & l & -> & Hq & He' & Hfe & _); [lia | lia |].
  now apply binary_round_aux_nonnegative.
Qed.

(** Dividing a positive number by a number above one gives at most that
    number. *)
Lemma SFdiv_le_dividend m1 e1 m2 e2 :
  valid_binary (S754_finite false m1 e1) = true ->
  valid_binary (S754_finite false m2 e2) = true ->
  scaled 1 0 < scaled (Zpos m2) e2 ->
  at_most m1 e1
    (SFdiv prec emax (S754_finite false m1 e1) (S754_finite false m2 e2)).
Proof.
  intros Vx Vy Hgt.
  destruct (valid_binary_canonical Vx) as [C1 B1].
  destruct (canonical_bounds C1).
  destruct (valid_binary_canonical Vy) as [C2 B2].
  destruct (canonical_bounds C2).
  cbn [SFdiv xorb].
  destruct (@SFdiv_core_binary_spec m1 e1 m2 e2)
    as (q & e' & l & -> & Hq & He' & Hfe & Hqm); [lia | lia |].
  apply binary_round_aux_le; try assumption; [lia |].
  destruct (Z.eq_dec q 0) as [-> | Hq'].
  { unfold scaled at 1. rewrite Z.mul_0_l. apply scaled_pos; lia. }
  unfold scaled in *. rewrite Z.mul_1_l in Hgt.
  change (0 + 2200) with 2200 in Hgt.
  set (A := 2 ^ (e' + 2200)). set (B := 2 ^ (e2 + 2200)) in *.
  set (C := 2 ^ (e1 + 2200)). set (P := 2 ^ 2200) in *.
  set (S := 2 ^ (e1 - e2 - e')) in *.
  assert (HA : 0 < A) by (apply pow2_pos; lia).
  assert (HP : 0 < P) by (apply pow2_pos; lia).
  assert (HS : S * A * B = C * P).
  { unfold S, A, B, C, P. rewrite <- !Z.pow_add_r by lia. f_equal. lia. }
  assert (K1 : q * A * (Zpos m2 * B) <= Zpos m1 * C * P).
  { replace (Zpos m1 * C * P) with (Zpos m1 * S * (A * B))
      by (transitivity (Zpos m1 * (S * A * B)); [ring | rewrite HS; ring]).
    replace (q * A * (Zpos m2 * B)) with (q * Zpos m2 * (A * B)) by ring.
    apply Z.mul_le_mono_nonneg_r; [| exact Hqm].
    assert (0 < B) by (apply pow2_pos; lia). nia. }
  assert (K2 : q * A * P < q * A * (Zpos m2 * B)).
  { apply Z.mul_lt_mono_pos_l; [nia | exact Hgt]. }
  nia.
Qed.

(** *** Primitive floats *)

Lemma Prim2SF_one : Prim2SF 1 = S754_finite false one_m one_e.
Proof. reflexivity. Qed.

Lemma Prim2SF_hundred : Prim2SF 100 = S754_finite false hundred_m hundred_e.
Proof. reflexivity. Qed.

Lemma scaled_one : scaled (Zpos one_m) one_e = scaled 1 0.
Proof. vm_compute. reflexivity. Qed.

Lemma add_nonnegative a b :
  nonnegative (Prim2SF a) -> nonnegative (Prim2SF b) ->
  nonnegative (Prim2SF (a + b)).
Proof.
  intros Ha Hb. rewrite add_spec.
  apply SFadd_nonnegative; auto using Prim2SF_valid.
Qed.

Lemma fold_add_nonnegative xs : forall acc,
  nonnegative (Prim2SF acc) ->
  Forall (fun x => nonnegative (Prim2SF x)) xs ->
  nonnegative (Prim2SF (fold_left PrimFloat.add xs acc)).
Proof.
  induction xs as [| x xs IH]; intros acc Hacc Hxs; cbn [fold_left].
  - exact Hacc.
  - inversion Hxs; subst. apply IH; [| assumption].
    now apply add_nonnegative.
Qed.

(** The length of a list, as a float: a positive finite number. *)
Lemma float_of_nat_positive n :
  (1 <= Z.of_nat n < 2 ^ 63) ->
  exists m e, Prim2SF (Py.float_of_nat n) = S754_finite false m e.
Proof.
  intros Hn. unfold Py.float_of_nat. rewrite of_uint63_spec.
  rewrite Uint63.of_Z_spec.
  rewrite Z.mod_small by (change Uint63.wB with (2 ^ 63); lia).
  destruct (Z.of_nat n) as [| p | p] eqn:Ep; try lia.
  cbn [binary_normalize].
  assert (Hc1 : canonical one_m one_e) by reflexivity.
  assert (Hc2 : canonical one_m 11) by reflexivity.
  assert (Hge : at_least one_m one_e (binary_round prec emax false p 0)).
  { apply binary_round_ge; [exact Hc1 | lia |].
    rewrite scaled_one. apply scaled_le; lia. }
  assert (Hle : at_most one_m 11 (binary_round prec emax false p 0)).
  { apply binary_round_le; [exact Hc2 | lia | lia |].
    replace 11 with (-52 + 63) by lia. rewrite <- scaled_shift by lia.
    change (scaled (Zpos one_m * 2 ^ 63) (-52)) with (scaled (2 ^ 63) 0).
    unfold scaled. apply Z.mul_lt_mono_pos_r; [apply pow2_pos; lia | lia]. }
  destruct (binary_round prec emax false p 0) as [[|] | [|] | | [|] m e];
    try contradiction.
  now exists m, e.
Qed.

Lemma div_nonnegative a b m e :
  nonnegative (Prim2SF a) ->
  Prim2SF b = S754_finite false m e ->
  nonnegative (Prim2SF (a / b)).
Proof.
  intros Ha Hb. rewrite div_spec, Hb.
  apply SFdiv_nonnegative; [apply Prim2SF_valid | | exact Ha].
  rewrite <- Hb. apply Prim2SF_valid.
Qed.

Lemma one_add_at_least r :
  nonnegative (Prim2SF r) -> at_least one_m one_e (Prim2SF (1 + r)).
Proof.
  intro Hr. rewrite add_spec, Prim2SF_one.
  apply SFadd_ge_left; [reflexivity | apply Prim2SF_valid | exact Hr].
Qed.

Lemma hundred_div_at_most s :
  at_least one_m one_e (Prim2SF s) ->
  at_most hundred_m hundred_e (Prim2SF (100 / s)).
Proof.
  intro Hs. rewrite div_spec, Prim2SF_hundred.
  pose proof (Prim2SF_valid s) as Vs.
  destruct (Prim2SF s) as [[|] | [|] | | [|] m e]; try contradiction.
  - exact I.
  - cbn [at_least] in Hs.
    destruct (valid_binary_canonical Vs) as [Cs _].
    destruct (Z.eq_dec (scaled (Zpos one_m) one_e) (scaled (Zpos m) e))
      as [Heq | Hne].
    + destruct (@canonical_unique one_m one_e m e) as [<- <-];
        [reflexivity | exact Cs | exact Heq |].
      vm_compute. intro H. discriminate.
    + apply SFdiv_le_dividend; [reflexivity | exact Vs |].
      rewrite <- scaled_one. lia.
Qed.

Lemma hundred_sub_at_most t :
  at_most hundred_m hundred_e (Prim2SF t) ->
  at_most hundred_m hundred_e (Prim2SF (100 - t)).
Proof.
  intro Ht. rewrite sub_spec, Prim2SF_hundred.
  apply SFsub_le_left; [reflexivity | apply Prim2SF_valid | exact Ht].
Qed.

Lemma at_most_hundred_in_0_100 u :
  at_most hundred_m hundred_e (Prim2SF u) -> in_0_100 u = true.
Proof.
  intro Hu. unfold in_0_100. rewrite !leb_spec, Prim2SF_hundred.
  change (Prim2SF 0) with (S754_zero false).
  pose proof (Prim2SF_valid u) as Vu.
  destruct (Prim2SF u) as [[|] | [|] | | [|] m e]; try contradiction.
  - reflexivity.
  - cbn [at_most] in Hu.
    destruct (valid_binary_canonical Vu) as [Cu _].
    unfold SFleb at 2. rewrite SFcompare_scaled; [| exact Cu | reflexivity].
    destruct (Z.compare_spec (scaled (Zpos m) e)
                (scaled (Zpos hundred_m) hundred_e)); try reflexivity.
    lia.
Qed.

(** The oscillator formula on a non-negative average gain and a positive
    average loss that are not both infinite. *)
Lemma rsi_formula_in_0_100 g l :
  nonnegative (Prim2SF g) -> nonnegative (Prim2SF l) ->
  (l =? 0)%float = false ->
  ~ (g = infinity /\ l = infinity) ->
  in_0_100 (100 - 100 / (1 + g / l))%float = true.
Proof.
  intros Hg Hl Hl0 Hinf.
  apply at_most_hundred_in_0_100, hundred_sub_at_most, hundred_div_at_most,
    one_add_at_least.
  rewrite eqb_spec in Hl0. change (Prim2SF 0) with (S754_zero false) in Hl0.
  destruct (Prim2SF l) as [[|] | [|] | | [|] ml el] eqn:El;
    try contradiction; try discriminate.
  - (* the average loss is infinite *)
    rewrite div_spec, El.
    destruct (Prim2SF g) as [[|] | [|] | | [|] mg eg] eqn:Eg;
      try contradiction; try exact I.
    exfalso. apply Hinf. split; apply Prim2SF_inj; assumption.
  - eapply div_nonnegative; [exact Hg | exact El].
Qed.

(** *** Gains, losses and their means *)

Lemma gain_of_nonnegative c :
  nonnegative (Prim2SF (BinanceClient.gain_of c)).
Proof.
  unfold BinanceClient.gain_of. destruct (0 <? c)%float eqn:E; [| exact I].
  rewrite ltb_spec in E. change (Prim2SF 0) with (S754_zero false) in E.
  destruct (Prim2SF c) as [[|] | [|] | | [|] m e]; try discriminate; exact I.
Qed.

Lemma loss_of_nonnegative c :
  nonnegative (Prim2SF (BinanceClient.loss_of c)).
Proof.
  unfold BinanceClient.loss_of. destruct (c <? 0)%float eqn:E; [| exact I].
  rewrite ltb_spec in E. change (Prim2SF 0) with (S754_zero false) in E.
  rewrite opp_spec.
  destruct (Prim2SF c) as [[|] | [|] | | [|] m e]; try discriminate; exact I.
Qed.

Lemma nonnegative_not_negative f : nonnegative f -> not_negative f.
Proof. destruct f as [[|] | [|] | | [|] m e]; cbn; tauto. Qed.

Lemma add_not_negative a b :
  not_negative (Prim2SF a) -> not_negative (Prim2SF b) ->
  not_negative (Prim2SF (a + b)).
Proof.
  intros Ha Hb.
  assert (K : nonnegative (Prim2SF a) -> nonnegative (Prim2SF b) ->
              not_negative (Prim2SF (a + b))).
  { intros. now apply nonnegative_not_negative, add_nonnegative. }
  rewrite add_spec in *.
  destruct (Prim2SF a) as [[|] | [|] | | [|] m1 e1]; try contradiction;
    destruct (Prim2SF b) as [[|] | [|] | | [|] m2 e2]; try contradiction;
    try exact I; apply K; exact I.
Qed.

Lemma zero_add_nonnegative a :
  not_negative (Prim2SF a) -> nonnegative (Prim2SF (0 + a)).
Proof.
  intro Ha. rewrite add_spec. change (Prim2SF 0) with (S754_zero false).
  destruct (Prim2SF a) as [[|] | [|] | | [|] m e]; try contradiction;
    exact I.
Qed.

Lemma add_is_zero a b :
  is_zero (Prim2SF a) -> is_zero (Prim2SF b) -> is_zero (Prim2SF (a + b)).
Proof.
  rewrite add_spec.
  destruct (Prim2SF a) as [[|] | [|] | | [|] m1 e1]; try contradiction;
    destruct (Prim2SF b) as [[|] | [|] | | [|] m2 e2]; try contradiction;
    intros _ _; exact I.
Qed.

Lemma zero_add_is_zero a : is_zero (Prim2SF a) -> (0 + a = 0)%float.
Proof.
  intro Ha. apply Prim2SF_inj. rewrite add_spec.
  change (Prim2SF 0) with (S754_zero false).
  destruct (Prim2SF a) as [[|] | [|] | | [|] m e]; try contradiction;
    reflexivity.
Qed.

(** *** numpy's sums

    A property of floats that addition keeps is kept by the sums, in
    whatever order they add. *)
Section Sums.

Variable P : float -> Prop.
Hypothesis P_add : forall a b, P a -> P b -> P (a + b)%float.

Lemma fold_add_keeps xs : forall acc,
  P acc -> Forall P xs -> P (fold_left PrimFloat.add xs acc).
Proof.
  induction xs as [| x xs IH]; intros acc Hacc Hxs; cbn [fold_left].
  - exact Hacc.
  - inversion Hxs; subst. apply IH; auto.
Qed.

Lemma add_groups_keeps xs : forall r0 r1 r2 r3 r4 r5 r6 r7,
  P r0 -> P r1 -> P r2 -> P r3 -> P r4 -> P r5 -> P r6 -> P r7 ->
  Forall P xs -> P (Py.add_groups r0 r1 r2 r3 r4 r5 r6 r7 xs).
Proof.
  induction xs as [xs IH]
    using (well_founded_induction
             (well_founded_ltof _ (@List.length float))).
  intros r0 r1 r2 r3 r4 r5 r6 r7 H0 H1 H2 H3 H4 H5 H6 H7 Hxs.
  assert (Hshort : P (fold_left PrimFloat.add xs
                        (r0 + r1 + (r2 + r3) + (r4 + r5 + (r6 + r7)))%float)).
  { apply fold_add_keeps; auto. }
  destruct xs as [| x0 [| x1 [| x2 [| x3 [| x4 [| x5 [| x6 [| x7 rest]]]]]]]];
    try exact Hshort.
  cbn [Py.add_groups].
  repeat match goal with
         | H : Forall P (_ :: _) |- _ => inversion H; clear H; subst
         end.
  apply IH; auto. unfold ltof. cbn [List.length]. lia.
Qed.

Lemma block_sum_keeps xs :
  P neg_zero -> Forall P xs -> P (Py.block_sum xs).
Proof.
  intros Hz Hxs.
  assert (Hshort : P (fold_left PrimFloat.add xs neg_zero)).
  { apply fold_add_keeps; auto. }
  unfold Py.block_sum.
  destruct xs as [| x0 [| x1 [| x2 [| x3 [| x4 [| x5 [| x6 [| x7 rest]]]]]]]];
    try exact Hshort.
  repeat match goal with
         | H : Forall P (_ :: _) |- _ => inversion H; clear H; subst
         end.
  apply add_groups_keeps; auto.
Qed.

Lemma Forall_firstn_keeps n (xs : list float) :
  Forall P xs -> Forall P (firstn n xs).
Proof.
  intro H. revert n. induction H as [| x xs Hx _ IH]; intros [| n];
    cbn [firstn]; auto.
Qed.

Lemma Forall_skipn_keeps n (xs : list float) :
  Forall P xs -> Forall P (skipn n xs).
Proof.
  intro H. revert n. induction H as [| x xs Hx Hxs IH]; intros [| n];
    cbn [skipn]; auto.
Qed.

Lemma pairwise_sum_keeps depth : forall xs,
  P neg_zero -> Forall P xs -> P (Py.pairwise_sum depth xs).
Proof.
  induction depth as [| d IH]; intros xs Hz Hxs; cbn [Py.pairwise_sum].
  - now apply block_sum_keeps.
  - destruct (128 <? List.length xs)%nat.
    + apply P_add; apply IH;
        auto using Forall_firstn_keeps, Forall_skipn_keeps.
    + now apply block_sum_keeps.
Qed.

End Sums.

(** The split of a long list gives two shorter ones, so a depth of the
    length of the list is never used up: any depth from there on gives the
    same sum. *)
Lemma pairwise_sum_depth d : forall d' xs,
  (List.length xs <= d)%nat -> (List.length xs <= d')%nat ->
  Py.pairwise_sum d xs = Py.pairwise_sum d' xs.
Proof.
  induction d as [| d IH]; intros d' xs Hd Hd'.
  - destruct xs; [| cbn in Hd; lia]. destruct d'; reflexivity.
  - cbn [Py.pairwise_sum].
    destruct (128 <? List.length xs)%nat eqn:E.
    + apply Nat.ltb_lt in E. destruct d' as [| d']; [lia |].
      cbn [Py.pairwise_sum]. apply Nat.ltb_lt in E as E'. rewrite E'.
      set (n := List.length xs) in *.
      set (n2 := (n / 2 - (n / 2) mod 8)%nat).
      assert (Hn2 : (1 <= n2 < n)%nat).
      { unfold n2. pose proof (Nat.mod_upper_bound (n / 2) 8).
        pose proof (Nat.div_mod_eq n 2).
        pose proof (Nat.mod_upper_bound n 2). lia. }
      f_equal; apply IH; rewrite ?length_firstn, ?length_skipn; fold n; lia.
    + destruct d' as [| d']; [reflexivity |]. cbn [Py.pairwise_sum].
      now rewrite E.
Qed.

Lemma np_mean_nonnegative xs :
  1 <= Z.of_nat (List.length xs) < 2 ^ 63 ->
  Forall (fun x => nonnegative (Prim2SF x)) xs ->
  nonnegative (Prim2SF (Py.np_mean xs)).
Proof.
  intros Hn Hxs. unfold Py.np_mean, Py.np_sum.
  destruct (float_of_nat_positive _ Hn) as (m & e & Hf).
  eapply div_nonnegative; [| exact Hf].
  apply zero_add_nonnegative.
  apply (@pairwise_sum_keeps (fun x => not_negative (Prim2SF x))).
  - exact add_not_negative.
  - exact I.
  - eapply Forall_impl; [| exact Hxs].
    intros a. apply nonnegative_not_negative.
Qed.

(** numpy's sum of zeros is [+0], and so is their mean. *)
Lemma np_mean_zeros_eq n :
  1 <= Z.of_nat n < 2 ^ 63 -> Py.np_mean (repeat 0%float n) = 0%float.
Proof.
  intro Hn. unfold Py.np_mean, Py.np_sum. rewrite repeat_length.
  rewrite zero_add_is_zero.
  - destruct (float_of_nat_positive _ Hn) as (m & e & Hf).
    apply Prim2SF_inj. rewrite div_spec, Hf. reflexivity.
  - apply (@pairwise_sum_keeps (fun x => is_zero (Prim2SF x))).
    + exact add_is_zero.
    + exact I.
    + apply Forall_forall. intros x Hx. apply repeat_spec in Hx.
      subst x. exact I.
Qed.

(** The mean of zeros is zero. *)
Lemma np_mean_zeros n :
  1 <= Z.of_nat n < 2 ^ 63 ->
  (Py.np_mean (repeat 0%float n) =? 0)%float = true.
Proof. intro Hn. now rewrite (np_mean_zeros_eq _ Hn). Qed.

Lemma losses_of_gains changes :
  Forall (fun c => (c <? 0)%float = false) changes ->
  map BinanceClient.loss_of changes = repeat 0%float (List.length changes).
Proof.
  induction 1 as [| c cs Hc _ IH]; [reflexivity |].
  cbn [map List.length repeat]. unfold BinanceClient.loss_of at 1.
  now rewrite Hc, IH.
Qed.

Lemma changes_of_length closes :
  List.length (BinanceClient.changes_of closes) = pred (List.length closes).
Proof.
  induction closes as [| a [| b rest] IH]; try reflexivity.
  change (BinanceClient.changes_of (a :: b :: rest))
    with ((b - a)%float :: BinanceClient.changes_of (b :: rest)).
  cbn [List.length] in *. now rewrite IH.
Qed.

End Binary64Facts.

(** ** The oscillator *)

Section Oscillator.

Import Binary64 Binary64Facts.

Variable env : Env.

Lemma calculate_rsi_returned symbol period s raw klines :
  client_get_klines env (clock s) = Returned raw ->
  BinanceClient.format_klines raw = Ok klines ->
  klines <> [] ->
  fst (BinanceClient.calculate_rsi env symbol period s)
    = Ok (BinanceClient.rsi_of_klines klines).
Proof.
  intros Hk Hf Hne. unfold BinanceClient.calculate_rsi.
  rewrite (try_except_bind_Ok
             (get_klines_returned env symbol "1h" (period + 1) s Hk Hf)).
  destruct klines; [contradiction | reflexivity].
Qed.

(** C6, as the code has it.  On a series of at least two candles
    [calculate_rsi] returns the oscillator of the series.  The oscillator is
    exactly 100 when no close-to-close delta is negative.  It lies in
    [0,100] unless the average gain and the average loss have both
    overflowed to infinity; then it is NaN. *)
Theorem oscillator_range symbol period s raw klines :
  client_get_klines env (clock s) = Returned raw ->
  BinanceClient.format_klines raw = Ok klines ->
  (2 <= List.length klines)%nat ->
  (Z.of_nat (List.length klines) <= 2 ^ 63)%Z ->
  let changes := BinanceClient.changes_of (map close_price klines) in
  let avg_gain := Py.np_mean (map BinanceClient.gain_of changes) in
  let avg_loss := Py.np_mean (map BinanceClient.loss_of changes) in
  exists rsi,
    fst (BinanceClient.calculate_rsi env symbol period s) = Ok rsi /\
    (Forall (fun change => (change <? 0)%float = false) changes ->
     rsi = 100%float) /\
    (~ (avg_gain = infinity /\ avg_loss = infinity) ->
     in_0_100 rsi = true) /\
    (avg_gain = infinity /\ avg_loss = infinity ->
     PrimFloat.is_nan rsi = true).
Proof.
  intros Hk Hf Hlen Hmax changes avg_gain avg_loss.
  exists (BinanceClient.rsi_of_klines klines).
  split.
  { apply (calculate_rsi_returned symbol period s Hk Hf).
    intros ->. cbn [List.length] in Hlen. lia. }
  assert (Hn : (1 <= Z.of_nat (List.length changes) < 2 ^ 63)%Z).
  { unfold changes. rewrite changes_of_length, length_map. lia. }
  unfold BinanceClient.rsi_of_klines.
  fold changes. fold avg_gain. fold avg_loss.
  repeat split.
  - (* no negative delta *)
    intro Hall. unfold avg_loss.
    rewrite (losses_of_gains Hall), (@np_mean_zeros _ Hn). reflexivity.
  - (* not both averages infinite *)
    intro Hinf. destruct (avg_loss =? 0)%float eqn:E0; [reflexivity |].
    apply rsi_formula_in_0_100; [| | exact E0 | exact Hinf].
    + apply np_mean_nonnegative; [now rewrite length_map |].
      apply Forall_map, Forall_forall. intros c _.
      apply gain_of_nonnegative.
    + apply np_mean_nonnegative; [now rewrite length_map |].
      apply Forall_map, Forall_forall. intros c _.
      apply loss_of_nonnegative.
  - (* both averages infinite *)
    intros [-> ->]. reflexivity.
Qed.

End Oscillator.

(** ** The theorems at work on concrete worlds *)

(** C1, at two failing inputs.  With 24 candles at 100 and a price of 94, the
    candle query of [calculate_rsi] raises an API exception: the oscillator
    comes back as 0.0 and the decision is true.  With the candles answered and
    the price query raising an API exception, the price comes back as 0.0 and
    the decision is true as well.  Both failures are in the trace. *)
Theorem decision_true_on_failed_fetch :
  (fst (AXSStakingBot.check_price_conditions Example.rsi_fetch_down
          Example.fresh) = Ok true /\
   In (EvLog ERROR (MsgKlinesError (BinanceAPIException "down")))
      (trace (snd (AXSStakingBot.check_price_conditions
                     Example.rsi_fetch_down Example.fresh)))) /\
  (fst (AXSStakingBot.check_price_conditions Example.price_fetch_down
          Example.fresh) = Ok true /\
   In (EvLog ERROR (MsgCurrentPriceError (BinanceAPIException "down")))
      (trace (snd (AXSStakingBot.check_price_conditions
                     Example.price_fetch_down Example.fresh)))).
Proof.
  split; split.
  - vm_compute. reflexivity.
  - vm_compute. tauto.
  - vm_compute. reflexivity.
  - vm_compute. tauto.
Qed.

(** The order in which [np.mean] adds shows in the oscillator.  On the
    tipping closes the gains, added in index order, stay finite; numpy's
    order takes both means to infinity, and the oscillator is NaN. *)
Example oscillator_follows_numpy_order :
  let gains :=
    map BinanceClient.gain_of (BinanceClient.changes_of Worlds.tipping) in
  PrimFloat.is_infinity (fold_left PrimFloat.add gains 0%float) = false /\
  Py.np_mean gains = infinity /\
  PrimFloat.is_nan
    (BinanceClient.rsi_of_klines (map Example.formatted Worlds.tipping))
    = true.
Proof. vm_compute. repeat split. Qed.

(** On the calm world a run of the pipeline goes through its three stages. *)
Example pipeline_runs_all_stages :
  let s' := snd (AXSStakingBot.pipeline Example.calm Example.float_of_Decimal
                   Example.quantize (DFinite 50) Example.fresh) in
  existsb is_withdraw_call (events_since Example.fresh s') = true /\
  existsb is_stake_call (events_since Example.fresh s') = true.
Proof. vm_compute. split; reflexivity. Qed.

(** On the calm world [run] starts the controller and, cut off after two
    passes, is still running; once [stop] has been called the loop is left
    at once. *)
Example run_keeps_running :
  fst (AXSStakingBot.run Example.calm Example.float_of_Decimal
         Example.quantize 2 Example.stopped) = Ok LoopStillRunning /\
  AXSStakingBot.while_running Example.calm Example.float_of_Decimal
    Example.quantize 2 Example.stopped = (Ok LoopExited, Example.stopped).
Proof. vm_compute. split; reflexivity. Qed.

(** C3 on the oversold world: the snapshot is fetched, and the decision is
    true with both tests true. *)
Lemma decision_iff_both_witness :
  exists rsi,
    fst (BinanceClient.calculate_rsi Example.oversold "AXSUSDT" 14
           (after_call
              (after_call Example.fresh (GetKlines "AXSUSDT" "1h" 24))
              (GetSymbolTicker "AXSUSDT"))) = Ok rsi /\
    fst (AXSStakingBot.check_price_conditions Example.oversold Example.fresh)
      = Ok true /\
    (94 <? Py.sum (repeat 100 24) / Py.float_of_nat 24 * Py.f0_95)%float
      = true /\
    (rsi <? 30)%float = true.
Proof.
  destruct (@decision_iff_both Example.oversold Example.fresh
              (repeat (Example.candle 100) 24)
              (repeat (Example.formatted 100) 24) 94%float
              eq_refl eq_refl
              (fun H => @eq_ind _ (@nil kline) (fun l => match l with
                                                 | [] => True
                                                 | _ :: _ => False
                                                 end) I _ (eq_sym H))
              eq_refl)
    as (rsi & Hr & Hd & Hiff).
  exists rsi. split; [exact Hr |].
  assert (Ht : fst (AXSStakingBot.check_price_conditions Example.oversold
                      Example.fresh) = Ok true)
    by (vm_compute; reflexivity).
  split; [exact Ht |]. apply Hiff. exact Ht.
Defined.

(** C5 at a failing input: the world whose order comes back with the status
    EXPIRED.  A notifier is configured, the buy stage returns nothing, and
    nothing at all has been logged or notified.  On the world whose order
    request fails with a timeout the same stage returns nothing too, and has
    logged and notified the failed buy. *)
Lemma execute_buy_unfilled_not_reported :
  (telegram_enabled (config Example.order_expired) = true /\
   fst (AXSStakingBot.execute_buy Example.order_expired
          Example.float_of_Decimal Example.quantize (DFinite 50)
          Example.fresh) = Ok None /\
   existsb Example.is_report
     (trace (snd (AXSStakingBot.execute_buy Example.order_expired
                    Example.float_of_Decimal Example.quantize (DFinite 50)
                    Example.fresh))) = false) /\
  (fst (AXSStakingBot.execute_buy Worlds.order_fails
          Example.float_of_Decimal Example.quantize (DFinite 50)
          Example.fresh) = Ok None /\
   In (EvLog ERROR (MsgBuyError (ExternalError "timeout")))
      (trace (snd (AXSStakingBot.execute_buy Worlds.order_fails
                     Example.float_of_Decimal Example.quantize (DFinite 50)
                     Example.fresh))) /\
   In (EvNotify (MsgBuyFailed (ExternalError "timeout")))
      (trace (snd (AXSStakingBot.execute_buy Worlds.order_fails
                     Example.float_of_Decimal Example.quantize (DFinite 50)
                     Example.fresh)))).
Proof.
  split; [vm_compute; repeat split |].
  split; [vm_compute; reflexivity |].
  split; vm_compute; tauto.
Qed.

(** C8 on a stopped controller. *)
Lemma stop_idempotent_witness :
  running Example.stopped = false /\
  running (snd (AXSStakingBot.stop Example.calm Example.stopped))
    = running Example.stopped /\
  running (snd ((AXSStakingBot.stop Example.calm ;;
                 AXSStakingBot.stop Example.calm) Example.stopped))
    = running (snd (AXSStakingBot.stop Example.calm Example.stopped)).
Proof.
  split; [reflexivity |].
  apply (@stop_idempotent Example.calm Example.stopped eq_refl).
Defined.

(** C10 on the world whose balance query fails, with 50 USDT configured. *)
Lemma balance_failure_skips_trading_witness :
  fst (BinanceClient.get_balance Example.balance_down "USDT" Example.fresh)
    = Ok Decimal_zero /\
  Forall outside_evaluator_and_pipeline
    (events_since Example.fresh
       (snd (AXSStakingBot.iteration Example.balance_down
               Example.float_of_Decimal Example.quantize Example.fresh))).
Proof.
  apply (@balance_failure_skips_trading Example.balance_down
           Example.float_of_Decimal Example.quantize Example.fresh
           "down" (DFinite 50)); reflexivity.
Defined.

(** C6, as the claim has it, fails on five candles that swing between 0 and
    1.7e308: both sums overflow, and the oscillator is NaN, not a number of
    [0,100]. *)
Lemma oscillator_nan_on_overflow :
  (2 <= List.length (map Example.formatted Example.swinging))%nat /\
  exists rsi,
    fst (BinanceClient.calculate_rsi Example.overflowing "AXSUSDT" 14
           Example.fresh) = Ok rsi /\
    PrimFloat.is_nan rsi = true /\
    Binary64.in_0_100 rsi = false.
Proof.
  split; [cbn; lia |].
  exists (BinanceClient.rsi_of_klines
            (map Example.formatted Example.swinging)).
  vm_compute. repeat split.
Qed.

(** C6 on the falling closes of the oversold world: fourteen losses of 1, no
    gain, and an oscillator of 0. *)
Lemma oscillator_range_witness :
  exists rsi,
    fst (BinanceClient.calculate_rsi Example.oversold "AXSUSDT" 14
           (after_call
              (after_call Example.fresh (GetKlines "AXSUSDT" "1h" 24))
              (GetSymbolTicker "AXSUSDT"))) = Ok rsi /\
    Binary64.in_0_100 rsi = true.
Proof.
  destruct (@oscillator_range Example.oversold "AXSUSDT" 14
              (after_call
                 (after_call Example.fresh (GetKlines "AXSUSDT" "1h" 24))
                 (GetSymbolTicker "AXSUSDT"))
              (map Example.candle Example.falling)
              (map Example.formatted Example.falling)
              eq_refl eq_refl)
    as (rsi & Hr & _ & Hin & _).
  - cbn. lia.
  - cbn. lia.
  - exists rsi. split; [exact Hr |]. apply Hin.
    intros [H _]. vm_compute in H. discriminate.
Defined.

(** ** Further properties of the stages *)

Section StageFacts.

Variable env : Env.
Variable float_of_Decimal : Decimal -> float.
Variable quantize : float -> Decimal -> option float.

Local Abbreviation get_klines := (BinanceClient.get_klines env).
Local Abbreviation get_current_price := (BinanceClient.get_current_price env).
Local Abbreviation place_market_buy :=
  (BinanceClient.place_market_buy env float_of_Decimal quantize).
Local Abbreviation withdraw_to_ronin :=
  (BinanceClient.withdraw_to_ronin env float_of_Decimal).
Local Abbreviation notification := (notification env).
Local Abbreviation asyncio_sleep := (AXSStakingBot.asyncio_sleep env).
Local Abbreviation execute_buy :=
  (AXSStakingBot.execute_buy env float_of_Decimal quantize).
Local Abbreviation transfer_to_ronin :=
  (AXSStakingBot.transfer_to_ronin env float_of_Decimal).
Local Abbreviation stake_axs := (AXSStakingBot.stake_axs env).
Local Abbreviation pipeline :=
  (AXSStakingBot.pipeline env float_of_Decimal quantize).
Local Abbreviation check_price_conditions :=
  (AXSStakingBot.check_price_conditions env).
Local Abbreviation get_balance := (BinanceClient.get_balance env).
Local Abbreviation calculate_rsi := (BinanceClient.calculate_rsi env).
Local Abbreviation poll := (AXSStakingBot.poll env float_of_Decimal quantize).
Local Abbreviation iteration :=
  (AXSStakingBot.iteration env float_of_Decimal quantize).
Local Abbreviation while_running :=
  (AXSStakingBot.while_running env float_of_Decimal quantize).
Local Abbreviation run := (AXSStakingBot.run env float_of_Decimal quantize).

Lemma format_kline_converts k :
  converts k = true ->
  exists fk, BinanceClient.format_kline k = Ok fk /\ formats k fk.
Proof.
  unfold converts, BinanceClient.format_kline, formats.
  destruct k as [t0 [o |] [h |] [l |] [c |] [v |] t6]; cbn;
    try discriminate.
  intros _. eexists. split; [reflexivity |]. cbn. repeat split.
Qed.

Lemma format_kline_fails k :
  converts k = false -> BinanceClient.format_kline k = Raise ValueError.
Proof.
  unfold converts, BinanceClient.format_kline.
  destruct k as [t0 [o |] [h |] [l |] [c |] [v |] t6]; cbn;
    try discriminate; reflexivity.
Qed.

Lemma format_klines_converts raw :
  forallb converts raw = true ->
  exists fks,
    BinanceClient.format_klines raw = Ok fks /\ Forall2 formats raw fks.
Proof.
  induction raw as [| k rest IH]; cbn [forallb BinanceClient.format_klines].
  - intros _. exists []. split; [reflexivity | constructor].
  - intro H. apply andb_true_iff in H as [Hk Hrest].
    destruct (format_kline_converts k Hk) as (fk & -> & Hfk).
    destruct (IH Hrest) as (fks & -> & Hfks).
    exists (fk :: fks). split; [reflexivity | now constructor].
Qed.

Lemma format_klines_fails raw :
  forallb converts raw = false ->
  BinanceClient.format_klines raw = Raise ValueError.
Proof.
  induction raw as [| k rest IH]; cbn [forallb BinanceClient.format_klines].
  - discriminate.
  - destruct (converts k) eqn:Hk; cbn [andb].
    + intro Hrest. rewrite (IH Hrest).
      destruct (format_kline_converts k Hk) as (fk & -> & _). reflexivity.
    + intros _. now rewrite (format_kline_fails k Hk).
Qed.

(** X1. When the exchange answers a candle query with rows whose numeric
    fields all convert, [get_klines] returns one entry per row, in the order
    of the rows, each with the two times of its row and its five numbers
    converted; it has made the one query and logged nothing. *)
Theorem get_klines_formats_rows symbol interval limit s raw :
  client_get_klines env (clock s) = Returned raw ->
  forallb converts raw = true ->
  exists fks,
    get_klines symbol interval limit s =
      (Ok fks, after_call s (GetKlines symbol interval limit)) /\
    Forall2 formats raw fks.
Proof.
  intros Hc Hraw.
  destruct (format_klines_converts raw Hraw) as (fks & Hf & H2).
  exists fks. split; [| exact H2].
  now apply get_klines_returned with (raw := raw).
Qed.

Lemma get_klines_failure_cases symbol interval limit s :
  (forall msg,
     client_get_klines env (clock s) = ApiError msg ->
     get_klines symbol interval limit s =
       (Ok [],
        add_events (after_call s (GetKlines symbol interval limit))
          [EvLog ERROR (MsgKlinesError (BinanceAPIException msg))])) /\
  (forall msg,
     client_get_klines env (clock s) = Failure msg ->
     get_klines symbol interval limit s =
       (Raise (ExternalError msg),
        after_call s (GetKlines symbol interval limit))) /\
  (forall raw,
     client_get_klines env (clock s) = Returned raw ->
     forallb converts raw = false ->
     get_klines symbol interval limit s =
       (Raise ValueError, after_call s (GetKlines symbol interval limit))).
Proof.
  unfold BinanceClient.get_klines, try_except, bind.
  repeat split.
  - intros msg H. rewrite call_eq, H. reflexivity.
  - intros msg H. rewrite call_eq, H. reflexivity.
  - intros raw H Hraw. rewrite call_eq, H. cbn [result_of_client].
    unfold lift. rewrite (format_klines_fails raw Hraw). reflexivity.
Qed.

(** X2. What [get_klines] does when the candles do not arrive.  An API
    exception of the query is caught: it is logged and the result is the
    empty list.  Any other failure of the query escapes, and so does the
    [ValueError] of a numeric field that does not convert; neither is logged
    here. *)
Theorem get_klines_failures symbol interval limit s :
  (forall msg,
     client_get_klines env (clock s) = ApiError msg ->
     get_klines symbol interval limit s =
       (Ok [],
        add_events (after_call s (GetKlines symbol interval limit))
          [EvLog ERROR (MsgKlinesError (BinanceAPIException msg))])) /\
  (forall msg,
     client_get_klines env (clock s) = Failure msg ->
     get_klines symbol interval limit s =
       (Raise (ExternalError msg),
        after_call s (GetKlines symbol interval limit))) /\
  (forall raw,
     client_get_klines env (clock s) = Returned raw ->
     forallb converts raw = false ->
     get_klines symbol interval limit s =
       (Raise ValueError, after_call s (GetKlines symbol interval limit))).
Proof.
  unfold BinanceClient.get_klines, try_except, bind.
  repeat split.
  - intros msg H. rewrite call_eq, H. reflexivity.
  - intros msg H. rewrite call_eq, H. reflexivity.
  - intros raw H Hraw. rewrite call_eq, H. cbn [result_of_client].
    unfold lift. rewrite (format_klines_fails raw Hraw). reflexivity.
Qed.

Lemma get_current_price_appends symbol :
  respects (appends (fun ev => is_order_call ev = false))
    (get_current_price symbol).
Proof. unfold_program. appends_tac; reflexivity. Qed.

Lemma appends_add_events (P : event -> Prop) s evs :
  Forall P evs -> appends P s (add_events s evs).
Proof. intro H. exists evs. split; [reflexivity | exact H]. Qed.

Lemma appends_trace (P : event -> Prop) s s' evs :
  trace s' = trace s ++ evs -> Forall P evs -> appends P s s'.
Proof. intros E F. exists evs. now split. Qed.

(** Closes [appends P s s'] when [s'] is [s] with events spelled out. *)
Ltac appends_concrete :=
  eapply appends_trace;
  [ cbn; rewrite <- ?app_assoc; reflexivity
  | cbn [app]; repeat (apply Forall_cons; [try exact I |]);
    try apply Forall_nil ].

Lemma appends_after_call (P : event -> Prop) s c :
  P (EvCall c) -> appends P s (after_call s c).
Proof. intro H. exists [EvCall c]. split; [reflexivity | now constructor]. Qed.

(** X7. Once [place_market_buy] has its quantity (a price that passed the
    zero test, a LOT_SIZE filter whose step converts, a quantity that
    rounds), the outcome is decided by what the exchange answers to the
    order: the order that comes back is returned as it is; an API exception
    is logged and gives [None]; any other failure escapes.  In each case
    the symbol information and the order were requested, in this order, after
    the price. *)
Theorem place_market_buy_outcomes symbol usdt s price s1 filters lot
    step q :
  get_current_price symbol s = (Ok price, s1) ->
  Py.truthy price = true ->
  client_get_symbol_info env (clock s1) = Returned filters ->
  find is_lot_size filters = Some lot ->
  stepSize lot = Some step ->
  quantize (float_of_Decimal usdt / price)%float step = Some q ->
  let s2 := after_call s1 (GetSymbolInfo symbol) in
  let s3 := after_call s2 (OrderMarketBuy symbol q) in
  (forall o,
     client_order_market_buy env (clock s2) = Returned o ->
     place_market_buy symbol usdt s = (Ok (Some o), s3)) /\
  (forall msg,
     client_order_market_buy env (clock s2) = ApiError msg ->
     place_market_buy symbol usdt s =
       (Ok None,
        add_events s3
          [EvLog ERROR (MsgOrderError (BinanceAPIException msg))])) /\
  (forall msg,
     client_order_market_buy env (clock s2) = Failure msg ->
     place_market_buy symbol usdt s = (Raise (ExternalError msg), s3)).
Proof.
  intros Hp Ht Hi Hf Hs Hq s2 s3.
  assert (E : forall r,
    client_order_market_buy env (clock s2) = r ->
    place_market_buy symbol usdt s =
      coroutine
        (try_except (lift (match result_of_client r with
                           | Ok o => Ok (Some o)
                           | Raise e => Raise e
                           end))
           is_BinanceAPIException
           (fun e => logger_error (MsgOrderError e) ;; ret None)) s3).
  { intros r Hr. unfold BinanceClient.place_market_buy.
    apply coroutine_ext.
    rewrite (try_except_bind_Ok Hp). rewrite Ht. cbn [negb].
    rewrite (truediv_truthy _ _ Ht), try_except_bind_lift_Ok.
    assert (Ei : call (GetSymbolInfo symbol) (client_get_symbol_info env) s1
                 = (Ok filters, s2)).
    { rewrite call_eq, Hi. reflexivity. }
    rewrite (try_except_bind_Ok Ei).
    unfold BinanceClient.next_lot_size.
    change (find (fun f => String.eqb (filterType f) "LOT_SIZE") filters)
      with (find is_lot_size filters).
    rewrite Hf, try_except_bind_lift_Ok, Hs. cbn [py_Decimal].
    rewrite try_except_bind_lift_Ok. unfold BinanceClient.py_quantize.
    rewrite Hq, try_except_bind_lift_Ok.
    unfold try_except, bind. rewrite call_eq.
    change (clock s2) with (S (clock s1)) in Hr.
    cbn [clock after_call s2]. rewrite Hr.
    destruct r; reflexivity. }
  repeat split.
  - intros o H. rewrite (E _ H). reflexivity.
  - intros msg H. rewrite (E _ H). reflexivity.
  - intros msg H. rewrite (E _ H). reflexivity.
Qed.

(** Every order request of [place_market_buy] is as [order_as_computed]
    describes. *)
Lemma place_market_buy_orders_as_computed symbol usdt s :
  Forall (order_as_computed env float_of_Decimal quantize symbol usdt s)
    (events_since s (snd (place_market_buy symbol usdt s))).
Proof.
  apply appends_events_since.
  set (P := order_as_computed env float_of_Decimal quantize symbol usdt s).
  assert (Hno : forall ev, is_order_call ev = false -> P ev).
  { intros [lvl m | m | secs | []] H; try exact I. discriminate. }
  pose proof (get_current_price_appends symbol s) as Hgcp.
  apply (appends_weaken Hno) in Hgcp.
  unfold BinanceClient.place_market_buy. rewrite coroutine_snd.
  destruct (get_current_price symbol s) as [[price | e] s1] eqn:Hp;
    cbn [snd] in Hgcp.
  2:{ unfold try_except, bind. rewrite Hp.
      destruct (is_BinanceAPIException e); cbn.
      - apply (appends_trans Hgcp). apply appends_add_events.
        repeat constructor.
      - exact Hgcp. }
  rewrite (try_except_bind_Ok Hp).
  destruct (Py.truthy price) eqn:Ht; cbn [negb]; [| exact Hgcp].
  apply (appends_trans Hgcp).
  rewrite (truediv_truthy _ _ Ht), try_except_bind_lift_Ok.
  unfold try_except, bind at 1. rewrite call_eq.
  destruct (client_get_symbol_info env (clock s1)) as [filters | msg | msg]
    eqn:Hi; cbn [result_of_client].
  2:{ appends_concrete. }
  2:{ appends_concrete. }
  unfold BinanceClient.next_lot_size.
  change (find (fun f => String.eqb (filterType f) "LOT_SIZE") filters)
    with (find is_lot_size filters).
  destruct (find is_lot_size filters) as [lot |] eqn:Hf.
  2:{ appends_concrete. }
  rewrite bind_lift_Ok.
  destruct (stepSize lot) as [step |] eqn:Hs; cbn [py_Decimal].
  2:{ appends_concrete. }
  rewrite bind_lift_Ok. unfold BinanceClient.py_quantize.
  destruct (quantize (float_of_Decimal usdt / price)%float step) as [q |]
    eqn:Hq.
  2:{ appends_concrete. }
  rewrite bind_lift_Ok. unfold bind. rewrite call_eq.
  assert (Hord : P (EvCall (OrderMarketBuy symbol q))).
  { split; [reflexivity |]. exists price, s1, filters, lot, step.
    repeat split; assumption. }
  destruct (client_order_market_buy env _) as [o | msg | msg];
    appends_concrete; exact Hord.
Qed.

(** X6. An order request that [place_market_buy symbol usdt] makes is for
    [symbol], and its quantity is the amount over the price that the call
    itself fetched, a price that passed the zero test, rounded to the step of
    the first LOT_SIZE filter of the symbol information. *)
Theorem place_market_buy_order_quantity symbol usdt s sym q :
  In (EvCall (OrderMarketBuy sym q))
     (events_since s (snd (place_market_buy symbol usdt s))) ->
  sym = symbol /\
  exists price s1 filters lot step,
    get_current_price symbol s = (Ok price, s1) /\
    Py.truthy price = true /\
    client_get_symbol_info env (clock s1) = Returned filters /\
    find is_lot_size filters = Some lot /\
    stepSize lot = Some step /\
    quantize (float_of_Decimal usdt / price)%float step = Some q.
Proof.
  intro Hin.
  pose proof (place_market_buy_orders_as_computed symbol usdt s) as H.
  rewrite Forall_forall in H. exact (H _ Hin).
Qed.

Lemma info_and_notify_eq {A} (m : message) (k : M A) s :
  (logger_info m ;; AXSStakingBot.if_telegram_send_message env m ;; k) s =
  k (add_events s (EvLog INFO m :: notification m)).
Proof.
  unfold logger_info. rewrite (bind_Ok (emit_eq _ _)).
  rewrite (bind_Ok (if_telegram_send_message_eq env _ _)).
  now rewrite add_events_app.
Qed.

Lemma transfer_to_ronin_eq amount s :
  transfer_to_ronin amount s =
  let s1 :=
    after_call s (Withdraw "AXS" (wallet_address (config env))
                           (float_of_Decimal amount) "Ronin") in
  match client_withdraw env (clock s) with
  | Returned w =>
      (Ok (Some (id w)),
       add_events s1
         (EvLog INFO (MsgTransferStarted amount)
            :: notification (MsgTransferStarted amount)))
  | ApiError msg =>
      (Ok None,
       add_events s1
         [EvLog ERROR (MsgWithdrawalError (BinanceAPIException msg))])
  | Failure msg =>
      (Ok None,
       add_events s1
         (EvLog ERROR (MsgTransferError (ExternalError msg))
            :: notification (MsgTransferFailed (ExternalError msg))))
  end.
Proof.
  cbv zeta. unfold AXSStakingBot.transfer_to_ronin.
  destruct (client_withdraw env (clock s)) as [w | msg | msg] eqn:H.
  - assert (E : withdraw_to_ronin amount (wallet_address (config env)) s
                = (Ok (Some w),
                   after_call s
                     (Withdraw "AXS" (wallet_address (config env))
                               (float_of_Decimal amount) "Ronin"))).
    { unfold BinanceClient.withdraw_to_ronin, try_except, bind.
      rewrite call_eq, H. reflexivity. }
    rewrite (try_except_bind_Ok E).
    unfold try_except. rewrite info_and_notify_eq. reflexivity.
  - assert (E : withdraw_to_ronin amount (wallet_address (config env)) s
                = (Ok None,
                   add_events
                     (after_call s
                        (Withdraw "AXS" (wallet_address (config env))
                                  (float_of_Decimal amount) "Ronin"))
                     [EvLog ERROR
                        (MsgWithdrawalError (BinanceAPIException msg))])).
    { unfold BinanceClient.withdraw_to_ronin, try_except, bind.
      rewrite call_eq, H. reflexivity. }
    rewrite (try_except_bind_Ok E). reflexivity.
  - assert (E : withdraw_to_ronin amount (wallet_address (config env)) s
                = (Raise (ExternalError msg),
                   after_call s
                     (Withdraw "AXS" (wallet_address (config env))
                               (float_of_Decimal amount) "Ronin"))).
    { unfold BinanceClient.withdraw_to_ronin, try_except, bind.
      rewrite call_eq, H. reflexivity. }
    rewrite (try_except_caught (bind_Raise E) eq_refl).
    rewrite log_and_notify_eq. reflexivity.
Qed.

Lemma stake_axs_eq amount s :
  stake_axs amount s =
  let s1 := after_call s (RoninStakeAxs amount) in
  match result_of_client (ronin_stake_axs env (clock s)) with
  | Ok (Some h) =>
      if nonempty h then
        (Ok (Some h),
         add_events s1
           (EvLog INFO (MsgStaked amount) :: notification (MsgStaked amount)))
      else (Ok None, s1)
  | Ok None => (Ok None, s1)
  | Raise e =>
      (Ok None,
       add_events s1
         (EvLog ERROR (MsgStakingError e)
            :: notification (MsgStakingFailed e)))
  end.
Proof.
  cbv zeta. unfold AXSStakingBot.stake_axs, AXSStakingBot.ronin_stake.
  assert (E : call (RoninStakeAxs amount) (ronin_stake_axs env) s
              = (result_of_client (ronin_stake_axs env (clock s)),
                 after_call s (RoninStakeAxs amount))).
  { now rewrite call_eq. }
  destruct (result_of_client (ronin_stake_axs env (clock s)))
    as [[h |] | e].
  - rewrite (try_except_bind_Ok E). destruct (nonempty h); [| reflexivity].
    unfold try_except. rewrite info_and_notify_eq. reflexivity.
  - rewrite (try_except_bind_Ok E). reflexivity.
  - rewrite (try_except_caught (bind_Raise E) eq_refl).
    rewrite log_and_notify_eq. reflexivity.
Qed.


(** X9. [stake_axs] requests one staking, of the amount it was given.  A
    non-empty transaction hash is logged, notified and returned; no hash, or
    an empty one, gives [None] without a report; whatever the chain client
    raises is logged and notified, and gives [None]. *)
Theorem stake_axs_outcomes amount s :
  let s1 := after_call s (RoninStakeAxs amount) in
  (forall h,
     ronin_stake_axs env (clock s) = Returned (Some h) ->
     nonempty h = true ->
     stake_axs amount s =
       (Ok (Some h),
        add_events s1
          (EvLog INFO (MsgStaked amount) :: notification (MsgStaked amount))))
  /\
  (forall r,
     ronin_stake_axs env (clock s) = Returned r ->
     r = None \/ r = Some EmptyString ->
     stake_axs amount s = (Ok None, s1)) /\
  (forall e,
     result_of_client (ronin_stake_axs env (clock s)) = Raise e ->
     stake_axs amount s =
       (Ok None,
        add_events s1
          (EvLog ERROR (MsgStakingError e)
             :: notification (MsgStakingFailed e)))).
Proof.
  intro s1. repeat split.
  - intros h H Hh. rewrite stake_axs_eq, H. cbn [result_of_client].
    now rewrite Hh.
  - intros r H [-> | ->]; rewrite stake_axs_eq, H; reflexivity.
  - intros e H. rewrite stake_axs_eq, H. reflexivity.
Qed.

(** X10. [execute_buy] returns an order exactly when [place_market_buy]
    returned this order and its status is FILLED; it has then logged and
    notified the purchase, with the executed quantity and the amount, and
    done nothing else. *)
Theorem execute_buy_returns_filled_order usdt s o s' :
  execute_buy usdt s = (Ok (Some o), s') <->
  exists s1,
    place_market_buy "AXSUSDT" usdt s = (Ok (Some o), s1) /\
    status o = "FILLED"%string /\
    s' = add_events s1
           (EvLog INFO (MsgBought (executedQty o) usdt)
              :: notification (MsgBought (executedQty o) usdt)).
Proof.
  unfold AXSStakingBot.execute_buy. split.
  - destruct (place_market_buy "AXSUSDT" usdt s) as [[[o' |] | e] s1] eqn:E.
    + rewrite (try_except_bind_Ok E).
      destruct (String.eqb (status o') "FILLED") eqn:Ef.
      * unfold try_except. rewrite info_and_notify_eq. unfold ret.
        intro H. inversion H. subst. exists s1.
        apply String.eqb_eq in Ef. repeat split. exact Ef.
      * discriminate.
    + rewrite (try_except_bind_Ok E). discriminate.
    + rewrite (try_except_caught (bind_Raise E) eq_refl).
      rewrite log_and_notify_eq. discriminate.
  - intros (s1 & E & Ef & ->).
    rewrite (try_except_bind_Ok E).
    apply String.eqb_eq in Ef. rewrite Ef.
    unfold try_except. rewrite info_and_notify_eq. reflexivity.
Qed.

(** The first thing [transfer_to_ronin] does is request the withdrawal, and
    the first thing [stake_axs] does is request the staking. *)
Lemma transfer_to_ronin_requests amount s :
  exists r s' tail,
    transfer_to_ronin amount s = (Ok r, s') /\
    trace s' =
      trace s ++
      EvCall (Withdraw "AXS" (wallet_address (config env))
                       (float_of_Decimal amount) "Ronin") :: tail.
Proof.
  rewrite transfer_to_ronin_eq. cbv zeta.
  destruct (client_withdraw env (clock s)) as [w | msg | msg];
    (eexists _, _, _; split; [reflexivity |]);
    cbn [trace add_events after_call]; rewrite <- app_assoc; reflexivity.
Qed.

Lemma stake_axs_requests amount s :
  exists r s' tail,
    stake_axs amount s = (Ok r, s') /\
    trace s' = trace s ++ EvCall (RoninStakeAxs amount) :: tail.
Proof.
  rewrite stake_axs_eq. cbv zeta.
  destruct (result_of_client (ronin_stake_axs env (clock s)))
    as [[h |] | e]; [destruct (nonempty h) | |];
    (eexists _, _, _; split; [reflexivity |]);
    cbn [trace add_events after_call]; rewrite <- ?app_assoc; reflexivity.
Qed.

Lemma execute_buy_grows usdt :
  respects (appends any_event) (execute_buy usdt).
Proof.
  unfold AXSStakingBot.execute_buy. unfold_program. appends_tac; exact I.
Qed.

Lemma asyncio_sleep_grows secs :
  respects (appends any_event) (asyncio_sleep secs).
Proof. unfold_program. appends_tac; exact I. Qed.

Lemma stake_axs_grows amount :
  respects (appends any_event) (stake_axs amount).
Proof.
  unfold AXSStakingBot.stake_axs. unfold_program. appends_tac; exact I.
Qed.

(** An event [ev] that entered the trace between [s] and [s'] is among the
    events since [s]. *)
Lemma existsb_events_since (f : event -> bool) s s1 s2 s' ev tail :
  appends any_event s s1 ->
  trace s2 = trace s1 ++ ev :: tail ->
  appends any_event s2 s' ->
  f ev = true ->
  existsb f (events_since s s') = true.
Proof.
  intros (l1 & E1 & _) E2 (l3 & E3 & _) Hf.
  unfold events_since. rewrite E3, E2, E1, <- !app_assoc.
  rewrite skipn_app, skipn_all, Nat.sub_diag. cbn [skipn app].
  rewrite !existsb_app. cbn [existsb]. rewrite Hf.
  now rewrite orb_true_r.
Qed.


(** X17. The pipeline raises nothing but [InvalidOperation], and only when
    the executed quantity of the filled order that the buy stage returned
    does not convert; it raises after the 10 second wait, and has requested
    no withdrawal. *)
Theorem pipeline_raises_only_on_quantity usdt s e s' :
  pipeline usdt s = (Raise e, s') ->
  e = InvalidOperation /\
  exists o s1,
    execute_buy usdt s = (Ok (Some o), s1) /\
    status o = "FILLED"%string /\
    executedQty o = None /\
    asyncio_sleep 10 s1 = (Ok tt, s') /\
    existsb is_withdraw_call (events_since s s') = false.
Proof.
  intro Hp.
  destruct (pipeline_cases env float_of_Decimal quantize usdt s)
    as [(s1 & _ & E) | (o & s1 & s2 & Eb & Es & [[Eq E] | H])].
  - rewrite E in Hp. discriminate.
  - rewrite E in Hp. inversion Hp. subst e s'. split; [reflexivity |].
    exists o, s1. repeat split; try assumption.
    + exact (execute_buy_filled _ _ _ _ _ Eb).
    + apply existsb_Forall_false. apply appends_events_since.
      pose proof (execute_buy_appends env float_of_Decimal quantize usdt s)
        as A1.
      pose proof (asyncio_sleep_appends env 10 s1) as A2.
      rewrite Eb in A1. rewrite Es in A2. cbn [snd] in A1, A2.
      eapply appends_weaken; [| eapply appends_trans; eassumption].
      intros ev [H _]. exact H.
  - destruct H as (amount & r & s3 & Eq & Et & [[_ E] | (h & _ & _ & E)]).
    + rewrite E in Hp. discriminate.
    + rewrite E in Hp.
      assert (Hn : never_raises
                     (asyncio_sleep 900 ;; stake_axs amount ;; ret tt)).
      { unfold AXSStakingBot.stake_axs. unfold_program. never_raises_tac. }
      destruct (Hn s3) as [a Ha]. rewrite Hp in Ha. discriminate.
Qed.

Local Abbreviation trading_part :=
  (before_interval env float_of_Decimal quantize).

Lemma poll_eq s :
  poll s =
  (trading_part ;;
   interval <- lift (check_interval (config env)) ;;
   asyncio_sleep interval) s.
Proof.
  unfold AXSStakingBot.poll, before_interval, bind, lift.
  destruct (get_balance "USDT" s) as [[b | e] s1]; [| reflexivity].
  destruct (usdt_amount (config env)) as [a | e]; [| reflexivity].
  destruct (Decimal_ge b a) as [[|] | e]; reflexivity.
Qed.

Lemma before_interval_grows :
  respects (appends any_event) trading_part.
Proof.
  unfold before_interval, AXSStakingBot.pipeline,
    AXSStakingBot.stake_axs, AXSStakingBot.transfer_to_ronin,
    AXSStakingBot.execute_buy, AXSStakingBot.check_price_conditions,
    BinanceClient.place_market_buy.
  unfold_program. appends_tac; exact I.
Qed.

(** Every pass ends in a wait: for the configured interval when the [try]
    block got through, for 60 seconds after the report of what it raised. *)
Lemma iteration_ends_in_sleep s :
  exists secs s1,
    iteration s = asyncio_sleep secs s1 /\
    ((poll s = asyncio_sleep secs s1 /\
      trading_part s = (Ok tt, s1) /\
      check_interval (config env) = Ok secs) \/
     (exists e s0,
        poll s = (Raise e, s0) /\
        (s0 = snd (trading_part s)) /\
        s1 = add_events s0
               (EvLog ERROR (MsgLoopError e)
                  :: notification (MsgErrorOccurred e)) /\
        secs = 60%Z)).
Proof.
  assert (Hh : forall e s0,
    poll s = (Raise e, s0) ->
    iteration s =
      asyncio_sleep 60
        (add_events s0
           (EvLog ERROR (MsgLoopError e)
              :: notification (MsgErrorOccurred e)))).
  { intros e s0 H. unfold AXSStakingBot.iteration.
    rewrite (try_except_caught H eq_refl). now rewrite log_and_notify_eq. }
  destruct (trading_part s) as [[[] | e] s0] eqn:Eb.
  - destruct (check_interval (config env)) as [i | e] eqn:Ei.
    + exists i, s0.
      assert (Ep : poll s = asyncio_sleep i s0).
      { rewrite poll_eq, (bind_Ok Eb), Ei. reflexivity. }
      split; [| left; repeat split; assumption].
      unfold AXSStakingBot.iteration, try_except. rewrite Ep.
      destruct (asyncio_sleep_never_raises env i s0) as [[] Hs].
      destruct (asyncio_sleep i s0) as [r s2]. cbn [fst] in Hs. now subst r.
    + assert (Ep : poll s = (Raise e, s0)).
      { rewrite poll_eq, (bind_Ok Eb), Ei. reflexivity. }
      eexists _, _. split; [exact (Hh _ _ Ep) |].
      right. exists e, s0. repeat split. exact Ep.
  - assert (Ep : poll s = (Raise e, s0)).
    { rewrite poll_eq. exact (bind_Raise Eb). }
    eexists _, _. split; [exact (Hh _ _ Ep) |].
    right. exists e, s0. repeat split. exact Ep.
Qed.

Lemma asyncio_sleep_loop_events secs :
  respects (appends (fun ev => is_loop_event ev = true)) (asyncio_sleep secs).
Proof. unfold_program. appends_tac; reflexivity. Qed.

(** What a pass adds to the trace after the trading part are loop events. *)
Lemma iteration_after_trading_part s :
  appends (fun ev => is_loop_event ev = true)
    (snd (trading_part s)) (snd (iteration s)).
Proof.
  destruct (iteration_ends_in_sleep s) as (secs & s1 & -> & H).
  eapply appends_trans; [| apply asyncio_sleep_loop_events].
  destruct H as [(_ & -> & _) | (e & s0 & _ & -> & -> & _)].
  - apply appends_refl.
  - apply appends_add_events. constructor; [reflexivity |].
    unfold notification.
    destruct (telegram_enabled (config env)); repeat constructor.
Qed.

Lemma get_balance_outside asset :
  respects (appends outside_evaluator_and_pipeline) (get_balance asset).
Proof. unfold_program. appends_tac; reflexivity. Qed.

Lemma loop_event_outside ev :
  is_loop_event ev = true -> outside_evaluator_and_pipeline ev.
Proof.
  destruct ev as [lvl [] | [] | secs | c]; try discriminate; reflexivity.
Qed.

Lemma loop_event_no_order ev :
  is_loop_event ev = true -> is_order_call ev = false.
Proof.
  destruct ev as [lvl m | m | secs | c]; try discriminate; reflexivity.
Qed.

(** X14. A pass whose balance query returned does not trade unless the
    balance reaches the configured amount: when the amount does not convert,
    when the comparison raises or when the balance is below the amount,
    nothing of the signal evaluator or of the pipeline shows in the trace of
    the pass. *)
Theorem no_trading_below_amount s b s1 :
  get_balance "USDT" s = (Ok b, s1) ->
  (forall a, usdt_amount (config env) = Ok a -> Decimal_ge b a <> Ok true) ->
  Forall outside_evaluator_and_pipeline (events_since s (snd (iteration s))).
Proof.
  intros Eb Hgate. apply appends_events_since.
  assert (Et : snd (trading_part s) = s1).
  { unfold before_interval. rewrite (bind_Ok Eb).
    destruct (usdt_amount (config env)) as [a | e] eqn:Ea; [| reflexivity].
    rewrite bind_lift_Ok. specialize (Hgate a eq_refl).
    destruct (Decimal_ge b a) as [[|] | e]; try reflexivity.
    now contradiction Hgate. }
  apply appends_trans with s1.
  - pose proof (get_balance_outside "USDT" s) as H. now rewrite Eb in H.
  - rewrite <- Et.
    exact (appends_weaken loop_event_outside
             (iteration_after_trading_part s)).
Qed.

Lemma existsb_events_since_before (f : event -> bool) s s1 s2 :
  appends any_event s s1 ->
  appends (fun ev => f ev = false) s1 s2 ->
  existsb f (events_since s s2) = existsb f (events_since s s1).
Proof.
  intros (l1 & E1 & _) (l2 & E2 & F2). unfold events_since.
  assert (K : forall l, skipn (List.length (trace s)) (trace s ++ l) = l).
  { intro l. now rewrite skipn_app, skipn_all, Nat.sub_diag. }
  rewrite E2, E1, <- app_assoc, !K.
  rewrite existsb_app, (existsb_Forall_false _ F2). apply orb_false_r.
Qed.

Lemma get_balance_no_order asset :
  respects (appends (fun ev => is_order_call ev = false)) (get_balance asset).
Proof. unfold_program. appends_tac; reflexivity. Qed.

Lemma check_price_conditions_no_order :
  respects (appends (fun ev => is_order_call ev = false))
    check_price_conditions.
Proof.
  unfold AXSStakingBot.check_price_conditions. unfold_program.
  appends_tac; reflexivity.
Qed.

(** X15. A pass requests an order only after its balance query returned a
    balance that reaches the configured amount and the signal evaluator then
    returned true. *)
Theorem order_requires_balance_and_signal s :
  existsb is_order_call (events_since s (snd (iteration s))) = true ->
  exists b s1 a s2,
    get_balance "USDT" s = (Ok b, s1) /\
    usdt_amount (config env) = Ok a /\
    Decimal_ge b a = Ok true /\
    check_price_conditions s1 = (Ok true, s2).
Proof.
  rewrite (@existsb_events_since_before is_order_call s
             (snd (trading_part s)) (snd (iteration s))
             (before_interval_grows s)
             (appends_weaken loop_event_no_order
                (iteration_after_trading_part s))).
  intro H.
  pose proof (get_balance_no_order "USDT" s) as Gb.
  unfold before_interval in H.
  destruct (get_balance "USDT" s) as [[b | e] s1] eqn:Eb; cbn [snd] in Gb.
  2:{ rewrite (bind_Raise Eb) in H. exfalso.
      exact (appends_no_call _ Gb H). }
  rewrite (bind_Ok Eb) in H.
  destruct (usdt_amount (config env)) as [a | e] eqn:Ea.
  2:{ exfalso. exact (appends_no_call _ Gb H). }
  rewrite bind_lift_Ok in H.
  destruct (Decimal_ge b a) as [[|] | e] eqn:Ege;
    try (exfalso; exact (appends_no_call _ Gb H)).
  rewrite bind_lift_Ok in H.
  pose proof (check_price_conditions_no_order s1) as Gc.
  destruct (check_price_conditions_never_raises env s1) as [d Hd].
  destruct (check_price_conditions s1) as [rd s2] eqn:Ec.
  cbn [fst snd] in Hd, Gc. subst rd. rewrite (bind_Ok Ec) in H.
  destruct d.
  - exists b, s1, a, s2. repeat split; first [reflexivity | assumption].
  - exfalso. exact (appends_no_call _ (appends_trans Gb Gc) H).
Qed.

(** X19. Every pass ends in a wait: for the configured interval when its
    [try] block got through, for 60 seconds when it raised. *)
Theorem iteration_ends_with_sleep s :
  exists secs s1 tail,
    iteration s = asyncio_sleep secs s1 /\
    trace (snd (iteration s)) = trace s1 ++ EvSleep secs :: tail /\
    ((exists s', poll s = (Ok tt, s')) /\
       check_interval (config env) = Ok secs \/
     (exists e s', poll s = (Raise e, s')) /\ secs = 60%Z).
Proof.
  destruct (iteration_ends_in_sleep s) as (secs & s1 & E & H).
  destruct (asyncio_sleep_trace env secs s1) as (tail & s' & Es & Et).
  exists secs, s1, tail. split; [exact E |]. split.
  { rewrite E, Es. exact Et. }
  destruct H as [(Ep & _ & Ei) | (e & s0 & Ep & _ & _ & ->)].
  - left. split; [| exact Ei]. exists s'. now rewrite Ep.
  - right. split; [| reflexivity]. now exists e, s0.
Qed.

(** X20. When another task calls [stop] during the wait that ends a pass,
    the loop is left as soon as the pass is over: the trace ends with the
    wait and the report of the stop, the run flag is false, and however many
    passes were still allowed none is made. *)
Theorem stop_during_last_sleep_ends_loop fuel s secs s1 :
  running s = true ->
  iteration s = asyncio_sleep secs s1 ->
  stop_requested env (clock s1) = true ->
  while_running (S fuel) s = (Ok LoopExited, snd (iteration s)) /\
  running (snd (iteration s)) = false /\
  trace (snd (iteration s)) =
    trace s1 ++ EvSleep secs :: EvLog INFO MsgBotStopped
      :: notification MsgBotStopped.
Proof.
  intros Hr Ei Hstop.
  assert (Es : asyncio_sleep secs s1 =
               (Ok tt,
                {| running := false; clock := S (clock s1);
                   trace := trace s1 ++ EvSleep secs
                              :: EvLog INFO MsgBotStopped
                              :: notification MsgBotStopped |})).
  { unfold AXSStakingBot.asyncio_sleep, bind, emit, tick.
    cbn [clock]. rewrite Hstop. rewrite stop_eq. cbn [running clock trace].
    now rewrite <- app_assoc. }
  rewrite (while_running_step env float_of_Decimal quantize fuel s Hr).
  rewrite Ei, Es. cbn [snd]. repeat split.
  destruct fuel; reflexivity.
Qed.

(** Splits a goal [respects same_flag m] along the structure of an [m] that
    neither waits nor sets the flag. *)
Ltac keeps_flag_tac :=
  repeat first
    [ apply respects_ret; apply same_flag_refl
    | apply respects_raise; apply same_flag_refl
    | apply respects_lift; apply same_flag_refl
    | apply respects_tick_same_flag
    | apply respects_emit_same_flag
    | apply respects_bind; [apply same_flag_trans | | intro]
    | apply respects_try_except; [apply same_flag_trans | | intro]
    | match goal with
      | |- respects _ (if ?b then _ else _) => destruct b
      | |- respects _ (match ?x with _ => _ end) => destruct x
      end ].

(** X11. The signal evaluator never raises, leaves the run flag as it was,
    and adds to the trace only log entries and queries for AXSUSDT market
    data: hourly candles (24 or 15 of them) and the price.  It notifies
    nothing, waits for nothing, and requests no order, withdrawal or
    staking. *)
Theorem check_price_conditions_only_reads s :
  (exists decision, fst (check_price_conditions s) = Ok decision) /\
  running (snd (check_price_conditions s)) = running s /\
  Forall evaluator_event (events_since s (snd (check_price_conditions s))).
Proof.
  split; [apply check_price_conditions_never_raises |].
  split.
  - assert (H : respects same_flag check_price_conditions); [| apply H].
    unfold AXSStakingBot.check_price_conditions. unfold_program.
    keeps_flag_tac.
  - apply appends_events_since.
    assert (H : respects (appends evaluator_event) check_price_conditions);
      [| apply H].
    unfold AXSStakingBot.check_price_conditions. unfold_program.
    appends_tac; cbn; auto.
Qed.

Lemma mean_nil : Py.mean [] = Raise ZeroDivisionError.
Proof. reflexivity. Qed.

(** X12. When the first candle query yields no candle (the exchange raised
    an API exception, or answered with none), the decision is false: the
    price is still queried, and if that returns, the mean of no closes
    divides by zero; the evaluator catches what was raised and logs it.  The
    oscillator is not asked for. *)
Theorem check_price_conditions_without_candles s s1 :
  get_klines "AXSUSDT" "1h" 24 s = (Ok [], s1) ->
  exists e,
    check_price_conditions s =
      (Ok false,
       add_events (snd (get_current_price "AXSUSDT" s1))
         [EvLog ERROR (MsgAnalysisError e)]) /\
    (forall price s2,
       get_current_price "AXSUSDT" s1 = (Ok price, s2) ->
       e = ZeroDivisionError).
Proof.
  intro Ek. unfold AXSStakingBot.check_price_conditions.
  rewrite (try_except_bind_Ok Ek).
  destruct (get_current_price "AXSUSDT" s1) as [[price | e] s2] eqn:Ep.
  - exists ZeroDivisionError. split; [| reflexivity].
    rewrite (try_except_bind_Ok Ep). cbn [map]. rewrite mean_nil.
    reflexivity.
  - exists e. split; [| discriminate].
    rewrite (try_except_caught (bind_Raise Ep) eq_refl). reflexivity.
Qed.

Lemma get_klines_not_met symbol interval limit :
  respects (appends (fun ev => is_conditions_met ev = false))
    (get_klines symbol interval limit).
Proof. unfold_program. appends_tac; reflexivity. Qed.

Lemma get_current_price_not_met symbol :
  respects (appends (fun ev => is_conditions_met ev = false))
    (get_current_price symbol).
Proof. unfold_program. appends_tac; reflexivity. Qed.

Lemma calculate_rsi_not_met symbol period :
  respects (appends (fun ev => is_conditions_met ev = false))
    (calculate_rsi symbol period).
Proof.
  unfold BinanceClient.calculate_rsi. unfold_program.
  appends_tac; reflexivity.
Qed.

Lemma not_met_iff (r : result bool) s s' :
  r = Ok false ->
  appends (fun ev => is_conditions_met ev = false) s s' ->
  r = Ok true <-> existsb is_conditions_met (events_since s s') = true.
Proof.
  intros -> H. apply appends_events_since, existsb_Forall_false in H.
  rewrite H. split; discriminate.
Qed.

(** X13. The decision is true exactly when the evaluator has logged that
    the buy conditions are met. *)
Theorem positive_decision_is_logged s :
  fst (check_price_conditions s) = Ok true <->
  existsb is_conditions_met
    (events_since s (snd (check_price_conditions s))) = true.
Proof.
  set (NM := fun ev => is_conditions_met ev = false).
  assert (Hlog : forall s0 e,
            appends NM s s0 ->
            appends NM s (add_events s0 [EvLog ERROR (MsgAnalysisError e)])).
  { intros s0 e H. eapply appends_trans; [exact H |].
    apply appends_add_events. repeat constructor. }
  unfold AXSStakingBot.check_price_conditions.
  pose proof (get_klines_not_met "AXSUSDT" "1h" 24 s) as G1.
  destruct (get_klines "AXSUSDT" "1h" 24 s) as [[ks | e] s1] eqn:E1;
    cbn [snd] in G1.
  2:{ rewrite (try_except_caught (bind_Raise E1) eq_refl).
      apply not_met_iff; [reflexivity |]. now apply Hlog. }
  rewrite (try_except_bind_Ok E1).
  pose proof (get_current_price_not_met "AXSUSDT" s1) as G2.
  destruct (get_current_price "AXSUSDT" s1) as [[price | e] s2] eqn:E2;
    cbn [snd] in G2; pose proof (appends_trans G1 G2) as G12.
  2:{ rewrite (try_except_caught (bind_Raise E2) eq_refl).
      apply not_met_iff; [reflexivity |]. now apply Hlog. }
  rewrite (try_except_bind_Ok E2).
  destruct (Py.mean (map close_price ks)) as [avg | e].
  2:{ apply not_met_iff; [reflexivity |]. now apply Hlog. }
  rewrite try_except_bind_lift_Ok.
  pose proof (calculate_rsi_not_met "AXSUSDT" 14 s2) as G3.
  destruct (calculate_rsi "AXSUSDT" 14 s2) as [[rsi | e] s3] eqn:E3;
    cbn [snd] in G3; pose proof (appends_trans G12 G3) as G123.
  2:{ rewrite (try_except_caught (bind_Raise E3) eq_refl).
      apply not_met_iff; [reflexivity |]. now apply Hlog. }
  rewrite (try_except_bind_Ok E3).
  destruct ((price <? avg * Py.f0_95)%float && (rsi <? 30)%float).
  - unfold try_except, bind, logger_info. rewrite emit_eq. cbn [fst snd ret].
    split; [intros _ | reflexivity].
    destruct G123 as (l & El & _). unfold events_since, add_events.
    cbn [trace]. rewrite El, <- app_assoc.
    rewrite skipn_app, skipn_all, Nat.sub_diag. cbn [skipn app].
    rewrite existsb_app. cbn. apply orb_true_r.
  - apply not_met_iff; [reflexivity | exact G123].
Qed.

(** X3. The four ways in which [calculate_rsi] comes to return 0.0 without
    an oscillator, after its one query for [period + 1] hourly candles: an
    API exception of the query, which [get_klines] has logged; any other
    failure of the query, or a numeric field that does not convert, which
    [calculate_rsi] logs; and an answer without candles, which nobody
    logs. *)
Theorem calculate_rsi_sentinel symbol period s :
  let s1 := after_call s (GetKlines symbol "1h" (period + 1)) in
  (forall msg,
     client_get_klines env (clock s) = ApiError msg ->
     calculate_rsi symbol period s =
       (Ok 0%float,
        add_events s1
          [EvLog ERROR (MsgKlinesError (BinanceAPIException msg))])) /\
  (forall msg,
     client_get_klines env (clock s) = Failure msg ->
     calculate_rsi symbol period s =
       (Ok 0%float,
        add_events s1 [EvLog ERROR (MsgRsiError (ExternalError msg))])) /\
  (forall raw,
     client_get_klines env (clock s) = Returned raw ->
     forallb converts raw = false ->
     calculate_rsi symbol period s =
       (Ok 0%float, add_events s1 [EvLog ERROR (MsgRsiError ValueError)])) /\
  (client_get_klines env (clock s) = Returned [] ->
   calculate_rsi symbol period s = (Ok 0%float, s1)).
Proof.
  intro s1. unfold BinanceClient.calculate_rsi.
  destruct (get_klines_failure_cases symbol "1h" (period + 1) s)
    as (Ha & Hf & Hv).
  repeat split.
  - intros msg H. rewrite (try_except_bind_Ok (Ha msg H)). reflexivity.
  - intros msg H.
    rewrite (try_except_caught (bind_Raise (Hf msg H)) eq_refl). reflexivity.
  - intros raw H Hraw.
    rewrite (try_except_caught (bind_Raise (Hv raw H Hraw)) eq_refl).
    reflexivity.
  - intro H.
    rewrite (try_except_bind_Ok
               (get_klines_returned env symbol "1h" (period + 1) s H
                  eq_refl)).
    reflexivity.
Qed.

(** A wait adds its own entry and, when [stop] is called meanwhile, the
    report of the stop: no request. *)
Lemma asyncio_sleep_quiet secs s :
  exists s' tail,
    asyncio_sleep secs s = (Ok tt, s') /\
    trace s' = trace s ++ EvSleep secs :: tail /\
    Forall (fun ev => is_call ev = false) tail.
Proof.
  unfold AXSStakingBot.asyncio_sleep, bind, emit, tick. cbn [clock].
  destruct (stop_requested env (clock s)).
  - rewrite stop_eq. eexists _, _. split; [reflexivity |].
    cbn [trace]. rewrite <- app_assoc. split; [reflexivity |].
    constructor; [reflexivity |]. unfold notification.
    destruct (telegram_enabled (config env)); repeat constructor.
  - eexists _, []. split; [reflexivity |]. split; [reflexivity | constructor].
Qed.

Lemma notification_quiet m :
  Forall (fun ev => is_call ev = false) (notification m).
Proof.
  unfold notification.
  destruct (telegram_enabled (config env)); repeat constructor.
Qed.

Lemma transfer_to_ronin_quiet amount s :
  exists r s' tail,
    transfer_to_ronin amount s = (Ok r, s') /\
    trace s' =
      trace s ++
      EvCall (Withdraw "AXS" (wallet_address (config env))
                       (float_of_Decimal amount) "Ronin") :: tail /\
    Forall (fun ev => is_call ev = false) tail.
Proof.
  rewrite transfer_to_ronin_eq. cbv zeta.
  destruct (client_withdraw env (clock s)) as [w | msg | msg];
    (eexists _, _, _; split; [reflexivity |]);
    cbn [trace add_events after_call]; rewrite <- app_assoc;
    (split; [reflexivity |]); cbn [app];
    repeat first [ apply notification_quiet
                 | apply Forall_cons; [reflexivity |]
                 | apply Forall_nil ].
Qed.

Lemma stake_axs_quiet amount s :
  exists r s' tail,
    stake_axs amount s = (Ok r, s') /\
    trace s' = trace s ++ EvCall (RoninStakeAxs amount) :: tail /\
    Forall (fun ev => is_call ev = false) tail.
Proof.
  rewrite stake_axs_eq. cbv zeta.
  destruct (result_of_client (ronin_stake_axs env (clock s)))
    as [[h |] | e]; [destruct (nonempty h) | |];
    (eexists _, _, _; split; [reflexivity |]);
    cbn [trace add_events after_call]; rewrite <- ?app_assoc;
    (split; [reflexivity |]); cbn [app];
    repeat first [ apply notification_quiet
                 | apply Forall_cons; [reflexivity |]
                 | apply Forall_nil ].
Qed.

Lemma events_since_trace s s' evs :
  trace s' = trace s ++ evs -> events_since s s' = evs.
Proof.
  intro E. unfold events_since.
  now rewrite E, skipn_app, skipn_all, Nat.sub_diag.
Qed.


(** X18. When a run of the pipeline requests the staking, what it added to
    the trace is, in this order: the events of the buy stage, the 10 second
    wait, the withdrawal request, the 900 second wait and the staking
    request, the two requests being for the executed quantity of the order;
    no other request lies between them or after them. *)
Theorem pipeline_waits_between_stages usdt s :
  existsb is_stake_call (events_since s (snd (pipeline usdt s))) = true ->
  exists o s1 amount quiet1 quiet2 quiet3 quiet4,
    execute_buy usdt s = (Ok (Some o), s1) /\
    executedQty o = Some amount /\
    events_since s (snd (pipeline usdt s)) =
      events_since s s1 ++
      EvSleep 10 :: quiet1 ++
      EvCall (Withdraw "AXS" (wallet_address (config env))
                       (float_of_Decimal amount) "Ronin") :: quiet2 ++
      EvSleep 900 :: quiet3 ++
      EvCall (RoninStakeAxs amount) :: quiet4 /\
    Forall (fun ev => is_call ev = false)
      (quiet1 ++ quiet2 ++ quiet3 ++ quiet4).
Proof.
  intro Hstake.
  destruct (pipeline_cases env float_of_Decimal quantize usdt s)
    as [(s1 & Eb & E) | (o & s1 & s2 & Eb & Es & H)].
  { exfalso. rewrite E in Hstake. cbn [snd] in Hstake.
    pose proof (execute_buy_appends env float_of_Decimal quantize usdt s)
      as A. rewrite Eb in A. cbn [snd] in A.
    apply (appends_weaken (@no_later_stage_no_stake)) in A.
    exact (appends_no_call _ A Hstake). }
  assert (A2 : appends no_stake s s2).
  { pose proof (execute_buy_appends env float_of_Decimal quantize usdt s)
      as A. rewrite Eb in A.
    pose proof (asyncio_sleep_appends env 10 s1) as A'. rewrite Es in A'.
    cbn [snd] in A, A'.
    exact (appends_weaken (@no_later_stage_no_stake) (appends_trans A A')). }
  destruct H as [[Eq E] | (amount & r & s3 & Eq & Et & H)].
  { exfalso. rewrite E in Hstake. exact (appends_no_call _ A2 Hstake). }
  assert (A3 : appends no_stake s s3).
  { pose proof (transfer_to_ronin_appends env float_of_Decimal amount s2)
      as A. rewrite Et in A. exact (appends_trans A2 A). }
  destruct H as [[_ E] | (h & -> & Hh & E)].
  { exfalso. rewrite E in Hstake. exact (appends_no_call _ A3 Hstake). }
  pose proof (execute_buy_grows usdt s) as (l1 & T1 & _).
  rewrite Eb in T1. cbn [snd] in T1.
  destruct (asyncio_sleep_quiet 10 s1) as (s2' & q1 & Es' & T2 & Q1).
  rewrite Es in Es'. inversion Es'. subst s2'.
  destruct (transfer_to_ronin_quiet amount s2)
    as (r' & s3' & q2 & Et' & T3 & Q2).
  rewrite Et in Et'. inversion Et'. subst r' s3'.
  destruct (asyncio_sleep_quiet 900 s3) as (s4 & q3 & Es4 & T4 & Q3).
  destruct (stake_axs_quiet amount s4) as (r5 & s5 & q4 & Est & T5 & Q4).
  exists o, s1, amount, q1, q2, q3, q4.
  split; [exact Eb |]. split; [exact Eq |]. split.
  - rewrite E, (bind_Ok Es4), (bind_Ok Est). cbn [snd ret].
    rewrite (@events_since_trace s s1 l1 T1).
    apply events_since_trace.
    rewrite T5, T4, T3, T2, T1, <- !app_assoc. cbn [app].
    repeat (rewrite <- ?app_assoc; cbn [app]). reflexivity.
  - repeat (apply Forall_app; split); assumption.
Qed.

End StageFacts.

(** ** Counting the requests of a pass *)

Section Counting.

Variable f : event -> bool.

Lemma count_app l1 l2 : count f (l1 ++ l2) = (count f l1 + count f l2)%nat.
Proof. unfold count. now rewrite filter_app, length_app. Qed.

Lemma adds_refl s : adds_at_most f 0 s s.
Proof. exists []. split; [now rewrite app_nil_r | apply Nat.le_refl]. Qed.

Lemma adds_trans n1 n2 s1 s2 s3 :
  adds_at_most f n1 s1 s2 -> adds_at_most f n2 s2 s3 ->
  adds_at_most f (n1 + n2) s1 s3.
Proof.
  intros (l1 & E1 & C1) (l2 & E2 & C2). exists (l1 ++ l2). split.
  - now rewrite E2, E1, app_assoc.
  - rewrite count_app. lia.
Qed.

Lemma adds_weaken n n' s s' :
  (n <= n')%nat -> adds_at_most f n s s' -> adds_at_most f n' s s'.
Proof. intros Hn (l & E & C). exists l. split; [exact E | lia]. Qed.

Lemma respects_ret_adds {A} (a : A) : respects (adds_at_most f 0) (ret a).
Proof. intro s. apply adds_refl. Qed.

Lemma respects_raise_adds {A} e : respects (adds_at_most f 0) (@raise A e).
Proof. intro s. apply adds_refl. Qed.

Lemma respects_lift_adds {A} (r : result A) :
  respects (adds_at_most f 0) (lift r).
Proof. intro s. apply adds_refl. Qed.

Lemma respects_tick_adds : respects (adds_at_most f 0) tick.
Proof.
  intro s. exists []. split; [cbn; now rewrite app_nil_r | apply Nat.le_refl].
Qed.

Lemma respects_set_running_adds b :
  respects (adds_at_most f 0) (set_running b).
Proof.
  intro s. exists []. split; [cbn; now rewrite app_nil_r | apply Nat.le_refl].
Qed.

Lemma respects_emit_miss ev :
  f ev = false -> respects (adds_at_most f 0) (emit ev).
Proof.
  intros H s. exists [ev]. split; [reflexivity |].
  unfold count. cbn. rewrite H. apply Nat.le_refl.
Qed.

Lemma respects_emit_hit ev : respects (adds_at_most f 1) (emit ev).
Proof.
  intro s. exists [ev]. split; [reflexivity |].
  unfold count. cbn. destruct (f ev); cbn; lia.
Qed.

Lemma respects_bind_adds {A B} n1 n2 (m : M A) (k : A -> M B) :
  respects (adds_at_most f n1) m ->
  (forall a, respects (adds_at_most f n2) (k a)) ->
  respects (adds_at_most f (n1 + n2)) (bind m k).
Proof.
  intros Hm Hk s. unfold bind. specialize (Hm s).
  destruct (m s) as [[a | e] s1]; cbn [snd] in *.
  - eapply adds_trans; [exact Hm | apply Hk].
  - eapply adds_weaken; [| exact Hm]. lia.
Qed.

Lemma respects_try_except_adds {A} n1 n2 (m : M A) c h :
  respects (adds_at_most f n1) m ->
  (forall e, respects (adds_at_most f n2) (h e)) ->
  respects (adds_at_most f (n1 + n2)) (try_except m c h).
Proof.
  intros Hm Hh s. unfold try_except. specialize (Hm s).
  destruct (m s) as [[a | e] s1]; cbn [snd] in *.
  - eapply adds_weaken; [| exact Hm]. lia.
  - destruct (c e); cbn [snd].
    + eapply adds_trans; [exact Hm | apply Hh].
    + eapply adds_weaken; [| exact Hm]. lia.
Qed.

Lemma respects_if_adds {A} n1 n2 (b : bool) (m1 m2 : M A) :
  respects (adds_at_most f n1) m1 ->
  respects (adds_at_most f n2) m2 ->
  respects (adds_at_most f (Nat.max n1 n2)) (if b then m1 else m2).
Proof.
  intros H1 H2 s. destruct b.
  - eapply adds_weaken; [| apply H1]. lia.
  - eapply adds_weaken; [| apply H2]. lia.
Qed.

Lemma respects_option_adds {A B} n1 n2 (x : option A) (m1 : A -> M B)
    (m2 : M B) :
  (forall a, respects (adds_at_most f n1) (m1 a)) ->
  respects (adds_at_most f n2) m2 ->
  respects (adds_at_most f (Nat.max n1 n2))
    (match x with Some a => m1 a | None => m2 end).
Proof.
  intros H1 H2 s. destruct x as [a |].
  - eapply adds_weaken; [| apply H1]. lia.
  - eapply adds_weaken; [| apply H2]. lia.
Qed.

Lemma respects_list_adds {A B} n1 n2 (x : list A) (m1 : M B)
    (m2 : A -> list A -> M B) :
  respects (adds_at_most f n1) m1 ->
  (forall a l, respects (adds_at_most f n2) (m2 a l)) ->
  respects (adds_at_most f (Nat.max n1 n2))
    (match x with [] => m1 | a :: l => m2 a l end).
Proof.
  intros H1 H2 s. destruct x as [| a l].
  - eapply adds_weaken; [| apply H1]. lia.
  - eapply adds_weaken; [| apply H2]. lia.
Qed.

Lemma adds_bound {A} n n' (m : M A) s :
  respects (adds_at_most f n) m -> (n <= n')%nat ->
  (count f (events_since s (snd (m s))) <= n')%nat.
Proof.
  intros Hm Hn. destruct (Hm s) as (l & E & C). unfold events_since.
  rewrite E, skipn_app, skipn_all, Nat.sub_diag. cbn [skipn app]. lia.
Qed.

End Counting.

(** Bounds the events of a kind that a computation adds, along its
    structure: sums over sequences, maxima over branches. *)
Ltac adds_step :=
  lazymatch goal with
  | |- respects _ (ret _) => eapply respects_ret_adds
  | |- respects _ (raise _) => eapply respects_raise_adds
  | |- respects _ (lift _) => eapply respects_lift_adds
  | |- respects _ tick => eapply respects_tick_adds
  | |- respects _ (set_running _) => eapply respects_set_running_adds
  | |- respects _ (emit _) =>
      first [ eapply respects_emit_miss; reflexivity
            | eapply respects_emit_hit ]
  | |- respects _ (bind _ _) => eapply respects_bind_adds; [| intro]
  | |- respects _ (try_except _ _ _) =>
      eapply respects_try_except_adds; [| intro]
  | |- respects _ (match _ with _ => _ end) =>
      first [ eapply respects_if_adds
            | eapply respects_option_adds; [intro |]
            | eapply respects_list_adds; [| intros ? ?] ]
  | |- respects _ (let _ := _ in _) => cbv zeta
  end.

Ltac adds_tac := repeat adds_step.

Ltac unfold_pass :=
  unfold AXSStakingBot.iteration, AXSStakingBot.poll, AXSStakingBot.pipeline,
    AXSStakingBot.stake_axs, AXSStakingBot.ronin_stake,
    AXSStakingBot.transfer_to_ronin, AXSStakingBot.execute_buy,
    AXSStakingBot.check_price_conditions, BinanceClient.withdraw_to_ronin,
    BinanceClient.place_market_buy, BinanceClient.calculate_rsi,
    BinanceClient.get_current_price, BinanceClient.get_klines,
    BinanceClient.get_balance, AXSStakingBot.asyncio_sleep,
    AXSStakingBot.stop, AXSStakingBot.if_telegram_send_message,
    AXSStakingBot.send_message, coroutine, call, logger_info, logger_error.

Section Budget.

Variable env : Env.
Variable float_of_Decimal : Decimal -> float.
Variable quantize : float -> Decimal -> option float.

Local Abbreviation check_price_conditions :=
  (AXSStakingBot.check_price_conditions env).
Local Abbreviation iteration :=
  (AXSStakingBot.iteration env float_of_Decimal quantize).

(** X21. A pass requests at most one order, at most one withdrawal and at
    most one staking. *)
Theorem pass_requests_at_most_once s :
  let evs := events_since s (snd (iteration s)) in
  (count is_order_call evs <= 1)%nat /\
  (count is_withdraw_call evs <= 1)%nat /\
  (count is_stake_call evs <= 1)%nat.
Proof.
  cbv zeta. repeat split.
  - eapply adds_bound; [unfold_pass; adds_tac | vm_compute; lia].
  - eapply adds_bound; [unfold_pass; adds_tac | vm_compute; lia].
  - eapply adds_bound; [unfold_pass; adds_tac | vm_compute; lia].
Qed.

(** X22. The signal evaluator makes at most three requests, and a pass at
    most nine. *)
Theorem pass_request_budget s :
  (count is_call (events_since s (snd (check_price_conditions s))) <= 3)%nat /\
  (count is_call (events_since s (snd (iteration s))) <= 9)%nat.
Proof.
  split.
  - eapply adds_bound; [unfold_pass; adds_tac | vm_compute; lia].
  - eapply adds_bound; [unfold_pass; adds_tac | vm_compute; lia].
Qed.

End Budget.


(** ** The oscillator at its edges *)

Section OscillatorEdges.

Import Binary64 Binary64Facts.

Variable env : Env.

Local Abbreviation calculate_rsi := (BinanceClient.calculate_rsi env).

Lemma gains_of_losses changes :
  Forall (fun c => (0 <? c)%float = false) changes ->
  map BinanceClient.gain_of changes = repeat 0%float (List.length changes).
Proof.
  induction 1 as [| c cs Hc _ IH]; [reflexivity |].
  cbn [map List.length repeat]. unfold BinanceClient.gain_of at 1.
  now rewrite Hc, IH.
Qed.

Lemma zero_div_positive l :
  nonnegative (Prim2SF l) -> (l =? 0)%float = false -> (0 / l = 0)%float.
Proof.
  rewrite eqb_spec. change (Prim2SF 0) with (S754_zero false).
  intros Hl H0. apply Prim2SF_inj. rewrite div_spec.
  change (Prim2SF 0) with (S754_zero false).
  destruct (Prim2SF l) as [[|] | [|] | | [|] m e];
    try contradiction; try discriminate; reflexivity.
Qed.

(** X5. On a series of at least two candles without a positive
    close-to-close delta, and with a mean loss that is not zero,
    [calculate_rsi] returns exactly 0. *)
Theorem calculate_rsi_zero_without_gains symbol period s raw klines :
  client_get_klines env (clock s) = Returned raw ->
  BinanceClient.format_klines raw = Ok klines ->
  (2 <= List.length klines)%nat ->
  (Z.of_nat (List.length klines) <= 2 ^ 63)%Z ->
  let changes := BinanceClient.changes_of (map close_price klines) in
  Forall (fun change => (0 <? change)%float = false) changes ->
  (Py.np_mean (map BinanceClient.loss_of changes) =? 0)%float = false ->
  fst (calculate_rsi symbol period s) = Ok 0%float.
Proof.
  intros Hk Hf Hlen Hmax changes Hall Hloss.
  rewrite (calculate_rsi_returned env symbol period s Hk Hf).
  2:{ intros ->. cbn [List.length] in Hlen. lia. }
  assert (Hn : (1 <= Z.of_nat (List.length changes) < 2 ^ 63)%Z).
  { unfold changes. rewrite changes_of_length, length_map. lia. }
  unfold BinanceClient.rsi_of_klines. fold changes. rewrite Hloss.
  rewrite (gains_of_losses Hall), (np_mean_zeros_eq _ Hn).
  rewrite zero_div_positive; [reflexivity | | exact Hloss].
  apply np_mean_nonnegative; [now rewrite length_map |].
  apply Forall_map, Forall_forall. intros c _. apply loss_of_nonnegative.
Qed.

(** X4. On a single candle there is no close-to-close delta: the mean gain
    and the mean loss are means of nothing, and [calculate_rsi] returns NaN,
    which is not below 30. *)
Theorem calculate_rsi_single_candle symbol period s k fk :
  client_get_klines env (clock s) = Returned [k] ->
  BinanceClient.format_kline k = Ok fk ->
  exists rsi,
    fst (calculate_rsi symbol period s) = Ok rsi /\
    PrimFloat.is_nan rsi = true /\
    (rsi <? 30)%float = false.
Proof.
  intros Hk Hf.
  exists (BinanceClient.rsi_of_klines [fk]). split.
  - apply (calculate_rsi_returned env symbol period s Hk);
      [| discriminate].
    cbn [BinanceClient.format_klines]. now rewrite Hf.
  - split; reflexivity.
Qed.

End OscillatorEdges.

(** ** The further properties on concrete worlds *)

(** X1 on the calm world. *)
Lemma get_klines_formats_rows_witness :
  exists fks,
    BinanceClient.get_klines Example.calm "AXSUSDT" "1h" 24 Example.fresh =
      (Ok fks, after_call Example.fresh (GetKlines "AXSUSDT" "1h" 24)) /\
    Forall2 formats (repeat (Example.candle 100) 24) fks.
Proof.
  apply (@get_klines_formats_rows Example.calm "AXSUSDT" "1h" 24
           Example.fresh (repeat (Example.candle 100) 24));
    reflexivity.
Defined.

(** X7 on the calm world: the order that the exchange fills is returned. *)
Lemma place_market_buy_outcomes_witness :
  BinanceClient.place_market_buy Example.calm Example.float_of_Decimal
    Example.quantize "AXSUSDT" (DFinite 50) Example.fresh =
  (Ok (Some Example.filled),
   after_call
     (after_call (after_call Example.fresh (GetSymbolTicker "AXSUSDT"))
                 (GetSymbolInfo "AXSUSDT"))
     (OrderMarketBuy "AXSUSDT"
        (Example.float_of_Decimal (DFinite 50) / 94)%float)).
Proof.
  apply (@place_market_buy_outcomes Example.calm
           Example.float_of_Decimal Example.quantize "AXSUSDT" (DFinite 50)
           Example.fresh 94%float
           (after_call Example.fresh (GetSymbolTicker "AXSUSDT"))
           [ {| filterType := "LOT_SIZE";
                stepSize := Some (DFinite (1 # 100)) |} ]
           {| filterType := "LOT_SIZE";
              stepSize := Some (DFinite (1 # 100)) |}
           (DFinite (1 # 100))
           (Example.float_of_Decimal (DFinite 50) / 94)%float
           eq_refl eq_refl eq_refl eq_refl eq_refl eq_refl).
  reflexivity.
Defined.

(** X14 on the world that is short of funds: 10 USDT against 50. *)
Lemma no_trading_below_amount_witness :
  Forall outside_evaluator_and_pipeline
    (events_since Example.fresh
       (snd (AXSStakingBot.iteration Worlds.short_of_funds
               Example.float_of_Decimal Example.quantize Example.fresh))).
Proof.
  apply (@no_trading_below_amount Worlds.short_of_funds
           Example.float_of_Decimal Example.quantize Example.fresh
           (DFinite 10)
           (after_call Example.fresh (GetAssetBalance "USDT")) eq_refl).
  intros a H. injection H as <-. discriminate.
Defined.

(** X15 on the world with a buy signal, whose pass requests an order. *)
Lemma order_requires_balance_and_signal_witness :
  exists b s1 a s2,
    BinanceClient.get_balance Worlds.buy_signal "USDT" Example.fresh
      = (Ok b, s1) /\
    usdt_amount (config Worlds.buy_signal) = Ok a /\
    Decimal_ge b a = Ok true /\
    AXSStakingBot.check_price_conditions Worlds.buy_signal s1 = (Ok true, s2).
Proof.
  apply (@order_requires_balance_and_signal Worlds.buy_signal
           Example.float_of_Decimal Example.quantize Example.fresh).
  vm_compute. reflexivity.
Defined.


(** X17 on the world whose filled order has a garbled quantity. *)
Lemma pipeline_raises_only_on_quantity_witness :
  exists o s1,
    AXSStakingBot.execute_buy Worlds.quantity_garbled
      Example.float_of_Decimal Example.quantize (DFinite 50) Example.fresh
      = (Ok (Some o), s1) /\
    status o = "FILLED"%string /\
    executedQty o = None.
Proof.
  destruct (@pipeline_raises_only_on_quantity Worlds.quantity_garbled
              Example.float_of_Decimal Example.quantize (DFinite 50)
              Example.fresh InvalidOperation
              (snd (AXSStakingBot.pipeline Worlds.quantity_garbled
                      Example.float_of_Decimal Example.quantize (DFinite 50)
                      Example.fresh)))
    as (_ & o & s1 & Hb & Hf & Hq & _).
  - vm_compute. reflexivity.
  - exists o, s1. repeat split; assumption.
Defined.

(** X20 on the world where [stop] is called during the wait: three passes
    are allowed, one is made. *)
Lemma stop_during_last_sleep_ends_loop_witness :
  AXSStakingBot.while_running Worlds.stop_called Example.float_of_Decimal
    Example.quantize 3 Example.fresh =
  (Ok LoopExited,
   snd (AXSStakingBot.iteration Worlds.stop_called Example.float_of_Decimal
          Example.quantize Example.fresh)).
Proof.
  apply (@stop_during_last_sleep_ends_loop Worlds.stop_called
           Example.float_of_Decimal Example.quantize 2 Example.fresh 300%Z
           (after_call Example.fresh (GetAssetBalance "USDT"))).
  - reflexivity.
  - vm_compute. reflexivity.
  - reflexivity.
Defined.

(** X12 on the world without candles. *)
Lemma check_price_conditions_without_candles_witness :
  fst (AXSStakingBot.check_price_conditions Worlds.candles_down
         Example.fresh) = Ok false.
Proof.
  destruct (@check_price_conditions_without_candles Worlds.candles_down
              Example.fresh
              (snd (BinanceClient.get_klines Worlds.candles_down "AXSUSDT"
                      "1h" 24 Example.fresh)))
    as (e & -> & _).
  - vm_compute. reflexivity.
  - reflexivity.
Defined.

(** X5 on the falling closes of the oversold world: fourteen losses of 1. *)
Lemma calculate_rsi_zero_without_gains_witness :
  fst (BinanceClient.calculate_rsi Example.oversold "AXSUSDT" 14
         Worlds.after_snapshot) = Ok 0%float.
Proof.
  apply (@calculate_rsi_zero_without_gains Example.oversold "AXSUSDT" 14
           Worlds.after_snapshot
           (map Example.candle Example.falling)
           (map Example.formatted Example.falling)
           eq_refl eq_refl).
  - cbn. lia.
  - cbn. lia.
  - vm_compute. repeat constructor.
  - vm_compute. reflexivity.
Defined.

(** X4 on the world with one candle. *)
Lemma calculate_rsi_single_candle_witness :
  exists rsi,
    fst (BinanceClient.calculate_rsi Worlds.single_candle "AXSUSDT" 14
           Example.fresh) = Ok rsi /\
    PrimFloat.is_nan rsi = true /\
    (rsi <? 30)%float = false.
Proof.
  apply (@calculate_rsi_single_candle Worlds.single_candle "AXSUSDT" 14
           Example.fresh (Example.candle 100) (Example.formatted 100)
           eq_refl eq_refl).
Defined.

(** X6 on the calm world: the order is for 50 USDT over the price of 94. *)
Lemma place_market_buy_order_quantity_witness :
  exists price s1 filters lot step,
    BinanceClient.get_current_price Example.calm "AXSUSDT" Example.fresh
      = (Ok price, s1) /\
    Py.truthy price = true /\
    client_get_symbol_info Example.calm (clock s1) = Returned filters /\
    find is_lot_size filters = Some lot /\
    stepSize lot = Some step /\
    Example.quantize (Example.float_of_Decimal (DFinite 50) / price)%float
      step
      = Some (Example.float_of_Decimal (DFinite 50) / 94)%float.
Proof.
  apply (@place_market_buy_order_quantity Example.calm
           Example.float_of_Decimal Example.quantize "AXSUSDT" (DFinite 50)
           Example.fresh "AXSUSDT"
           (Example.float_of_Decimal (DFinite 50) / 94)%float).
  vm_compute. tauto.
Defined.

(** X18 on the calm world, whose pipeline goes through its three stages. *)
Lemma pipeline_waits_between_stages_witness :
  exists o s1 amount quiet1 quiet2 quiet3 quiet4,
    AXSStakingBot.execute_buy Example.calm Example.float_of_Decimal
      Example.quantize (DFinite 50) Example.fresh = (Ok (Some o), s1) /\
    executedQty o = Some amount /\
    events_since Example.fresh
      (snd (AXSStakingBot.pipeline Example.calm Example.float_of_Decimal
              Example.quantize (DFinite 50) Example.fresh)) =
      events_since Example.fresh s1 ++
      EvSleep 10 :: quiet1 ++
      EvCall (Withdraw "AXS" (wallet_address (config Example.calm))
                       (Example.float_of_Decimal amount) "Ronin") :: quiet2 ++
      EvSleep 900 :: quiet3 ++
      EvCall (RoninStakeAxs amount) :: quiet4 /\
    Forall (fun ev => is_call ev = false)
      (quiet1 ++ quiet2 ++ quiet3 ++ quiet4).
Proof.
  apply (@pipeline_waits_between_stages Example.calm
           Example.float_of_Decimal Example.quantize (DFinite 50)
           Example.fresh).
  vm_compute. reflexivity.
Defined.

(** The bounds of X21 and X22 are reached on the world with a buy signal:
    its pass makes nine requests, one of them an order. *)
Example pass_budget_is_reached :
  let evs :=
    events_since Example.fresh
      (snd (AXSStakingBot.iteration Worlds.buy_signal
              Example.float_of_Decimal Example.quantize Example.fresh)) in
  count is_call evs = 9%nat /\ count is_order_call evs = 1%nat.
Proof. vm_compute. split; reflexivity. Qed.

